(** * Real-time DJ sessions: model of the session store, the REST mutators
      and the WebSocket consumer of [realtime_dj]

    The development embeds the Django models of [realtime_dj/models.py],
    the view actions of [realtime_dj/views.py], the creation validator of
    [realtime_dj/serializers.py] and the session consumer of
    [realtime_dj/consumers.py] as executable Rocq functions, and proves the
    properties the specification states about them.

    Conventions of the embedding.
    - A table is a finite map from primary key to row ([gmap]); a queryset
      [filter] is a map filter, [.exists()] a non-emptiness test, a bulk
      [.update(...)] a map over the selected rows.
    - Primary keys are UUIDs, kept in their canonical text form (the form
      [str(session.id)] prints and the URL carries).
    - [FloatField] values are IEEE 754 binary64 numbers, as Python floats
      are; [max] on them is Python's.
    - [timezone.now()] is read from the environment: every call site gets
      its own reading as an argument.
    - Requests are handled one at a time: a view runs to completion on the
      store before the next one starts.
    - The store is written by the REST views, the session consumer and the
      management command; the Django admin is outside the model. *)

From Stdlib Require Import Floats ZArith.
From stdpp Require Import gmap strings list fin_maps pretty.

Local Open Scope Z_scope.

(** ** Basic data *)

Abbreviation uuid := string.
Abbreviation user_id := positive.
Abbreviation datetime := Z.

(** Decoded JSON documents ([json.loads] output, [JSONField] contents).
    A Python dict is a finite map on its string keys. *)
#[local] Set Warnings "-register-all,-inexact-float".

Inductive json :=
| JNull
| JBool (b : bool)
| JInt (z : Z)
| JFloat (f : float)
| JStr (s : string)
| JList (l : list json)
| JDict (d : gmap string json).

(** [DJTrackInstance.DECK_CHOICES]. *)
Inductive deck_choice := DeckA | DeckB.

#[global] Instance deck_choice_eq_dec : EqDecision deck_choice.
Proof. solve_decision. Defined.

Module DJSession.

(** Row of [realtime_dj_djsession] (models.py, class DJSession). *)
Record t := mk {
  id : uuid;  (* UUIDField, primary key *)
  dj : user_id;  (* ForeignKey(User) *)
  station : option uuid;  (* ForeignKey(Station), null=True *)
  session_name : string;
  description : string;
  started_at : datetime;  (* default=timezone.now *)
  ended_at : option datetime;  (* null=True *)
  is_live : bool;  (* default=False *)
  is_recording : bool;  (* default=False *)
  sample_rate : Z;  (* default=48000 *)
  bit_depth : Z;  (* default=16 *)
  channels : Z;  (* default=2 *)
  current_listeners : Z;  (* PositiveIntegerField, default=0 *)
  peak_listeners : Z;  (* PositiveIntegerField, default=0 *)
  master_level_left : float;  (* default=0.0 *)
  master_level_right : float;  (* default=0.0 *)
  channel_a_level : float;  (* default=0.0 *)
  channel_b_level : float;  (* default=0.0 *)
  crossfader_position : float;  (* default=0.0 *)
  master_volume : float;  (* default=0.8 *)
  created_at : datetime;  (* auto_now_add *)
  updated_at : datetime  (* auto_now *)
}.

Definition set_started_at (v : datetime) (r : t) : t :=
  mk (id r) (dj r) (station r) (session_name r) (description r) v (ended_at r)
    (is_live r) (is_recording r) (sample_rate r) (bit_depth r) (channels r)
    (current_listeners r) (peak_listeners r) (master_level_left r)
    (master_level_right r) (channel_a_level r) (channel_b_level r)
    (crossfader_position r) (master_volume r) (created_at r) (updated_at r).

Definition set_ended_at (v : option datetime) (r : t) : t :=
  mk (id r) (dj r) (station r) (session_name r) (description r) (started_at r)
    v (is_live r) (is_recording r) (sample_rate r) (bit_depth r) (channels r)
    (current_listeners r) (peak_listeners r) (master_level_left r)
    (master_level_right r) (channel_a_level r) (channel_b_level r)
    (crossfader_position r) (master_volume r) (created_at r) (updated_at r).

Definition set_is_live (v : bool) (r : t) : t :=
  mk (id r) (dj r) (station r) (session_name r) (description r) (started_at r)
    (ended_at r) v (is_recording r) (sample_rate r) (bit_depth r) (channels r)
    (current_listeners r) (peak_listeners r) (master_level_left r)
    (master_level_right r) (channel_a_level r) (channel_b_level r)
    (crossfader_position r) (master_volume r) (created_at r) (updated_at r).

Definition set_is_recording (v : bool) (r : t) : t :=
  mk (id r) (dj r) (station r) (session_name r) (description r) (started_at r)
    (ended_at r) (is_live r) v (sample_rate r) (bit_depth r) (channels r)
    (current_listeners r) (peak_listeners r) (master_level_left r)
    (master_level_right r) (channel_a_level r) (channel_b_level r)
    (crossfader_position r) (master_volume r) (created_at r) (updated_at r).

Definition set_current_listeners (v : Z) (r : t) : t :=
  mk (id r) (dj r) (station r) (session_name r) (description r) (started_at r)
    (ended_at r) (is_live r) (is_recording r) (sample_rate r) (bit_depth r)
    (channels r) v (peak_listeners r) (master_level_left r)
    (master_level_right r) (channel_a_level r) (channel_b_level r)
    (crossfader_position r) (master_volume r) (created_at r) (updated_at r).

Definition set_peak_listeners (v : Z) (r : t) : t :=
  mk (id r) (dj r) (station r) (session_name r) (description r) (started_at r)
    (ended_at r) (is_live r) (is_recording r) (sample_rate r) (bit_depth r)
    (channels r) (current_listeners r) v (master_level_left r)
    (master_level_right r) (channel_a_level r) (channel_b_level r)
    (crossfader_position r) (master_volume r) (created_at r) (updated_at r).

Definition set_master_level_left (v : float) (r : t) : t :=
  mk (id r) (dj r) (station r) (session_name r) (description r) (started_at r)
    (ended_at r) (is_live r) (is_recording r) (sample_rate r) (bit_depth r)
    (channels r) (current_listeners r) (peak_listeners r) v
    (master_level_right r) (channel_a_level r) (channel_b_level r)
    (crossfader_position r) (master_volume r) (created_at r) (updated_at r).

Definition set_master_level_right (v : float) (r : t) : t :=
  mk (id r) (dj r) (station r) (session_name r) (description r) (started_at r)
    (ended_at r) (is_live r) (is_recording r) (sample_rate r) (bit_depth r)
    (channels r) (current_listeners r) (peak_listeners r)
    (master_level_left r) v (channel_a_level r) (channel_b_level r)
    (crossfader_position r) (master_volume r) (created_at r) (updated_at r).

Definition set_channel_a_level (v : float) (r : t) : t :=
  mk (id r) (dj r) (station r) (session_name r) (description r) (started_at r)
    (ended_at r) (is_live r) (is_recording r) (sample_rate r) (bit_depth r)
    (channels r) (current_listeners r) (peak_listeners r)
    (master_level_left r) (master_level_right r) v (channel_b_level r)
    (crossfader_position r) (master_volume r) (created_at r) (updated_at r).

Definition set_channel_b_level (v : float) (r : t) : t :=
  mk (id r) (dj r) (station r) (session_name r) (description r) (started_at r)
    (ended_at r) (is_live r) (is_recording r) (sample_rate r) (bit_depth r)
    (channels r) (current_listeners r) (peak_listeners r)
    (master_level_left r) (master_level_right r) (channel_a_level r) v
    (crossfader_position r) (master_volume r) (created_at r) (updated_at r).

Definition set_crossfader_position (v : float) (r : t) : t :=
  mk (id r) (dj r) (station r) (session_name r) (description r) (started_at r)
    (ended_at r) (is_live r) (is_recording r) (sample_rate r) (bit_depth r)
    (channels r) (current_listeners r) (peak_listeners r)
    (master_level_left r) (master_level_right r) (channel_a_level r)
    (channel_b_level r) v (master_volume r) (created_at r) (updated_at r).

Definition set_master_volume (v : float) (r : t) : t :=
  mk (id r) (dj r) (station r) (session_name r) (description r) (started_at r)
    (ended_at r) (is_live r) (is_recording r) (sample_rate r) (bit_depth r)
    (channels r) (current_listeners r) (peak_listeners r)
    (master_level_left r) (master_level_right r) (channel_a_level r)
    (channel_b_level r) (crossfader_position r) v (created_at r)
    (updated_at r).

Definition set_updated_at (v : datetime) (r : t) : t :=
  mk (id r) (dj r) (station r) (session_name r) (description r) (started_at r)
    (ended_at r) (is_live r) (is_recording r) (sample_rate r) (bit_depth r)
    (channels r) (current_listeners r) (peak_listeners r)
    (master_level_left r) (master_level_right r) (channel_a_level r)
    (channel_b_level r) (crossfader_position r) (master_volume r)
    (created_at r) v.

End DJSession.

Module DJTrackInstance.

(** Row of [realtime_dj_djtrackinstance] (models.py, class DJTrackInstance). *)
Record t := mk {
  id : uuid;  (* UUIDField, primary key *)
  session : uuid;  (* ForeignKey(DJSession) *)
  track : option uuid;  (* ForeignKey(music.Track), null=True *)
  track_title : string;
  track_artist : string;
  track_duration : option float;  (* null=True *)
  deck : deck_choice;  (* choices=DECK_CHOICES *)
  started_at : datetime;  (* default=timezone.now *)
  ended_at : option datetime;  (* null=True *)
  current_position : float;  (* default=0.0 *)
  playback_speed : float;  (* default=1.0 *)
  is_playing : bool;  (* default=False *)
  is_looping : bool;  (* default=False *)
  volume : float;  (* default=0.8 *)
  eq_low : float;  (* default=0.0 *)
  eq_mid : float;  (* default=0.0 *)
  eq_high : float;  (* default=0.0 *)
  detected_bpm : option float;  (* null=True *)
  manual_bpm : option float;  (* null=True *)
  is_synced : bool;  (* default=False *)
  cue_points : gmap string json;  (* JSONField(default=dict) *)
  hot_cues : gmap string json;  (* JSONField(default=dict) *)
  created_at : datetime;  (* auto_now_add *)
  updated_at : datetime  (* auto_now *)
}.

Definition set_ended_at (v : option datetime) (r : t) : t :=
  mk (id r) (session r) (track r) (track_title r) (track_artist r)
    (track_duration r) (deck r) (started_at r) v (current_position r)
    (playback_speed r) (is_playing r) (is_looping r) (volume r) (eq_low r)
    (eq_mid r) (eq_high r) (detected_bpm r) (manual_bpm r) (is_synced r)
    (cue_points r) (hot_cues r) (created_at r) (updated_at r).

Definition set_current_position (v : float) (r : t) : t :=
  mk (id r) (session r) (track r) (track_title r) (track_artist r)
    (track_duration r) (deck r) (started_at r) (ended_at r) v
    (playback_speed r) (is_playing r) (is_looping r) (volume r) (eq_low r)
    (eq_mid r) (eq_high r) (detected_bpm r) (manual_bpm r) (is_synced r)
    (cue_points r) (hot_cues r) (created_at r) (updated_at r).

Definition set_playback_speed (v : float) (r : t) : t :=
  mk (id r) (session r) (track r) (track_title r) (track_artist r)
    (track_duration r) (deck r) (started_at r) (ended_at r)
    (current_position r) v (is_playing r) (is_looping r) (volume r) (eq_low r)
    (eq_mid r) (eq_high r) (detected_bpm r) (manual_bpm r) (is_synced r)
    (cue_points r) (hot_cues r) (created_at r) (updated_at r).

Definition set_is_playing (v : bool) (r : t) : t :=
  mk (id r) (session r) (track r) (track_title r) (track_artist r)
    (track_duration r) (deck r) (started_at r) (ended_at r)
    (current_position r) (playback_speed r) v (is_looping r) (volume r)
    (eq_low r) (eq_mid r) (eq_high r) (detected_bpm r) (manual_bpm r)
    (is_synced r) (cue_points r) (hot_cues r) (created_at r) (updated_at r).

Definition set_is_looping (v : bool) (r : t) : t :=
  mk (id r) (session r) (track r) (track_title r) (track_artist r)
    (track_duration r) (deck r) (started_at r) (ended_at r)
    (current_position r) (playback_speed r) (is_playing r) v (volume r)
    (eq_low r) (eq_mid r) (eq_high r) (detected_bpm r) (manual_bpm r)
    (is_synced r) (cue_points r) (hot_cues r) (created_at r) (updated_at r).

Definition set_volume (v : float) (r : t) : t :=
  mk (id r) (session r) (track r) (track_title r) (track_artist r)
    (track_duration r) (deck r) (started_at r) (ended_at r)
    (current_position r) (playback_speed r) (is_playing r) (is_looping r) v
    (eq_low r) (eq_mid r) (eq_high r) (detected_bpm r) (manual_bpm r)
    (is_synced r) (cue_points r) (hot_cues r) (created_at r) (updated_at r).

Definition set_eq_low (v : float) (r : t) : t :=
  mk (id r) (session r) (track r) (track_title r) (track_artist r)
    (track_duration r) (deck r) (started_at r) (ended_at r)
    (current_position r) (playback_speed r) (is_playing r) (is_looping r)
    (volume r) v (eq_mid r) (eq_high r) (detected_bpm r) (manual_bpm r)
    (is_synced r) (cue_points r) (hot_cues r) (created_at r) (updated_at r).

Definition set_eq_mid (v : float) (r : t) : t :=
  mk (id r) (session r) (track r) (track_title r) (track_artist r)
    (track_duration r) (deck r) (started_at r) (ended_at r)
    (current_position r) (playback_speed r) (is_playing r) (is_looping r)
    (volume r) (eq_low r) v (eq_high r) (detected_bpm r) (manual_bpm r)
    (is_synced r) (cue_points r) (hot_cues r) (created_at r) (updated_at r).

Definition set_eq_high (v : float) (r : t) : t :=
  mk (id r) (session r) (track r) (track_title r) (track_artist r)
    (track_duration r) (deck r) (started_at r) (ended_at r)
    (current_position r) (playback_speed r) (is_playing r) (is_looping r)
    (volume r) (eq_low r) (eq_mid r) v (detected_bpm r) (manual_bpm r)
    (is_synced r) (cue_points r) (hot_cues r) (created_at r) (updated_at r).

Definition set_manual_bpm (v : option float) (r : t) : t :=
  mk (id r) (session r) (track r) (track_title r) (track_artist r)
    (track_duration r) (deck r) (started_at r) (ended_at r)
    (current_position r) (playback_speed r) (is_playing r) (is_looping r)
    (volume r) (eq_low r) (eq_mid r) (eq_high r) (detected_bpm r) v
    (is_synced r) (cue_points r) (hot_cues r) (created_at r) (updated_at r).

Definition set_is_synced (v : bool) (r : t) : t :=
  mk (id r) (session r) (track r) (track_title r) (track_artist r)
    (track_duration r) (deck r) (started_at r) (ended_at r)
    (current_position r) (playback_speed r) (is_playing r) (is_looping r)
    (volume r) (eq_low r) (eq_mid r) (eq_high r) (detected_bpm r)
    (manual_bpm r) v (cue_points r) (hot_cues r) (created_at r) (updated_at r).

Definition set_cue_points (v : gmap string json) (r : t) : t :=
  mk (id r) (session r) (track r) (track_title r) (track_artist r)
    (track_duration r) (deck r) (started_at r) (ended_at r)
    (current_position r) (playback_speed r) (is_playing r) (is_looping r)
    (volume r) (eq_low r) (eq_mid r) (eq_high r) (detected_bpm r)
    (manual_bpm r) (is_synced r) v (hot_cues r) (created_at r) (updated_at r).

Definition set_hot_cues (v : gmap string json) (r : t) : t :=
  mk (id r) (session r) (track r) (track_title r) (track_artist r)
    (track_duration r) (deck r) (started_at r) (ended_at r)
    (current_position r) (playback_speed r) (is_playing r) (is_looping r)
    (volume r) (eq_low r) (eq_mid r) (eq_high r) (detected_bpm r)
    (manual_bpm r) (is_synced r) (cue_points r) v (created_at r)
    (updated_at r).

Definition set_updated_at (v : datetime) (r : t) : t :=
  mk (id r) (session r) (track r) (track_title r) (track_artist r)
    (track_duration r) (deck r) (started_at r) (ended_at r)
    (current_position r) (playback_speed r) (is_playing r) (is_looping r)
    (volume r) (eq_low r) (eq_mid r) (eq_high r) (detected_bpm r)
    (manual_bpm r) (is_synced r) (cue_points r) (hot_cues r) (created_at r) v.

End DJTrackInstance.

Module AudioLevelSnapshot.

(** Row of [realtime_dj_audiolevelsnapshot] (models.py, class AudioLevelSnapshot). *)
Record t := mk {
  id : uuid;  (* UUIDField, primary key *)
  session : uuid;  (* ForeignKey(DJSession) *)
  timestamp : datetime;  (* default=timezone.now *)
  master_left : float;
  master_right : float;
  master_peak_left : float;
  master_peak_right : float;
  channel_a_left : float;
  channel_a_right : float;
  channel_b_left : float;
  channel_b_right : float;
  channel_a_peak : float;
  channel_b_peak : float;
  frequency_data : option json  (* JSONField(null=True) *)
}.

End AudioLevelSnapshot.

Module LiveStreamMetrics.

(** Row of [realtime_dj_livestreammetrics] (models.py, class LiveStreamMetrics). *)
Record t := mk {
  id : uuid;  (* UUIDField, primary key *)
  session : uuid;  (* ForeignKey(DJSession) *)
  timestamp : datetime;  (* default=timezone.now *)
  current_listeners : Z;  (* PositiveIntegerField, default=0 *)
  unique_listeners : Z;  (* PositiveIntegerField, default=0 *)
  bitrate : Z;  (* bits per second *)
  dropped_frames : Z;  (* default=0 *)
  buffer_health : float;  (* default=1.0 *)
  bandwidth_usage : Z;  (* bytes per second *)
  latency : option float;  (* milliseconds, null=True *)
  listener_locations : option json  (* JSONField(null=True) *)
}.

End LiveStreamMetrics.

(** ** The store *)

(** The four tables of the real-time subsystem, keyed by primary key. *)
Record database := mk_database {
  djsession : gmap uuid DJSession.t;
  djtrackinstance : gmap uuid DJTrackInstance.t;
  audiolevelsnapshot : gmap uuid AudioLevelSnapshot.t;
  livestreammetrics : gmap uuid LiveStreamMetrics.t
}.

Definition with_djsession (m : gmap uuid DJSession.t) (d : database) : database :=
  mk_database m (djtrackinstance d) (audiolevelsnapshot d) (livestreammetrics d).

Definition with_djtrackinstance (m : gmap uuid DJTrackInstance.t) (d : database)
  : database :=
  mk_database (djsession d) m (audiolevelsnapshot d) (livestreammetrics d).

Definition with_audiolevelsnapshot (m : gmap uuid AudioLevelSnapshot.t)
  (d : database) : database :=
  mk_database (djsession d) (djtrackinstance d) m (livestreammetrics d).

Definition with_livestreammetrics (m : gmap uuid LiveStreamMetrics.t)
  (d : database) : database :=
  mk_database (djsession d) (djtrackinstance d) (audiolevelsnapshot d) m.

(** Python exceptions the modelled code can raise. *)
Inductive py_exception :=
| JSONDecodeError
| KeyError (key : string)
| TypeError
| AttributeError
| ValueError
| OverflowError
| DoesNotExist
| IntegrityError
| DatabaseError
| ValidationError (detail : string).

(** [DJSession.is_active] (models.py): [self.ended_at is None]. *)
Definition is_active (s : DJSession.t) : bool :=
  match DJSession.ended_at s with None => true | Some _ => false end.

(** [session.save()]: every column of the instance is written to the row of
    its primary key; [auto_now] stamps [updated_at], on the instance too. *)
Definition DJSession_save (auto_now : datetime) (obj : DJSession.t)
  (d : database) : DJSession.t * database :=
  let obj := DJSession.set_updated_at auto_now obj in
  (obj, with_djsession (<[DJSession.id obj := obj]> (djsession d)) d).

(** [track_instance.save()]. *)
Definition DJTrackInstance_save (auto_now : datetime) (obj : DJTrackInstance.t)
  (d : database) : DJTrackInstance.t * database :=
  let obj := DJTrackInstance.set_updated_at auto_now obj in
  (obj, with_djtrackinstance (<[DJTrackInstance.id obj := obj]> (djtrackinstance d)) d).

(** [session.save(update_fields=['master_level_left', 'master_level_right',
    'channel_a_level', 'channel_b_level'])]: an UPDATE of these four columns
    of the row, taken from the instance; the other columns keep what the row
    holds.  Django raises [DatabaseError] when no row is affected. *)
Definition DJSession_save_levels (obj : DJSession.t) (d : database)
  : py_exception + database :=
  match djsession d !! DJSession.id obj with
  | None => inl DatabaseError
  | Some row =>
      let row' :=
        DJSession.set_channel_b_level (DJSession.channel_b_level obj)
          (DJSession.set_channel_a_level (DJSession.channel_a_level obj)
             (DJSession.set_master_level_right (DJSession.master_level_right obj)
                (DJSession.set_master_level_left (DJSession.master_level_left obj)
                   row))) in
      inr (with_djsession (<[DJSession.id obj := row']> (djsession d)) d)
  end.

(** [session.save(update_fields=['current_listeners', 'peak_listeners'])]. *)
Definition DJSession_save_listeners (obj : DJSession.t) (d : database)
  : py_exception + database :=
  match djsession d !! DJSession.id obj with
  | None => inl DatabaseError
  | Some row =>
      let row' :=
        DJSession.set_peak_listeners (DJSession.peak_listeners obj)
          (DJSession.set_current_listeners (DJSession.current_listeners obj) row) in
      inr (with_djsession (<[DJSession.id obj := row']> (djsession d)) d)
  end.

(** The queryset
    [DJTrackInstance.objects.filter(session=s, ended_at__isnull=True)]. *)
Definition active_in_session (s : uuid) (t : DJTrackInstance.t) : bool :=
  bool_decide (DJTrackInstance.session t = s)
  && bool_decide (DJTrackInstance.ended_at t = None).

(** The queryset
    [DJTrackInstance.objects.filter(session=s, deck=k, ended_at__isnull=True)]. *)
Definition active_on_deck (s : uuid) (k : deck_choice) (t : DJTrackInstance.t)
  : bool :=
  active_in_session s t && bool_decide (DJTrackInstance.deck t = k).

(** [queryset.filter(...)] and [queryset.exists()] over a table. *)
Definition objects_filter {A} (p : A → bool) (table : gmap uuid A) : gmap uuid A :=
  filter (λ kv, p kv.2 = true) table.

Definition queryset_exists {A} (q : gmap uuid A) : bool :=
  negb (bool_decide (map_to_list q = [])).

(** [queryset.update(ended_at=now, is_playing=False)] on the rows selected
    by [p]; a bulk update does not touch [auto_now] columns. *)
Definition end_tracks (now : datetime) (p : DJTrackInstance.t → bool)
  (table : gmap uuid DJTrackInstance.t) : gmap uuid DJTrackInstance.t :=
  (λ t, if p t
        then DJTrackInstance.set_is_playing false
               (DJTrackInstance.set_ended_at (Some now) t)
        else t) <$> table.

(** ** Channel layer events and HTTP responses *)

(** Messages handed to [channel_layer.group_send]; the constructor is the
    ['type'] entry of the dict, the arguments its other entries. *)
Inductive channel_event :=
| session_event (event : string) (session_id : uuid) (data : DJSession.t)
| session_update (session_id : uuid) (data : DJSession.t)
| track_event (event : string) (track_id : uuid) (deck : deck_choice)
    (data : DJTrackInstance.t)
| track_update (track_id : uuid) (deck : deck_choice) (data : DJTrackInstance.t)
| audio_levels (data : AudioLevelSnapshot.t)
| stream_metrics (data : LiveStreamMetrics.t)
| audio_levels_update (levels : json)
| mixer_state_update (mixer : json)
| track_control_update (track : json)
| listener_count_update (listeners : json).

(** [f"dj_session_{session.id}"]. *)
Definition room_group_name (session_id : uuid) : string :=
  "dj_session_" +:+ session_id.

(** A published message: group name and event. *)
Abbreviation group_message := (string * channel_event)%type.

Inductive track_message :=
| TrackPlaying
| TrackPaused
| SeekTo (position : float)
| CuePointAdded (cue_name : string) (position : json).

(** Response bodies. *)
Inductive response_data :=
| ErrorBody (error : string)
| SessionBody (message : string) (session : DJSession.t)
| TrackBody (message : track_message) (track : DJTrackInstance.t)
| Serialized
| ValidationErrors (detail : string)
| NotFound.

Record Response := mk_Response { data : response_data; status : Z }.

Definition HTTP_200_OK : Z := 200.
Definition HTTP_201_CREATED : Z := 201.
Definition HTTP_204_NO_CONTENT : Z := 204.
Definition HTTP_400_BAD_REQUEST : Z := 400.
Definition HTTP_404_NOT_FOUND : Z := 404.
Definition HTTP_500_INTERNAL_SERVER_ERROR : Z := 500.

(** What a view leaves behind: the response, the store, and the messages
    published to the channel layer, oldest first. *)
Abbreviation view_result := (Response * database * list group_message)%type.

Definition http404 (d : database) : view_result :=
  (mk_Response NotFound HTTP_404_NOT_FOUND, d, []).

Definition http400 (detail : string) (d : database) : view_result :=
  (mk_Response (ValidationErrors detail) HTTP_400_BAD_REQUEST, d, []).

Definition http500 (d : database) : view_result :=
  (mk_Response Serialized HTTP_500_INTERNAL_SERVER_ERROR, d, []).

(** Model field validators: [MinValueValidator(lo)] rejects [v < lo],
    [MaxValueValidator(hi)] rejects [v > hi]. *)
Definition float_validators (lo hi v : float) : bool :=
  negb (PrimFloat.ltb v lo) && negb (PrimFloat.ltb hi v).

Definition int_validators (lo hi v : Z) : bool :=
  negb (v <? lo) && negb (hi <? v).

Definition opt_valid {A} (p : A → bool) (o : option A) : bool :=
  match o with None => true | Some v => p v end.

(** ** Session views ([views.py], class DJSessionViewSet) *)

Module DJSessionCreateSerializer.

(** Validated input of session creation (the serializer's [fields]). *)
Record data := mk {
  session_name : string;
  description : string;
  station : option uuid;
  sample_rate : option Z;
  bit_depth : option Z;
  channels : option Z
}.

Definition is_valid (x : data) : bool :=
  opt_valid (int_validators 0 2147483647) (sample_rate x)
  && opt_valid (int_validators 8 32) (bit_depth x)
  && opt_valid (int_validators 1 8) (channels x).

End DJSessionCreateSerializer.

Module DJSessionUpdateSerializer.

(** Input of a session update: the writable fields of the serializer, each
    present or absent in the request. *)
Record data := mk {
  is_live : option bool;
  is_recording : option bool;
  current_listeners : option Z;
  master_level_left : option float;
  master_level_right : option float;
  channel_a_level : option float;
  channel_b_level : option float;
  crossfader_position : option float;
  master_volume : option float
}.

Definition is_valid (x : data) : bool :=
  opt_valid (int_validators 0 2147483647) (current_listeners x)
  && opt_valid (float_validators 0 1) (master_level_left x)
  && opt_valid (float_validators 0 1) (master_level_right x)
  && opt_valid (float_validators 0 1) (channel_a_level x)
  && opt_valid (float_validators 0 1) (channel_b_level x)
  && opt_valid (float_validators (-1) 1) (crossfader_position x)
  && opt_valid (float_validators 0 1) (master_volume x).

(** [serializer.update]: every field present in the request is assigned. *)
Definition update (x : data) (s : DJSession.t) : DJSession.t :=
  let s := DJSession.set_is_live (default (DJSession.is_live s) (is_live x)) s in
  let s := DJSession.set_is_recording
             (default (DJSession.is_recording s) (is_recording x)) s in
  let s := DJSession.set_current_listeners
             (default (DJSession.current_listeners s) (current_listeners x)) s in
  let s := DJSession.set_master_level_left
             (default (DJSession.master_level_left s) (master_level_left x)) s in
  let s := DJSession.set_master_level_right
             (default (DJSession.master_level_right s) (master_level_right x)) s in
  let s := DJSession.set_channel_a_level
             (default (DJSession.channel_a_level s) (channel_a_level x)) s in
  let s := DJSession.set_channel_b_level
             (default (DJSession.channel_b_level s) (channel_b_level x)) s in
  let s := DJSession.set_crossfader_position
             (default (DJSession.crossfader_position s) (crossfader_position x)) s in
  DJSession.set_master_volume
    (default (DJSession.master_volume s) (master_volume x)) s.

End DJSessionUpdateSerializer.

Module DJSessionViewSet.

(** [get_queryset] and [get_object]: the row with primary key [pk] among the
    sessions whose [dj] is the requesting user; [None] stands for Http404. *)
Definition get_object (user : user_id) (pk : uuid) (d : database)
  : option DJSession.t :=
  match djsession d !! pk with
  | Some s => if decide (DJSession.dj s = user) then Some s else None
  | None => None
  end.

Definition _broadcast_session_event (event_type : string) (session : DJSession.t)
  : list group_message :=
  [(room_group_name (DJSession.id session),
    session_event event_type (DJSession.id session) session)].

Definition _broadcast_session_update (session : DJSession.t) : list group_message :=
  [(room_group_name (DJSession.id session),
    session_update (DJSession.id session) session)].

(** [create] with [perform_create]: the row gets a fresh primary key
    ([uuid.uuid4]), the model defaults, and [dj] set to the user. *)
Definition create (user : user_id) (x : DJSessionCreateSerializer.data)
  (new_id : uuid) (now auto_now : datetime) (d : database) : view_result :=
  if negb (DJSessionCreateSerializer.is_valid x) then http400 "invalid" d
  else
    match djsession d !! new_id with
    | Some _ => http500 d
    | None =>
        let session :=
          DJSession.mk new_id user (DJSessionCreateSerializer.station x)
            (DJSessionCreateSerializer.session_name x)
            (DJSessionCreateSerializer.description x)
            now None false false
            (default 48000 (DJSessionCreateSerializer.sample_rate x))
            (default 16 (DJSessionCreateSerializer.bit_depth x))
            (default 2 (DJSessionCreateSerializer.channels x))
            0 0 0%float 0%float 0%float 0%float 0%float 0.8%float
            auto_now auto_now in
        (mk_Response Serialized HTTP_201_CREATED,
         with_djsession (<[new_id := session]> (djsession d)) d,
         _broadcast_session_event "session_created" session)
    end.

(** [update] / [partial_update] with [perform_update]. *)
Definition update (user : user_id) (pk : uuid)
  (x : DJSessionUpdateSerializer.data) (auto_now : datetime) (d : database)
  : view_result :=
  match get_object user pk d with
  | None => http404 d
  | Some session =>
      if negb (DJSessionUpdateSerializer.is_valid x) then http400 "invalid" d
      else
        let '(session, d) :=
          DJSession_save auto_now (DJSessionUpdateSerializer.update x session) d in
        (mk_Response Serialized HTTP_200_OK, d, _broadcast_session_update session)
  end.

(** [start_session]: POST sessions/{pk}/start_session/. *)
Definition start_session (user : user_id) (pk : uuid) (now auto_now : datetime)
  (d : database) : view_result :=
  match get_object user pk d with
  | None => http404 d
  | Some session =>
      if DJSession.is_live session then
        (mk_Response (ErrorBody "Session is already live") HTTP_400_BAD_REQUEST,
         d, [])
      else
        let session := DJSession.set_is_live true session in
        let session := DJSession.set_started_at now session in
        let '(session, d) := DJSession_save auto_now session d in
        (mk_Response (SessionBody "Session started" session) HTTP_200_OK, d,
         _broadcast_session_event "session_started" session)
  end.

(** [end_session]: POST sessions/{pk}/end_session/.  [now] is the reading
    stored in the session, [now_tracks] the one of the bulk update. *)
Definition end_session (user : user_id) (pk : uuid)
  (now auto_now now_tracks : datetime) (d : database) : view_result :=
  match get_object user pk d with
  | None => http404 d
  | Some session =>
      if negb (DJSession.is_live session) then
        (mk_Response (ErrorBody "Session is not currently live")
           HTTP_400_BAD_REQUEST, d, [])
      else
        let session := DJSession.set_is_live false session in
        let session := DJSession.set_ended_at (Some now) session in
        let '(session, d) := DJSession_save auto_now session d in
        (* Also end any active tracks *)
        let d :=
          with_djtrackinstance
            (end_tracks now_tracks (active_in_session (DJSession.id session))
               (djtrackinstance d)) d in
        (mk_Response (SessionBody "Session ended" session) HTTP_200_OK, d,
         _broadcast_session_event "session_ended" session)
  end.

(** [destroy]: the row is deleted and, by [on_delete=CASCADE], every row of
    the other tables that references it. *)
Definition destroy (user : user_id) (pk : uuid) (d : database) : view_result :=
  match get_object user pk d with
  | None => http404 d
  | Some session =>
      let sid := DJSession.id session in
      (mk_Response Serialized HTTP_204_NO_CONTENT,
       mk_database
         (delete sid (djsession d))
         (objects_filter
            (λ t, negb (bool_decide (DJTrackInstance.session t = sid)))
            (djtrackinstance d))
         (objects_filter
            (λ a, negb (bool_decide (AudioLevelSnapshot.session a = sid)))
            (audiolevelsnapshot d))
         (objects_filter
            (λ m, negb (bool_decide (LiveStreamMetrics.session m = sid)))
            (livestreammetrics d)),
       [])
  end.

End DJSessionViewSet.

(** ** Track views ([views.py], class DJTrackInstanceViewSet) *)

Module DJTrackInstanceCreateSerializer.

(** Input of track loading (the serializer's [fields]). *)
Record data := mk {
  session : uuid;
  track : option uuid;
  track_title : string;
  track_artist : string;
  track_duration : option float;
  deck : deck_choice
}.

Definition deck_label (k : deck_choice) : string :=
  match k with DeckA => "A" | DeckB => "B" end.

(** [validate] (serializers.py): ensure only one active track per deck per
    session. *)
Definition validate (x : data) (d : database) : py_exception + data :=
  if queryset_exists
       (objects_filter (active_on_deck (session x) (deck x)) (djtrackinstance d))
  then inl (ValidationError
              ("Deck " +:+ deck_label (deck x)
               +:+ " already has an active track in this session"))
  else inr x.

End DJTrackInstanceCreateSerializer.

Module DJTrackInstanceUpdateSerializer.

(** Input of a track update: the writable fields of the serializer, each
    present or absent in the request.  [manual_bpm] is nullable. *)
Record data := mk {
  current_position : option float;
  playback_speed : option float;
  is_playing : option bool;
  is_looping : option bool;
  volume : option float;
  eq_low : option float;
  eq_mid : option float;
  eq_high : option float;
  manual_bpm : option (option float);
  is_synced : option bool;
  cue_points : option (gmap string json);
  hot_cues : option (gmap string json)
}.

Definition is_valid (x : data) : bool :=
  opt_valid (float_validators 0.1 3) (playback_speed x)
  && opt_valid (float_validators 0 1) (volume x)
  && opt_valid (float_validators (-1) 1) (eq_low x)
  && opt_valid (float_validators (-1) 1) (eq_mid x)
  && opt_valid (float_validators (-1) 1) (eq_high x)
  && opt_valid (opt_valid (float_validators 60 200)) (manual_bpm x).

Definition update (x : data) (t : DJTrackInstance.t) : DJTrackInstance.t :=
  let t := DJTrackInstance.set_current_position
             (default (DJTrackInstance.current_position t) (current_position x)) t in
  let t := DJTrackInstance.set_playback_speed
             (default (DJTrackInstance.playback_speed t) (playback_speed x)) t in
  let t := DJTrackInstance.set_is_playing
             (default (DJTrackInstance.is_playing t) (is_playing x)) t in
  let t := DJTrackInstance.set_is_looping
             (default (DJTrackInstance.is_looping t) (is_looping x)) t in
  let t := DJTrackInstance.set_volume
             (default (DJTrackInstance.volume t) (volume x)) t in
  let t := DJTrackInstance.set_eq_low
             (default (DJTrackInstance.eq_low t) (eq_low x)) t in
  let t := DJTrackInstance.set_eq_mid
             (default (DJTrackInstance.eq_mid t) (eq_mid x)) t in
  let t := DJTrackInstance.set_eq_high
             (default (DJTrackInstance.eq_high t) (eq_high x)) t in
  let t := DJTrackInstance.set_manual_bpm
             (default (DJTrackInstance.manual_bpm t) (manual_bpm x)) t in
  let t := DJTrackInstance.set_is_synced
             (default (DJTrackInstance.is_synced t) (is_synced x)) t in
  let t := DJTrackInstance.set_cue_points
             (default (DJTrackInstance.cue_points t) (cue_points x)) t in
  DJTrackInstance.set_hot_cues
    (default (DJTrackInstance.hot_cues t) (hot_cues x)) t.

End DJTrackInstanceUpdateSerializer.

Module DJTrackInstanceViewSet.

(** [get_queryset] and [get_object]: the row with primary key [pk] among the
    track instances of the user's sessions ([session__dj=user]); [None]
    stands for Http404.  The optional [session_id] query parameter, which
    only narrows the queryset, is taken to be absent. *)
Definition get_object (user : user_id) (pk : uuid) (d : database)
  : option DJTrackInstance.t :=
  match djtrackinstance d !! pk with
  | Some t =>
      match djsession d !! DJTrackInstance.session t with
      | Some s => if decide (DJSession.dj s = user) then Some t else None
      | None => None
      end
  | None => None
  end.

Definition _broadcast_track_event (event_type : string)
  (track_instance : DJTrackInstance.t) : list group_message :=
  [(room_group_name (DJTrackInstance.session track_instance),
    track_event event_type (DJTrackInstance.id track_instance)
      (DJTrackInstance.deck track_instance) track_instance)].

Definition _broadcast_track_update (track_instance : DJTrackInstance.t)
  : list group_message :=
  [(room_group_name (DJTrackInstance.session track_instance),
    track_update (DJTrackInstance.id track_instance)
      (DJTrackInstance.deck track_instance) track_instance)].

(** [create]: POST tracks/.  The serializer resolves [session] to an existing
    row, runs [validate], then inserts a row with a fresh primary key and the
    model defaults; this viewset publishes nothing on creation. *)
Definition create (x : DJTrackInstanceCreateSerializer.data) (new_id : uuid)
  (now auto_now : datetime) (d : database) : view_result :=
  match djsession d !! DJTrackInstanceCreateSerializer.session x with
  | None => http400 "Invalid pk - object does not exist." d
  | Some _ =>
      match DJTrackInstanceCreateSerializer.validate x d with
      | inl (ValidationError detail) => http400 detail d
      | inl _ => http500 d
      | inr x =>
          match djtrackinstance d !! new_id with
          | Some _ => http500 d
          | None =>
              let row :=
                DJTrackInstance.mk new_id
                  (DJTrackInstanceCreateSerializer.session x)
                  (DJTrackInstanceCreateSerializer.track x)
                  (DJTrackInstanceCreateSerializer.track_title x)
                  (DJTrackInstanceCreateSerializer.track_artist x)
                  (DJTrackInstanceCreateSerializer.track_duration x)
                  (DJTrackInstanceCreateSerializer.deck x)
                  now None 0%float 1%float false false 0.8%float
                  0%float 0%float 0%float None None false ∅ ∅
                  auto_now auto_now in
              (mk_Response Serialized HTTP_201_CREATED,
               with_djtrackinstance (<[new_id := row]> (djtrackinstance d)) d,
               [])
          end
      end
  end.

(** [update] / [partial_update] with [perform_update]. *)
Definition update (user : user_id) (pk : uuid)
  (x : DJTrackInstanceUpdateSerializer.data) (auto_now : datetime)
  (d : database) : view_result :=
  match get_object user pk d with
  | None => http404 d
  | Some track_instance =>
      if negb (DJTrackInstanceUpdateSerializer.is_valid x) then http400 "invalid" d
      else
        let '(track_instance, d) :=
          DJTrackInstance_save auto_now
            (DJTrackInstanceUpdateSerializer.update x track_instance) d in
        (mk_Response Serialized HTTP_200_OK, d,
         _broadcast_track_update track_instance)
  end.

Definition play (user : user_id) (pk : uuid) (auto_now : datetime)
  (d : database) : view_result :=
  match get_object user pk d with
  | None => http404 d
  | Some track_instance =>
      let track_instance := DJTrackInstance.set_is_playing true track_instance in
      let '(track_instance, d) := DJTrackInstance_save auto_now track_instance d in
      (mk_Response (TrackBody TrackPlaying track_instance) HTTP_200_OK, d,
       _broadcast_track_event "track_play" track_instance)
  end.

Definition pause (user : user_id) (pk : uuid) (auto_now : datetime)
  (d : database) : view_result :=
  match get_object user pk d with
  | None => http404 d
  | Some track_instance =>
      let track_instance := DJTrackInstance.set_is_playing false track_instance in
      let '(track_instance, d) := DJTrackInstance_save auto_now track_instance d in
      (mk_Response (TrackBody TrackPaused track_instance) HTTP_200_OK, d,
       _broadcast_track_event "track_pause" track_instance)
  end.

(** [seek].  [position] is the value of [float(request.data.get('position', 0))];
    a request whose position does not convert raises before any write. *)
Definition seek (user : user_id) (pk : uuid) (position : float)
  (auto_now : datetime) (d : database) : view_result :=
  match get_object user pk d with
  | None => http404 d
  | Some track_instance =>
      let track_instance :=
        DJTrackInstance.set_current_position position track_instance in
      let '(track_instance, d) := DJTrackInstance_save auto_now track_instance d in
      (mk_Response (TrackBody (SeekTo position) track_instance) HTTP_200_OK, d,
       _broadcast_track_event "track_seek" track_instance)
  end.

(** [add_cue].  [name] and [position] are the entries of [request.data],
    [None] when the key is absent; names are strings. *)
Definition add_cue (user : user_id) (pk : uuid) (name : option string)
  (position : option json) (auto_now : datetime) (d : database) : view_result :=
  match get_object user pk d with
  | None => http404 d
  | Some track_instance =>
      let cue_name :=
        default
          ("Cue " +:+ pretty (size (DJTrackInstance.cue_points track_instance) + 1)%nat)
          name in
      let position :=
        default (JFloat (DJTrackInstance.current_position track_instance))
          position in
      let cue_points := DJTrackInstance.cue_points track_instance in
      let cue_points := <[cue_name := position]> cue_points in
      let track_instance := DJTrackInstance.set_cue_points cue_points track_instance in
      let '(track_instance, d) := DJTrackInstance_save auto_now track_instance d in
      (mk_Response (TrackBody (CuePointAdded cue_name position) track_instance)
         HTTP_200_OK, d,
       _broadcast_track_event "cue_added" track_instance)
  end.

Definition destroy (user : user_id) (pk : uuid) (d : database) : view_result :=
  match get_object user pk d with
  | None => http404 d
  | Some track_instance =>
      (mk_Response Serialized HTTP_204_NO_CONTENT,
       with_djtrackinstance
         (delete (DJTrackInstance.id track_instance) (djtrackinstance d)) d,
       [])
  end.

End DJTrackInstanceViewSet.

(** ** Telemetry views *)

(** Python's [max(a, b)] on two floats: the first argument is kept unless
    the second compares greater. *)
Definition py_max (a b : float) : float :=
  if PrimFloat.ltb a b then b else a.

Module AudioLevelSnapshotViewSet.

Definition _broadcast_audio_levels (snapshot : AudioLevelSnapshot.t)
  : list group_message :=
  [(room_group_name (AudioLevelSnapshot.session snapshot), audio_levels snapshot)].

(** [perform_create].  [snapshot] is the instance [serializer.save()]
    returns (validated fields, fresh primary key, timestamp); its session
    was resolved by the serializer.  An exception is an uncaught one. *)
Definition perform_create (snapshot : AudioLevelSnapshot.t) (d : database)
  : py_exception + (database * list group_message) :=
  match djsession d !! AudioLevelSnapshot.session snapshot with
  | None => inl IntegrityError
  | Some session =>
      match audiolevelsnapshot d !! AudioLevelSnapshot.id snapshot with
      | Some _ => inl IntegrityError
      | None =>
          let d :=
            with_audiolevelsnapshot
              (<[AudioLevelSnapshot.id snapshot := snapshot]> (audiolevelsnapshot d))
              d in
          (* Update session with latest levels *)
          let session :=
            DJSession.set_master_level_left
              (AudioLevelSnapshot.master_left snapshot) session in
          let session :=
            DJSession.set_master_level_right
              (AudioLevelSnapshot.master_right snapshot) session in
          let session :=
            DJSession.set_channel_a_level
              (py_max (AudioLevelSnapshot.channel_a_left snapshot)
                 (AudioLevelSnapshot.channel_a_right snapshot)) session in
          let session :=
            DJSession.set_channel_b_level
              (py_max (AudioLevelSnapshot.channel_b_left snapshot)
                 (AudioLevelSnapshot.channel_b_right snapshot)) session in
          match DJSession_save_levels session d with
          | inl e => inl e
          | inr d => inr (d, _broadcast_audio_levels snapshot)
          end
      end
  end.

End AudioLevelSnapshotViewSet.

Module LiveStreamMetricsViewSet.

Definition _broadcast_stream_metrics (metrics : LiveStreamMetrics.t)
  : list group_message :=
  [(room_group_name (LiveStreamMetrics.session metrics), stream_metrics metrics)].

(** [perform_create], with [metrics] the instance [serializer.save()]
    returns. *)
Definition perform_create (metrics : LiveStreamMetrics.t) (d : database)
  : py_exception + (database * list group_message) :=
  match djsession d !! LiveStreamMetrics.session metrics with
  | None => inl IntegrityError
  | Some session =>
      match livestreammetrics d !! LiveStreamMetrics.id metrics with
      | Some _ => inl IntegrityError
      | None =>
          let d :=
            with_livestreammetrics
              (<[LiveStreamMetrics.id metrics := metrics]> (livestreammetrics d))
              d in
          (* Update session listener count *)
          let session :=
            DJSession.set_current_listeners
              (LiveStreamMetrics.current_listeners metrics) session in
          let session :=
            if LiveStreamMetrics.current_listeners metrics
               >? DJSession.peak_listeners session
            then DJSession.set_peak_listeners
                   (LiveStreamMetrics.current_listeners metrics) session
            else session in
          match DJSession_save_listeners session d with
          | inl e => inl e
          | inr d => inr (d, _broadcast_stream_metrics metrics)
          end
      end
  end.

End LiveStreamMetricsViewSet.

(** ** Python values in the consumer *)

(** The numbers among JSON values; [bool] is a subclass of [int]. *)
Inductive py_number := PyInt (z : Z) | PyFloat (f : float).

Definition as_number (v : json) : option py_number :=
  match v with
  | JInt z => Some (PyInt z)
  | JBool b => Some (PyInt (if b then 1 else 0))
  | JFloat f => Some (PyFloat f)
  | _ => None
  end.

(** [x > n] for a number [x] and an int [n]; Python compares a float with an
    int by value. *)
Definition number_gt_int (x : py_number) (n : Z) : bool :=
  match x with
  | PyInt z => z >? n
  | PyFloat f =>
      match Prim2SF f with
      | S754_nan => false
      | S754_infinity negative => negb negative
      | S754_zero _ => 0 >? n
      | S754_finite negative m e =>
          let mant := if negative then Z.neg m else Z.pos m in
          if 0 <=? e then mant * 2 ^ e >? n else mant >? n * 2 ^ (- e)
      end
  end.

(** [v > n] on a decoded JSON value: [TypeError] unless [v] is a number. *)
Definition py_gt_int (v : json) (n : Z) : py_exception + bool :=
  match as_number v with
  | Some x => inr (number_gt_int x n)
  | None => inl TypeError
  end.

(** [int(x)], as [IntegerField.get_prep_value] applies it. *)
Definition py_int (x : py_number) : py_exception + Z :=
  match x with
  | PyInt z => inr z
  | PyFloat f =>
      match Prim2SF f with
      | S754_nan => inl ValueError
      | S754_infinity _ => inl OverflowError
      | S754_zero _ => inr 0
      | S754_finite negative m e =>
          let mant := if negative then Z.neg m else Z.pos m in
          inr (if 0 <=? e then mant * 2 ^ e else Z.quot mant (2 ^ (- e)))
      end
  end.

(** Writing a Python value to a [PositiveIntegerField] column: converted by
    [int], then subject to the column's CHECK (non-negative) and to the
    range of the integer column. *)
Definition to_positive_integer_column (v : json) : py_exception + Z :=
  match as_number v with
  | None => inl TypeError
  | Some x =>
      match py_int x with
      | inl e => inl e
      | inr z =>
          if z <? 0 then inl IntegrityError
          else if 2147483647 <? z then inl DatabaseError
          else inr z
      end
  end.

(** [obj[key]]. *)
Definition py_getitem (obj : json) (key : string) : py_exception + json :=
  match obj with
  | JDict d =>
      match d !! key with
      | Some v => inr v
      | None => inl (KeyError key)
      end
  | _ => inl TypeError
  end.

(** [obj.get(key, dflt)]. *)
Definition py_get (obj : json) (key : string) (dflt : json) : py_exception + json :=
  match obj with
  | JDict d => inr (default dflt (d !! key))
  | _ => inl AttributeError
  end.

(** [v == 'literal']. *)
Definition py_eq_str (v : json) (literal : string) : bool :=
  match v with
  | JStr s => bool_decide (s = literal)
  | _ => false
  end.

(** ** The session consumer ([consumers.py], class DJSessionConsumer) *)

Module DJSessionConsumer.

(** The dict [get_session_data] returns; [started_at] stands for its
    [isoformat()] text. *)
Record session_data := mk_session_data {
  id : uuid;
  session_name : string;
  is_live : bool;
  current_listeners : Z;
  started_at : datetime;
  master_volume : float;
  crossfader_position : float
}.

(** Frames the consumer sends to its client with [self.send], before
    [json.dumps]; the constructor is the ['type'] entry. *)
Inductive frame :=
| session_connected (session : session_data)
| error (message : string).

(** A text frame received from the client, by what [json.loads] does on it:
    it raises [JSONDecodeError], or returns the decoded document. *)
Inductive text_frame :=
| Undecodable
| Decodes (document : json).

Definition json_loads (text_data : text_frame) : py_exception + json :=
  match text_data with
  | Undecodable => inl JSONDecodeError
  | Decodes document => inr document
  end.

(** What a connection task acts on: the store, the channel layer's group
    registry, whether the socket was accepted, the frames sent to the
    client and the messages sent to groups (both oldest first). *)
Record world := mk_world {
  store : database;
  groups : gmap string (gset string);
  accepted : bool;
  sent : list frame;
  group_sent : list group_message
}.

(** The consumer instance: the session id of its URL and its channel. *)
Record consumer := mk_consumer {
  session_id : uuid;
  channel_name : string
}.

(** Computations of a connection task: they act on the world and return a
    value or raise; effects made before a raise stay. *)
Definition M (A : Type) : Type := world → (py_exception + A) * world.

Definition ret {A} (a : A) : M A := λ w, (inr a, w).

Definition bind {A B} (m : M A) (k : A → M B) : M B :=
  λ w, match m w with
       | (inl e, w') => (inl e, w')
       | (inr a, w') => k a w'
       end.

Definition raise {A} (e : py_exception) : M A := λ w, (inl e, w).

Definition lift {A} (r : py_exception + A) : M A :=
  match r with inl e => raise e | inr a => ret a end.

(** [try: m except E: handler], with [E] given by the test [caught]. *)
Definition try_except {A} (m : M A) (caught : py_exception → bool)
  (handler : M A) : M A :=
  λ w, match m w with
       | (inl e, w') => if caught e then handler w' else (inl e, w')
       | r => r
       end.

#[local] Notation "'let!' x ':=' m 'in' k" := (bind m (λ x, k))
  (at level 10, x pattern, m at level 100, k at level 200).
#[local] Notation "m '>>' k" := (bind m (λ _, k))
  (at level 100, k at level 200, right associativity).

Definition is_JSONDecodeError (e : py_exception) : bool :=
  match e with JSONDecodeError => true | _ => false end.

Definition is_DoesNotExist (e : py_exception) : bool :=
  match e with DoesNotExist => true | _ => false end.

(** [self.channel_layer.group_add(group, channel)]. *)
Definition group_add (group channel : string) : M unit :=
  λ w, (inr (),
        mk_world (store w)
          (<[group := {[channel]} ∪ default ∅ (groups w !! group)]> (groups w))
          (accepted w) (sent w) (group_sent w)).

(** [self.channel_layer.group_discard(group, channel)]. *)
Definition group_discard (group channel : string) : M unit :=
  λ w, (inr (),
        mk_world (store w)
          (<[group := default ∅ (groups w !! group) ∖ {[channel]}]> (groups w))
          (accepted w) (sent w) (group_sent w)).

(** [self.accept()]. *)
Definition accept : M unit :=
  λ w, (inr (), mk_world (store w) (groups w) true (sent w) (group_sent w)).

(** [self.send(text_data=json.dumps(frame))]. *)
Definition send (f : frame) : M unit :=
  λ w, (inr (),
        mk_world (store w) (groups w) (accepted w) (sent w ++ [f]) (group_sent w)).

(** [self.channel_layer.group_send(group, event)]. *)
Definition group_send (group : string) (event : channel_event) : M unit :=
  λ w, (inr (),
        mk_world (store w) (groups w) (accepted w) (sent w)
          (group_sent w ++ [(group, event)])).

(** [DJSession.objects.get(id=session_id)]. *)
Definition objects_get (session_id : uuid) : M DJSession.t :=
  λ w, match djsession (store w) !! session_id with
       | Some s => (inr s, w)
       | None => (inl DoesNotExist, w)
       end.

Definition set_store (d : database) : M unit :=
  λ w, (inr (), mk_world d (groups w) (accepted w) (sent w) (group_sent w)).

Definition get_store : M database := λ w, (inr (store w), w).

(** [get_session_data]. *)
Definition get_session_data (self : consumer) : M (option session_data) :=
  try_except
    (let! session := objects_get (session_id self) in
     ret (Some (mk_session_data
                  (DJSession.id session)
                  (DJSession.session_name session)
                  (DJSession.is_live session)
                  (DJSession.current_listeners session)
                  (DJSession.started_at session)
                  (DJSession.master_volume session)
                  (DJSession.crossfader_position session))))
    is_DoesNotExist
    (ret None).

(** [update_session_listeners].  The attributes hold the Python value as
    received; the columns get it through [to_positive_integer_column] when
    the instance is saved. *)
Definition update_session_listeners (self : consumer) (listener_count : json)
  : M unit :=
  try_except
    (let! session := objects_get (session_id self) in
     let current_listeners := listener_count in
     let! greater := lift (py_gt_int listener_count (DJSession.peak_listeners session)) in
     let peak_listeners :=
       if greater then listener_count else JInt (DJSession.peak_listeners session) in
     let! current := lift (to_positive_integer_column current_listeners) in
     let! peak := lift (to_positive_integer_column peak_listeners) in
     let session := DJSession.set_current_listeners current session in
     let session := DJSession.set_peak_listeners peak session in
     let! d := get_store in
     let! d := lift (DJSession_save_listeners session d) in
     set_store d)
    is_DoesNotExist
    (ret ()).

(** [connect]. *)
Definition connect (self : consumer) : M unit :=
  (* Join session group *)
  group_add (room_group_name (session_id self)) (channel_name self) >>
  accept >>
  (* Send initial session data *)
  let! session_data := get_session_data self in
  match session_data with
  | Some session => send (session_connected session)
  | None => ret ()
  end.

(** [disconnect]. *)
Definition disconnect (self : consumer) : M unit :=
  group_discard (room_group_name (session_id self)) (channel_name self).

Definition handle_audio_levels (self : consumer) (data : json) : M unit :=
  let! levels := lift (py_get data "levels" (JDict ∅)) in
  group_send (room_group_name (session_id self)) (audio_levels_update levels).

Definition handle_mixer_update (self : consumer) (data : json) : M unit :=
  let! mixer_data := lift (py_get data "mixer" (JDict ∅)) in
  group_send (room_group_name (session_id self)) (mixer_state_update mixer_data).

Definition handle_track_control (self : consumer) (data : json) : M unit :=
  let! track_data := lift (py_get data "track" (JDict ∅)) in
  group_send (room_group_name (session_id self)) (track_control_update track_data).

Definition handle_listener_update (self : consumer) (data : json) : M unit :=
  let! listener_count := lift (py_get data "listeners" (JInt 0)) in
  (* Update session listener count in database *)
  update_session_listeners self listener_count >>
  (* Broadcast to all clients in the session *)
  group_send (room_group_name (session_id self))
    (listener_count_update listener_count).

(** [receive]: handle an incoming WebSocket message. *)
Definition receive (self : consumer) (text_data : text_frame) : M unit :=
  try_except
    (let! text_data_json := lift (json_loads text_data) in
     let! message_type := lift (py_getitem text_data_json "type") in
     if py_eq_str message_type "audio_levels" then
       handle_audio_levels self text_data_json
     else if py_eq_str message_type "mixer_update" then
       handle_mixer_update self text_data_json
     else if py_eq_str message_type "track_control" then
       handle_track_control self text_data_json
     else if py_eq_str message_type "listener_update" then
       handle_listener_update self text_data_json
     else ret ())
    is_JSONDecodeError
    (send (error "Invalid JSON format")).

End DJSessionConsumer.

(** ** Creation endpoints of the telemetry viewsets *)

Definition levels_valid (a : AudioLevelSnapshot.t) : bool :=
  float_validators 0 1 (AudioLevelSnapshot.master_left a)
  && float_validators 0 1 (AudioLevelSnapshot.master_right a)
  && float_validators 0 1 (AudioLevelSnapshot.master_peak_left a)
  && float_validators 0 1 (AudioLevelSnapshot.master_peak_right a)
  && float_validators 0 1 (AudioLevelSnapshot.channel_a_left a)
  && float_validators 0 1 (AudioLevelSnapshot.channel_a_right a)
  && float_validators 0 1 (AudioLevelSnapshot.channel_b_left a)
  && float_validators 0 1 (AudioLevelSnapshot.channel_b_right a)
  && float_validators 0 1 (AudioLevelSnapshot.channel_a_peak a)
  && float_validators 0 1 (AudioLevelSnapshot.channel_b_peak a).

Definition metrics_valid (m : LiveStreamMetrics.t) : bool :=
  int_validators 0 2147483647 (LiveStreamMetrics.current_listeners m)
  && int_validators 0 2147483647 (LiveStreamMetrics.unique_listeners m)
  && int_validators 0 2147483647 (LiveStreamMetrics.bitrate m)
  && int_validators 0 2147483647 (LiveStreamMetrics.dropped_frames m)
  && float_validators 0 1 (LiveStreamMetrics.buffer_health m)
  && int_validators 0 9223372036854775807 (LiveStreamMetrics.bandwidth_usage m).

(** POST audio-levels/: field validation, then [perform_create]. *)
Definition audio_levels_create (snapshot : AudioLevelSnapshot.t) (d : database)
  : view_result :=
  match djsession d !! AudioLevelSnapshot.session snapshot with
  | None => http400 "Invalid pk - object does not exist." d
  | Some _ =>
      if negb (levels_valid snapshot) then http400 "invalid" d
      else
        match AudioLevelSnapshotViewSet.perform_create snapshot d with
        | inl _ => http500 d
        | inr (d', published) =>
            (mk_Response Serialized HTTP_201_CREATED, d', published)
        end
  end.

(** POST stream-metrics/: field validation, then [perform_create]. *)
Definition stream_metrics_create (metrics : LiveStreamMetrics.t) (d : database)
  : view_result :=
  match djsession d !! LiveStreamMetrics.session metrics with
  | None => http400 "Invalid pk - object does not exist." d
  | Some _ =>
      if negb (metrics_valid metrics) then http400 "invalid" d
      else
        match LiveStreamMetricsViewSet.perform_create metrics d with
        | inl _ => http500 d
        | inr (d', published) =>
            (mk_Response Serialized HTTP_201_CREATED, d', published)
        end
  end.

(** ** Management command ([management/commands/dj_manager.py]) *)

Module Command.

(** [stop_session]: stop a running session, by id. *)
Definition stop_session (session_id : uuid) (now auto_now now_tracks : datetime)
  (d : database) : database :=
  match djsession d !! session_id with
  | Some session =>
      if is_active session then
        let session := DJSession.set_ended_at (Some now) session in
        let session := DJSession.set_is_live false session in
        let '(session, d) := DJSession_save auto_now session d in
        with_djtrackinstance
          (end_tracks now_tracks (active_in_session (DJSession.id session))
             (djtrackinstance d)) d
      else d
  | None => d
  end.

(** [cleanup_old_data]: [cutoff_date] is [timezone.now() - timedelta(days)].
    Old snapshots are deleted, then old sessions with everything that
    references them. *)
Definition cleanup_old_data (cutoff_date : datetime) (d : database) : database :=
  let old (s : uuid) : bool :=
    match djsession d !! s with
    | Some session =>
        match DJSession.ended_at session with
        | Some e => e <? cutoff_date
        | None => false
        end
    | None => false
    end in
  mk_database
    (objects_filter (λ s, negb (old (DJSession.id s))) (djsession d))
    (objects_filter (λ t, negb (old (DJTrackInstance.session t)))
       (djtrackinstance d))
    (objects_filter
       (λ a, negb (AudioLevelSnapshot.timestamp a <? cutoff_date)
             && negb (old (AudioLevelSnapshot.session a)))
       (audiolevelsnapshot d))
    (objects_filter (λ m, negb (old (LiveStreamMetrics.session m)))
       (livestreammetrics d)).

End Command.

(** ** Histories of the store *)

(** The operations that write to the store, with their inputs. *)
Inductive request :=
| SessionCreate (user : user_id) (x : DJSessionCreateSerializer.data)
    (new_id : uuid) (now auto_now : datetime)
| SessionUpdate (user : user_id) (pk : uuid) (x : DJSessionUpdateSerializer.data)
    (auto_now : datetime)
| SessionStart (user : user_id) (pk : uuid) (now auto_now : datetime)
| SessionEnd (user : user_id) (pk : uuid) (now auto_now now_tracks : datetime)
| SessionDestroy (user : user_id) (pk : uuid)
| TrackCreate (x : DJTrackInstanceCreateSerializer.data) (new_id : uuid)
    (now auto_now : datetime)
| TrackUpdate (user : user_id) (pk : uuid) (x : DJTrackInstanceUpdateSerializer.data)
    (auto_now : datetime)
| TrackPlay (user : user_id) (pk : uuid) (auto_now : datetime)
| TrackPause (user : user_id) (pk : uuid) (auto_now : datetime)
| TrackSeek (user : user_id) (pk : uuid) (position : float) (auto_now : datetime)
| TrackAddCue (user : user_id) (pk : uuid) (name : option string)
    (position : option json) (auto_now : datetime)
| TrackDestroy (user : user_id) (pk : uuid)
| AudioLevelsCreate (snapshot : AudioLevelSnapshot.t)
| StreamMetricsCreate (metrics : LiveStreamMetrics.t)
| ListenerUpdate (self : DJSessionConsumer.consumer) (listener_count : json)
| CommandStop (session_id : uuid) (now auto_now now_tracks : datetime)
| CommandCleanup (cutoff_date : datetime).

(** The store after one operation. *)
Definition handle (r : request) (d : database) : database :=
  match r with
  | SessionCreate user x new_id now auto_now =>
      (DJSessionViewSet.create user x new_id now auto_now d).1.2
  | SessionUpdate user pk x auto_now =>
      (DJSessionViewSet.update user pk x auto_now d).1.2
  | SessionStart user pk now auto_now =>
      (DJSessionViewSet.start_session user pk now auto_now d).1.2
  | SessionEnd user pk now auto_now now_tracks =>
      (DJSessionViewSet.end_session user pk now auto_now now_tracks d).1.2
  | SessionDestroy user pk => (DJSessionViewSet.destroy user pk d).1.2
  | TrackCreate x new_id now auto_now =>
      (DJTrackInstanceViewSet.create x new_id now auto_now d).1.2
  | TrackUpdate user pk x auto_now =>
      (DJTrackInstanceViewSet.update user pk x auto_now d).1.2
  | TrackPlay user pk auto_now => (DJTrackInstanceViewSet.play user pk auto_now d).1.2
  | TrackPause user pk auto_now =>
      (DJTrackInstanceViewSet.pause user pk auto_now d).1.2
  | TrackSeek user pk position auto_now =>
      (DJTrackInstanceViewSet.seek user pk position auto_now d).1.2
  | TrackAddCue user pk name position auto_now =>
      (DJTrackInstanceViewSet.add_cue user pk name position auto_now d).1.2
  | TrackDestroy user pk => (DJTrackInstanceViewSet.destroy user pk d).1.2
  | AudioLevelsCreate snapshot => (audio_levels_create snapshot d).1.2
  | StreamMetricsCreate metrics => (stream_metrics_create metrics d).1.2
  | ListenerUpdate self listener_count =>
      DJSessionConsumer.store
        (DJSessionConsumer.update_session_listeners self listener_count
           (DJSessionConsumer.mk_world d ∅ true [] [])).2
  | CommandStop session_id now auto_now now_tracks =>
      Command.stop_session session_id now auto_now now_tracks d
  | CommandCleanup cutoff_date => Command.cleanup_old_data cutoff_date d
  end.

(** The store after a history of operations, oldest first. *)
Definition run (history : list request) (d : database) : database :=
  foldl (λ d r, handle r d) d history.

(** ** Properties of the store *)

(** Every row sits under its own primary key. *)
Definition primary_keys (d : database) : Prop :=
  map_Forall (λ k s, DJSession.id s = k) (djsession d)
  ∧ map_Forall (λ k t, DJTrackInstance.id t = k) (djtrackinstance d).

(** Deck occupancy: the active track instances of a session on a deck are
    at most one. *)
Definition deck_occupancy (d : database) : Prop :=
  ∀ (s : uuid) (k : deck_choice),
    (size (objects_filter (active_on_deck s k) (djtrackinstance d)) ≤ 1)%nat.

(** The same, pairwise: two active rows of one session on one deck are the
    same row. *)
Definition deck_occupancy_pairwise (d : database) : Prop :=
  map_Forall (λ k1 t1,
    map_Forall (λ k2 t2,
      DJTrackInstance.ended_at t1 = None →
      DJTrackInstance.ended_at t2 = None →
      DJTrackInstance.session t1 = DJTrackInstance.session t2 →
      DJTrackInstance.deck t1 = DJTrackInstance.deck t2 →
      k1 = k2) (djtrackinstance d)) (djtrackinstance d).

(** A (session, deck) pair is occupied when an active row sits on it. *)
Definition occupied (s : uuid) (k : deck_choice) (d : database) : Prop :=
  ∃ pk t, djtrackinstance d !! pk = Some t
          ∧ DJTrackInstance.session t = s
          ∧ DJTrackInstance.deck t = k
          ∧ DJTrackInstance.ended_at t = None.

(** [x == x] in Python: false exactly for NaN. *)
Definition is_number (x : float) : bool := PrimFloat.eqb x x.

(** ** Auxiliary notions of the proofs *)

(** The active rows of [d'] are active rows of [d], on the same deck of the
    same session. *)
Definition no_new_active (d d' : database) : Prop :=
  ∀ k t', djtrackinstance d' !! k = Some t' →
          DJTrackInstance.ended_at t' = None →
          ∃ t, djtrackinstance d !! k = Some t
               ∧ DJTrackInstance.ended_at t = None
               ∧ DJTrackInstance.session t = DJTrackInstance.session t'
               ∧ DJTrackInstance.deck t = DJTrackInstance.deck t'.

(** The invariant a history maintains. *)
Definition store_invariant (d : database) : Prop :=
  primary_keys d ∧ deck_occupancy_pairwise d.

(** The exceptions raised while persisting a count are neither
    [DoesNotExist] nor [JSONDecodeError]: no handler of the consumer
    catches them. *)
Definition uncaught (e : py_exception) : Prop :=
  DJSessionConsumer.is_DoesNotExist e = false
  ∧ DJSessionConsumer.is_JSONDecodeError e = false.

(** ** Inbound frames, as the specification describes them *)

(** The four inbound message types of the real-time surface. *)
Definition inbound_types : list string :=
  ["audio_levels"; "mixer_update"; "track_control"; "listener_update"].

(** Follows the specification's words: an inbound message passes validation
    when it is a well-formed frame, a JSON object whose [type] discriminator
    is one of the four inbound types. *)
Definition passes_validation (text_data : DJSessionConsumer.text_frame) : bool :=
  match text_data with
  | DJSessionConsumer.Decodes (JDict d) =>
      match d !! "type" with
      | Some (JStr t) => bool_decide (t ∈ inbound_types)
      | _ => false
      end
  | _ => false
  end.

(** Follows the specification's words: the message is answered by exactly
    one error frame to the sender, nothing is sent to the group, and the
    connection task goes on (no exception leaves [receive]). *)
Definition answered_by_one_error (self : DJSessionConsumer.consumer)
  (text_data : DJSessionConsumer.text_frame) (w : DJSessionConsumer.world) : Prop :=
  ∃ message,
    DJSessionConsumer.receive self text_data w
    = (inr (),
       DJSessionConsumer.mk_world (DJSessionConsumer.store w)
         (DJSessionConsumer.groups w) (DJSessionConsumer.accepted w)
         (DJSessionConsumer.sent w ++ [DJSessionConsumer.error message])
         (DJSessionConsumer.group_sent w)).

(** The store with no rows. *)
Definition empty_store : database := mk_database ∅ ∅ ∅ ∅.

#[global] Instance primary_keys_dec d : Decision (primary_keys d).
Proof. unfold primary_keys. apply _. Defined.

#[global] Instance deck_occupancy_pairwise_dec d :
  Decision (deck_occupancy_pairwise d).
Proof. unfold deck_occupancy_pairwise. apply _. Defined.

(** ** Sample data *)

Definition session_1 : DJSession.t :=
  DJSession.mk "5d1c" 7%positive None "Friday set" "" 100 None true false
    48000 16 2 3 9 0%float 0%float 0%float 0%float 0%float 0.8%float 100 100.

Definition track_1 : DJTrackInstance.t :=
  DJTrackInstance.mk "a0f3" "5d1c" None "Blue Monday" "New Order" None DeckA
    110 None 42%float 1%float true false 0.8%float 0%float 0%float 0%float
    None None false {["Intro" := JFloat 1.5%float]} ∅ 110 110.

Definition session_2 : DJSession.t :=
  DJSession.mk "77aa" 7%positive None "Warm-up" "" 90 None false false
    44100 24 2 0 0 0%float 0%float 0%float 0%float 0%float 0.8%float 90 90.

Definition track_2 : DJTrackInstance.t :=
  DJTrackInstance.mk "c9e4" "77aa" None "Ceremony" "New Order" None DeckA
    95 None 0%float 1%float true false 0.8%float 0%float 0%float 0%float
    None None false ∅ ∅ 95 95.

Definition store_1 : database :=
  mk_database {["5d1c" := session_1; "77aa" := session_2]}
    {["a0f3" := track_1; "c9e4" := track_2]} ∅ ∅.

Definition snapshot_1 : AudioLevelSnapshot.t :=
  AudioLevelSnapshot.mk "e001" "5d1c" 150 0.5%float 0.6%float 0.9%float 0.9%float
    0.3%float 0.7%float 0.2%float 0.1%float 0.8%float 0.4%float None.

Definition metrics_1 : LiveStreamMetrics.t :=
  LiveStreamMetrics.mk "f001" "5d1c" 160 12 10 128000 0 1%float 16000 None None.

Definition metrics_2 : LiveStreamMetrics.t :=
  LiveStreamMetrics.mk "f002" "5d1c" 161 4 4 128000 0 1%float 16000 None None.

Definition patch_listeners (n : Z) : DJSessionUpdateSerializer.data :=
  DJSessionUpdateSerializer.mk None None (Some n) None None None None None None.

Definition consumer_1 : DJSessionConsumer.consumer :=
  DJSessionConsumer.mk_consumer "5d1c" "specific.ab12".

(** A consumer whose URL names a session that is not in [store_1]. *)
Definition consumer_2 : DJSessionConsumer.consumer :=
  DJSessionConsumer.mk_consumer "0000" "specific.cd34".

Definition world_1 : DJSessionConsumer.world :=
  DJSessionConsumer.mk_world store_1
    {[room_group_name "5d1c" := {["specific.ab12"; "specific.ef56"]}]}
    true [] [].

(** The frame [{"type": "ping"}]. *)
Definition frame_ping : DJSessionConsumer.text_frame :=
  DJSessionConsumer.Decodes (JDict {["type" := JStr "ping"]}).

(** The frame [{"listeners": 5}], without a [type]. *)
Definition frame_untyped : DJSessionConsumer.text_frame :=
  DJSessionConsumer.Decodes (JDict {["listeners" := JInt 5]}).

(** The frame [{"type": "listener_update", "listeners": 25}]. *)
Definition frame_listeners : gmap string json :=
  {["type" := JStr "listener_update"; "listeners" := JInt 25]}.

Definition load_deck (k : deck_choice) : DJTrackInstanceCreateSerializer.data :=
  DJTrackInstanceCreateSerializer.mk "5d1c" None "Temptation" "New Order" None k.

Definition history_1 : list request :=
  [ TrackCreate (load_deck DeckA) "b111" 120 120;
    TrackCreate (load_deck DeckB) "b222" 121 121;
    TrackPlay 7%positive "b222" 122;
    SessionEnd 7%positive "5d1c" 130 130 130;
    TrackCreate (load_deck DeckA) "b333" 140 140;
    TrackCreate (load_deck DeckA) "b444" 141 141 ].

(** ** Further notions: references between tables *)

(** Every track instance, audio snapshot and metrics row references a
    session that is in the store. *)
Definition foreign_keys (d : database) : Prop :=
  map_Forall (λ _ t, is_Some (djsession d !! DJTrackInstance.session t))
    (djtrackinstance d)
  ∧ map_Forall (λ _ a, is_Some (djsession d !! AudioLevelSnapshot.session a))
      (audiolevelsnapshot d)
  ∧ map_Forall (λ _ m, is_Some (djsession d !! LiveStreamMetrics.session m))
      (livestreammetrics d).

#[global] Instance foreign_keys_dec d : Decision (foreign_keys d).
Proof. unfold foreign_keys. apply _. Defined.


(** The session row [end_session] and the [stop] command write. *)
Definition ended_row (now auto_now : datetime) (session : DJSession.t)
  : DJSession.t :=
  DJSession.set_updated_at auto_now
    (DJSession.set_ended_at (Some now) (DJSession.set_is_live false session)).

(** The store [end_session] and the [stop] command leave. *)
Definition ended_store (now auto_now now_tracks : datetime)
  (session : DJSession.t) (d : database) : database :=
  with_djtrackinstance
    (end_tracks now_tracks (active_in_session (DJSession.id session))
       (djtrackinstance d))
    (with_djsession
       (<[DJSession.id session := ended_row now auto_now session]> (djsession d))
       d).

(** A session that is live although it was ended, with a track instance
    that ended with it. *)
Definition session_3 : DJSession.t :=
  DJSession.mk "9b9b" 7%positive None "Last week" "" 50 (Some 95) true false
    48000 16 2 0 30 0%float 0%float 0%float 0%float 0%float 0.8%float 50 96.

Definition track_3 : DJTrackInstance.t :=
  DJTrackInstance.mk "d7d7" "9b9b" None "Regret" "New Order" None DeckB
    60 (Some 95) 12%float 1%float false false 0.8%float 0%float 0%float 0%float
    None None false ∅ ∅ 60 60.

Definition snapshot_3 : AudioLevelSnapshot.t :=
  AudioLevelSnapshot.mk "e003" "5d1c" 70 0.5%float 0.5%float 0.5%float 0.5%float
    0.5%float 0.5%float 0.5%float 0.5%float 0.5%float 0.5%float None.

Definition store_2 : database :=
  mk_database
    {["5d1c" := session_1; "77aa" := session_2; "9b9b" := session_3]}
    {["a0f3" := track_1; "c9e4" := track_2; "d7d7" := track_3]}
    {["e003" := snapshot_3]} ∅.

(** [ended_at__lt=cutoff_date] on a session row. *)
Definition ended_before (cutoff_date : datetime) (s : DJSession.t) : bool :=
  match DJSession.ended_at s with
  | Some e => e <? cutoff_date
  | None => false
  end.

Definition history_2 : list request :=
  [ TrackCreate (load_deck DeckB) "b222" 121 121;
    AudioLevelsCreate snapshot_1;
    StreamMetricsCreate metrics_1;
    SessionEnd 7%positive "5d1c" 130 130 130;
    SessionDestroy 7%positive "77aa";
    CommandCleanup 1000 ].

(** The peak of every session row that [d] and [d'] both hold is no smaller
    in [d']. *)
Definition peaks_not_lowered (d d' : database) : Prop :=
  ∀ pk s s',
    djsession d !! pk = Some s → djsession d' !! pk = Some s' →
    DJSession.peak_listeners s ≤ DJSession.peak_listeners s'.

(** ** Sample frames *)

(** The frame [{"type": "audio_levels", "levels": {"master": 0.5}}]. *)
Definition frame_levels : gmap string json :=
  {["type" := JStr "audio_levels";
    "levels" := JDict {["master" := JFloat 0.5%float]}]}.

(** The frame [{"type": "mixer_update"}], without a payload. *)
Definition frame_mixer : gmap string json := {["type" := JStr "mixer_update"]}.

(** The frame [{"type": "listener_update", "listeners": "many"}]. *)
Definition frame_listeners_text : gmap string json :=
  {["type" := JStr "listener_update"; "listeners" := JStr "many"]}.

(** Between [w] and [w'] the consumer's channel left the group of its
    session, and nothing else changed in the group registry, the store or
    the messages sent to groups. *)
Definition group_released (self : DJSessionConsumer.consumer)
  (w w' : DJSessionConsumer.world) : Prop :=
  let group := room_group_name (DJSessionConsumer.session_id self) in
  (∃ members,
     DJSessionConsumer.groups w' !! group = Some members
     ∧ (DJSessionConsumer.channel_name self ∉ members)
     ∧ (∀ c, c ∈ members
             ↔ (c ≠ DJSessionConsumer.channel_name self
                ∧ c ∈ default ∅ (DJSessionConsumer.groups w !! group))))
  ∧ (∀ g, g ≠ group →
          DJSessionConsumer.groups w' !! g = DJSessionConsumer.groups w !! g)
  ∧ DJSessionConsumer.store w' = DJSessionConsumer.store w
  ∧ DJSessionConsumer.group_sent w' = DJSessionConsumer.group_sent w.

(** ** Group event handlers of the session consumer ([consumers.py]) *)

(** Values of the dicts the handlers pass to [json.dumps]: JSON values, or
    the output of a model serializer, kept as the row it serializes. *)
Inductive frame_value :=
| FJson (j : json)
| FSession (data : DJSession.t)
| FTrack (data : DJTrackInstance.t)
| FMetrics (data : LiveStreamMetrics.t).

Module GroupEventHandlers.

(** The handler methods of [DJSessionConsumer], each given the entries of
    the message it reads and returning the dict it sends to its client. *)
Definition session_event (event : string) (data : DJSession.t)
  : gmap string frame_value :=
  {["type" := FJson (JStr "session_event");
    "event" := FJson (JStr event);
    "data" := FSession data]}.

Definition session_update (data : DJSession.t) : gmap string frame_value :=
  {["type" := FJson (JStr "session_update"); "data" := FSession data]}.

Definition track_event (event : string) (deck : deck_choice)
  (data : DJTrackInstance.t) : gmap string frame_value :=
  {["type" := FJson (JStr "track_event");
    "event" := FJson (JStr event);
    "deck" := FJson (JStr (DJTrackInstanceCreateSerializer.deck_label deck));
    "data" := FTrack data]}.

Definition track_update (deck : deck_choice) (data : DJTrackInstance.t)
  : gmap string frame_value :=
  {["type" := FJson (JStr "track_update");
    "deck" := FJson (JStr (DJTrackInstanceCreateSerializer.deck_label deck));
    "data" := FTrack data]}.

Definition audio_levels_update (levels : json) : gmap string frame_value :=
  {["type" := FJson (JStr "audio_levels"); "levels" := FJson levels]}.

Definition mixer_state_update (mixer : json) : gmap string frame_value :=
  {["type" := FJson (JStr "mixer_update"); "mixer" := FJson mixer]}.

Definition track_control_update (track : json) : gmap string frame_value :=
  {["type" := FJson (JStr "track_control"); "track" := FJson track]}.

Definition listener_count_update (listeners : json) : gmap string frame_value :=
  {["type" := FJson (JStr "listener_count"); "listeners" := FJson listeners]}.

Definition stream_metrics (data : LiveStreamMetrics.t) : gmap string frame_value :=
  {["type" := FJson (JStr "stream_metrics"); "data" := FMetrics data]}.

End GroupEventHandlers.

(** Delivery of a group message to a session consumer: the method named by
    the message's ['type'] is applied to it.  [None] where the class has no
    method of that name: it defines [audio_levels_update], and none named
    [audio_levels]. *)
Definition dispatch (message : channel_event) : option (gmap string frame_value) :=
  match message with
  | session_event event _ data => Some (GroupEventHandlers.session_event event data)
  | session_update _ data => Some (GroupEventHandlers.session_update data)
  | track_event event _ deck data =>
      Some (GroupEventHandlers.track_event event deck data)
  | track_update _ deck data => Some (GroupEventHandlers.track_update deck data)
  | audio_levels _ => None
  | stream_metrics data => Some (GroupEventHandlers.stream_metrics data)
  | audio_levels_update levels =>
      Some (GroupEventHandlers.audio_levels_update levels)
  | mixer_state_update mixer => Some (GroupEventHandlers.mixer_state_update mixer)
  | track_control_update track =>
      Some (GroupEventHandlers.track_control_update track)
  | listener_count_update listeners =>
      Some (GroupEventHandlers.listener_count_update listeners)
  end.


(** ** The global consumer ([consumers.py], class DJGlobalConsumer) *)

Module DJGlobalConsumer.

Definition room_group_name : string := "dj_global_updates".

(** Frames sent to the client on connection. *)
Inductive frame :=
| platform_stats (active_sessions : nat).

Record world := mk_world {
  store : database;
  groups : gmap string (gset string);
  accepted : bool;
  sent : list frame
}.

(** [get_active_sessions_count]:
    [DJSession.objects.filter(ended_at__isnull=True).count()]. *)
Definition get_active_sessions_count (d : database) : nat :=
  size (objects_filter is_active (djsession d)).

(** [connect], for the consumer of channel [channel_name]. *)
Definition connect (channel_name : string) (w : world) : world :=
  (* Join global updates group *)
  let groups :=
    <[room_group_name :=
        {[channel_name]} ∪ default ∅ (groups w !! room_group_name)]> (groups w) in
  (* accept, then send active sessions count *)
  let active_sessions := get_active_sessions_count (store w) in
  mk_world (store w) groups true (sent w ++ [platform_stats active_sessions]).

(** [disconnect]. *)
Definition disconnect (channel_name : string) (w : world) : world :=
  mk_world (store w)
    (<[room_group_name :=
         default ∅ (groups w !! room_group_name) ∖ {[channel_name]}]> (groups w))
    (accepted w) (sent w).

End DJGlobalConsumer.

(** ** Effective BPM ([models.py], DJTrackInstance.current_bpm) *)






(** ** Real-time statistics ([views.py], DJSessionViewSet.realtime_stats) *)

Module DJMixerState.

(** Row of [realtime_dj_djmixerstate] (models.py, class DJMixerState). *)
Record t := mk {
  id : uuid;  (* UUIDField, primary key *)
  session : uuid;  (* ForeignKey(DJSession) *)
  crossfader : float;  (* default=0.0 *)
  master_volume : float;  (* default=0.8 *)
  channel_a_volume : float;  (* default=0.8 *)
  channel_a_eq_low : float;  (* default=0.0 *)
  channel_a_eq_mid : float;  (* default=0.0 *)
  channel_a_eq_high : float;  (* default=0.0 *)
  channel_a_filter : float;  (* default=0.0 *)
  channel_b_volume : float;  (* default=0.8 *)
  channel_b_eq_low : float;  (* default=0.0 *)
  channel_b_eq_mid : float;  (* default=0.0 *)
  channel_b_eq_high : float;  (* default=0.0 *)
  channel_b_filter : float;  (* default=0.0 *)
  bpm_master : option float;  (* null=True *)
  sync_enabled : bool;  (* default=False *)
  effects_active : gmap string json;  (* JSONField(default=dict) *)
  created_at : datetime;  (* auto_now_add *)
  updated_at : datetime  (* auto_now *)
}.

End DJMixerState.
(** [queryset.order_by('-key').first()]: a row with the greatest key, [None]
    on an empty queryset.  Among rows with equal keys the database's choice
    is not determined; the model takes the one that comes first in the
    table. *)
Definition newest {A} (key : A → datetime) (q : gmap uuid A) : option A :=
  foldr (λ kv best,
           match best with
           | Some b => if key b <? key kv.2 then Some kv.2 else Some b
           | None => Some kv.2
           end) None (map_to_list q).

(** [queryset.order_by('deck')] on track instances: the rows of deck A, then
    those of deck B; rows of one deck in the order of the table. *)
Definition order_by_deck (q : gmap uuid DJTrackInstance.t)
  : list DJTrackInstance.t :=
  let rows := (map_to_list q).*2 in
  filter (λ t, DJTrackInstance.deck t = DeckA) rows
  ++ filter (λ t, DJTrackInstance.deck t = DeckB) rows.

(** The dict [realtime_stats] hands to [RealtimeStatsSerializer]. *)
Record RealtimeStats := mk_RealtimeStats {
  stats_session : DJSession.t;
  active_tracks : list DJTrackInstance.t;
  latest_audio_levels : option AudioLevelSnapshot.t;
  current_mixer_state : option DJMixerState.t;
  latest_stream_metrics : option LiveStreamMetrics.t
}.

(** [realtime_stats]: GET sessions/{pk}/realtime_stats/.  The mixer states
    are the table [djmixerstate]; [None] stands for Http404. *)
Definition realtime_stats (user : user_id) (pk : uuid)
  (djmixerstate : gmap uuid DJMixerState.t) (d : database)
  : option RealtimeStats :=
  match DJSessionViewSet.get_object user pk d with
  | None => None
  | Some session =>
      let sid := DJSession.id session in
      (* Get active tracks *)
      let active_tracks :=
        order_by_deck
          (objects_filter (active_in_session sid) (djtrackinstance d)) in
      (* Get latest audio levels *)
      let latest_audio_levels :=
        newest AudioLevelSnapshot.timestamp
          (objects_filter (λ a, bool_decide (AudioLevelSnapshot.session a = sid))
             (audiolevelsnapshot d)) in
      (* Get current mixer state *)
      let current_mixer_state :=
        newest DJMixerState.updated_at
          (objects_filter (λ m, bool_decide (DJMixerState.session m = sid))
             djmixerstate) in
      (* Get latest stream metrics *)
      let latest_stream_metrics :=
        newest LiveStreamMetrics.timestamp
          (objects_filter (λ m, bool_decide (LiveStreamMetrics.session m = sid))
             (livestreammetrics d)) in
      Some (mk_RealtimeStats session active_tracks latest_audio_levels
              current_mixer_state latest_stream_metrics)
  end.

(** A store with two snapshots of one session and tracks on both decks. *)
Definition snapshot_4 : AudioLevelSnapshot.t :=
  AudioLevelSnapshot.mk "e004" "5d1c" 180 0.1%float 0.1%float 0.1%float 0.1%float
    0.1%float 0.1%float 0.1%float 0.1%float 0.1%float 0.1%float None.

Definition track_5 : DJTrackInstance.t :=
  DJTrackInstance.mk "b5b5" "5d1c" None "Temptation" "New Order" None DeckB
    115 None 0%float 1%float false false 0.8%float 0%float 0%float 0%float
    None None false ∅ ∅ 115 115.

Definition store_4 : database :=
  mk_database {["5d1c" := session_1; "77aa" := session_2]}
    {["a0f3" := track_1; "b5b5" := track_5; "c9e4" := track_2]}
    {["e003" := snapshot_3; "e004" := snapshot_4; "e001" := snapshot_1]} ∅.



(** * Proofs *)

(** ** Querysets *)

Section querysets.
Context {A : Type}.
Implicit Types (p : A → bool) (m : gmap uuid A).

Lemma objects_filter_lookup p m k x :
  objects_filter p m !! k = Some x ↔ m !! k = Some x ∧ p x = true.
Proof. unfold objects_filter. by rewrite map_lookup_filter_Some. Qed.

Lemma objects_filter_lookup_None p m k :
  objects_filter p m !! k = None ↔ ∀ x, m !! k = Some x → p x = false.
Proof.
  unfold objects_filter. rewrite map_lookup_filter_None. split.
  - intros [Hn | Hn] x Hx; [congruence |].
    specialize (Hn x Hx). simpl in Hn. by destruct (p x).
  - intros H. destruct (m !! k) as [x |] eqn:E; [right | by left].
    intros y [= <-]. simpl. rewrite (H x eq_refl). discriminate.
Qed.

Lemma queryset_exists_true m :
  queryset_exists m = true ↔ ∃ k x, m !! k = Some x.
Proof.
  unfold queryset_exists. rewrite negb_true_iff, bool_decide_eq_false.
  rewrite map_to_list_empty_iff. split.
  - intros H. destruct (map_choose m H) as (k & x & Hk). eauto.
  - intros (k & x & Hk) ->. by rewrite lookup_empty in Hk.
Qed.

Lemma queryset_exists_false m : queryset_exists m = false ↔ m = ∅.
Proof.
  unfold queryset_exists. rewrite negb_false_iff, bool_decide_eq_true.
  apply map_to_list_empty_iff.
Qed.

Lemma size_at_most_one m :
  (size m ≤ 1)%nat ↔ ∀ i j x y, m !! i = Some x → m !! j = Some y → i = j.
Proof.
  split.
  - intros Hs i j x y Hi Hj. destruct (decide (i = j)) as [| Hne]; [done |].
    exfalso.
    rewrite <- (insert_delete_id m i x Hi) in Hs.
    rewrite map_size_insert_None in Hs by apply lookup_delete_eq.
    assert (size (delete i m) = 0%nat) as Hz by lia.
    apply map_size_empty_iff in Hz.
    assert (delete i m !! j = Some y) as Hd by by rewrite lookup_delete_ne.
    rewrite Hz, lookup_empty in Hd. discriminate.
  - intros Hu. destruct (decide (m = ∅)) as [-> | Hne].
    + rewrite map_size_empty. lia.
    + destruct (map_choose m Hne) as (i & x & Hi).
      rewrite <- (insert_delete_id m i x Hi).
      rewrite map_size_insert_None by apply lookup_delete_eq.
      assert (delete i m = ∅) as ->; [| rewrite map_size_empty; lia].
      apply map_empty. intros j. destruct (decide (i = j)) as [<- | Hij].
      * apply lookup_delete_eq.
      * rewrite lookup_delete_ne by done.
        destruct (m !! j) as [y |] eqn:Hj; [| done].
        by destruct Hij; eapply Hu.
Qed.

End querysets.

(** ** Deck occupancy *)

Lemma active_in_session_true s t :
  active_in_session s t = true
  ↔ DJTrackInstance.session t = s ∧ DJTrackInstance.ended_at t = None.
Proof.
  unfold active_in_session.
  by rewrite andb_true_iff, !bool_decide_eq_true.
Qed.

Lemma active_on_deck_true s k t :
  active_on_deck s k t = true
  ↔ DJTrackInstance.session t = s
    ∧ DJTrackInstance.ended_at t = None
    ∧ DJTrackInstance.deck t = k.
Proof.
  unfold active_on_deck.
  rewrite andb_true_iff, active_in_session_true, bool_decide_eq_true. tauto.
Qed.

Lemma deck_occupancy_iff d : deck_occupancy d ↔ deck_occupancy_pairwise d.
Proof.
  unfold deck_occupancy, deck_occupancy_pairwise. split.
  - intros H k1 t1 H1 k2 t2 H2 E1 E2 Hs Hd.
    specialize (H (DJTrackInstance.session t1) (DJTrackInstance.deck t1)).
    rewrite size_at_most_one in H.
    apply (H k1 k2 t1 t2); apply objects_filter_lookup; split; try done;
      apply active_on_deck_true; auto.
  - intros H s k. apply size_at_most_one. intros i j x y Hi Hj.
    apply objects_filter_lookup in Hi as [Hi Pi].
    apply objects_filter_lookup in Hj as [Hj Pj].
    apply active_on_deck_true in Pi as (? & ? & ?).
    apply active_on_deck_true in Pj as (? & ? & ?).
    eapply (H i x Hi j y Hj); congruence.
Qed.

Lemma occupied_exists s k d :
  queryset_exists (objects_filter (active_on_deck s k) (djtrackinstance d)) = true
  ↔ occupied s k d.
Proof.
  rewrite queryset_exists_true. unfold occupied. split.
  - intros (pk & t & H). apply objects_filter_lookup in H as [H P].
    apply active_on_deck_true in P as (? & ? & ?). eauto 10.
  - intros (pk & t & H & ? & ? & ?). exists pk, t.
    apply objects_filter_lookup. split; [done |].
    by apply active_on_deck_true.
Qed.

Lemma no_new_active_refl d : no_new_active d d.
Proof. intros k t H E. eauto. Qed.

Lemma no_new_active_same_tracks d d' :
  djtrackinstance d' = djtrackinstance d → no_new_active d d'.
Proof. intros E k t H ?. rewrite E in H. eauto. Qed.

Lemma no_new_active_occupancy d d' :
  no_new_active d d' → deck_occupancy_pairwise d → deck_occupancy_pairwise d'.
Proof.
  intros Hn Ho k1 t1 H1 k2 t2 H2 E1 E2 Hs Hd.
  destruct (Hn _ _ H1 E1) as (u1 & ? & ? & ? & ?).
  destruct (Hn _ _ H2 E2) as (u2 & ? & ? & ? & ?).
  eapply (Ho k1 u1 ltac:(done) k2 u2 ltac:(done)); congruence.
Qed.

Lemma end_tracks_lookup now p table k :
  end_tracks now p table !! k
  = (λ t, if p t
          then DJTrackInstance.set_is_playing false
                 (DJTrackInstance.set_ended_at (Some now) t)
          else t) <$> table !! k.
Proof. unfold end_tracks. apply lookup_fmap. Qed.

Lemma no_new_active_end_tracks now p d :
  no_new_active d (with_djtrackinstance (end_tracks now p (djtrackinstance d)) d).
Proof.
  intros k t' H E. simpl in H. rewrite end_tracks_lookup in H.
  destruct (djtrackinstance d !! k) as [t |] eqn:Ht; [| done].
  simpl in H. injection H as <-.
  destruct (p t); [done |]. eauto.
Qed.

Lemma primary_keys_end_tracks now p d :
  primary_keys d →
  primary_keys (with_djtrackinstance (end_tracks now p (djtrackinstance d)) d).
Proof.
  intros [Hs Ht]. split; [exact Hs |]. intros k t H. simpl in H.
  rewrite end_tracks_lookup in H.
  destruct (djtrackinstance d !! k) as [u |] eqn:Hu; [| done].
  simpl in H. injection H as <-. specialize (Ht _ _ Hu).
  by destruct (p u).
Qed.

(** Saving an instance fetched from the store, after changes that leave its
    key, session, deck and end time alone. *)
Lemma no_new_active_save auto_now pk t t' d :
  djtrackinstance d !! pk = Some t →
  DJTrackInstance.id t = pk →
  DJTrackInstance.id t' = DJTrackInstance.id t →
  DJTrackInstance.session t' = DJTrackInstance.session t →
  DJTrackInstance.deck t' = DJTrackInstance.deck t →
  DJTrackInstance.ended_at t' = DJTrackInstance.ended_at t →
  no_new_active d (DJTrackInstance_save auto_now t' d).2.
Proof.
  intros Ht Hk Hid Hs Hd He k u Hu Eu. simpl in Hu.
  rewrite lookup_insert in Hu. case_decide as Hc.
  - injection Hu as <-. simpl in *. exists t. subst k.
    rewrite Hid, Hk. repeat split; try done; congruence.
  - eauto.
Qed.

Lemma primary_keys_save_track auto_now t' d :
  primary_keys d → primary_keys (DJTrackInstance_save auto_now t' d).2.
Proof.
  intros [Hs Ht]. split; [exact Hs |]. intros k u Hu. simpl in Hu.
  rewrite lookup_insert in Hu. case_decide as Hc.
  - by injection Hu as <-.
  - eauto.
Qed.

Lemma primary_keys_save_session auto_now s' d :
  primary_keys d → primary_keys (DJSession_save auto_now s' d).2.
Proof.
  intros [Hs Ht]. split; [| exact Ht]. intros k u Hu. simpl in Hu.
  rewrite lookup_insert in Hu. case_decide as Hc.
  - by injection Hu as <-.
  - eauto.
Qed.

Lemma get_object_track_Some user pk d t :
  DJTrackInstanceViewSet.get_object user pk d = Some t →
  djtrackinstance d !! pk = Some t.
Proof.
  unfold DJTrackInstanceViewSet.get_object. intros H.
  destruct (djtrackinstance d !! pk) as [u |]; [| done].
  destruct (djsession d !! DJTrackInstance.session u) as [s |]; [| done].
  by case_decide.
Qed.

Lemma get_object_session_Some user pk d s :
  DJSessionViewSet.get_object user pk d = Some s →
  djsession d !! pk = Some s ∧ DJSession.dj s = user.
Proof.
  unfold DJSessionViewSet.get_object. intros H.
  destruct (djsession d !! pk) as [u |]; [| done].
  case_decide; [| done]. by injection H as <-.
Qed.

Lemma primary_keys_same_tables d d' :
  djsession d' = djsession d → djtrackinstance d' = djtrackinstance d →
  primary_keys d → primary_keys d'.
Proof. intros E1 E2 [Hs Ht]. split; intros k x; rewrite ?E1, ?E2; eauto. Qed.

Lemma primary_keys_save_levels obj d d' :
  DJSession_save_levels obj d = inr d' → primary_keys d → primary_keys d'.
Proof.
  unfold DJSession_save_levels. intros H [Hs Ht].
  destruct (djsession d !! DJSession.id obj) as [row |] eqn:Hr; [| done].
  injection H as <-. split; [| exact Ht]. intros k u Hu. simpl in Hu.
  rewrite lookup_insert in Hu. case_decide as Hc.
  - injection Hu as <-. simpl. rewrite <- Hc. eauto.
  - eauto.
Qed.

Lemma primary_keys_save_listeners obj d d' :
  DJSession_save_listeners obj d = inr d' → primary_keys d → primary_keys d'.
Proof.
  unfold DJSession_save_listeners. intros H [Hs Ht].
  destruct (djsession d !! DJSession.id obj) as [row |] eqn:Hr; [| done].
  injection H as <-. split; [| exact Ht]. intros k u Hu. simpl in Hu.
  rewrite lookup_insert in Hu. case_decide as Hc.
  - injection Hu as <-. simpl. rewrite <- Hc. eauto.
  - eauto.
Qed.

Lemma save_levels_tracks obj d d' :
  DJSession_save_levels obj d = inr d' → djtrackinstance d' = djtrackinstance d.
Proof.
  unfold DJSession_save_levels. intros H.
  destruct (djsession d !! DJSession.id obj); [| done]. by injection H as <-.
Qed.

Lemma save_listeners_tracks obj d d' :
  DJSession_save_listeners obj d = inr d' → djtrackinstance d' = djtrackinstance d.
Proof.
  unfold DJSession_save_listeners. intros H.
  destruct (djsession d !! DJSession.id obj); [| done]. by injection H as <-.
Qed.

Lemma no_new_active_filter p d m a b :
  no_new_active d (mk_database m (objects_filter p (djtrackinstance d)) a b).
Proof.
  intros k t H E. simpl in H. apply objects_filter_lookup in H as [H _]. eauto.
Qed.

Lemma primary_keys_filter p q d a b :
  primary_keys d →
  primary_keys (mk_database (objects_filter q (djsession d))
                  (objects_filter p (djtrackinstance d)) a b).
Proof.
  intros [Hs Ht]. split; intros k x H; simpl in H;
    apply objects_filter_lookup in H as [H _]; eauto.
Qed.

Ltac keep_tracks :=
  split; [| eapply no_new_active_occupancy; [| eassumption]].

Lemma track_save_invariant user pk d auto_now t' :
  store_invariant d →
  (∀ t, DJTrackInstanceViewSet.get_object user pk d = Some t →
        DJTrackInstance.id (t' t) = DJTrackInstance.id t
        ∧ DJTrackInstance.session (t' t) = DJTrackInstance.session t
        ∧ DJTrackInstance.deck (t' t) = DJTrackInstance.deck t
        ∧ DJTrackInstance.ended_at (t' t) = DJTrackInstance.ended_at t) →
  ∀ t, DJTrackInstanceViewSet.get_object user pk d = Some t →
       store_invariant (DJTrackInstance_save auto_now (t' t) d).2.
Proof.
  intros [Hk Ho] Hf t Hg. destruct (Hf t Hg) as (? & ? & ? & ?).
  apply get_object_track_Some in Hg. keep_tracks.
  - by apply primary_keys_save_track.
  - eapply no_new_active_save; eauto. by apply Hk.
Qed.

Lemma create_track_invariant x new_id now auto_now d :
  store_invariant d →
  store_invariant (DJTrackInstanceViewSet.create x new_id now auto_now d).1.2.
Proof.
  intros [Hk Ho]. unfold DJTrackInstanceViewSet.create.
  destruct (djsession d !! _); [| done].
  unfold DJTrackInstanceCreateSerializer.validate.
  destruct (queryset_exists _) eqn:Hq; [done |].
  destruct (djtrackinstance d !! new_id) eqn:Hnew; [done |]. simpl.
  apply queryset_exists_false in Hq.
  split.
  - destruct Hk as [Hs Ht]. split; [exact Hs |]. intros k u Hu. simpl in Hu.
    rewrite lookup_insert in Hu. case_decide; [by injection Hu as <- | eauto].
  - intros k1 t1 H1 k2 t2 H2 E1 E2 Es Ed. simpl in H1, H2.
    assert (∀ k u, djtrackinstance d !! k = Some u →
                   DJTrackInstance.ended_at u = None →
                   DJTrackInstance.session u = DJTrackInstanceCreateSerializer.session x →
                   DJTrackInstance.deck u = DJTrackInstanceCreateSerializer.deck x →
                   False) as Hfree.
    { intros k u Hu ? ? ?.
      assert (objects_filter
                (active_on_deck (DJTrackInstanceCreateSerializer.session x)
                   (DJTrackInstanceCreateSerializer.deck x))
                (djtrackinstance d) !! k = Some u) as Hin.
      { apply objects_filter_lookup. split; [done |]. by apply active_on_deck_true. }
      rewrite Hq, lookup_empty in Hin. discriminate. }
    destruct (decide (new_id = k1)) as [<- | C1];
      destruct (decide (new_id = k2)) as [<- | C2]; [done | | |].
    + rewrite lookup_insert_eq in H1. rewrite lookup_insert_ne in H2 by done.
      injection H1 as <-. simpl in *. exfalso. eapply Hfree; eauto.
    + rewrite lookup_insert_eq in H2. rewrite lookup_insert_ne in H1 by done.
      injection H2 as <-. simpl in *. exfalso. eapply Hfree; eauto.
    + rewrite lookup_insert_ne in H1, H2 by done.
      eapply (Ho k1 t1 H1 k2 t2 H2); eauto.
Qed.

Lemma session_save_invariant auto_now s' d :
  store_invariant d → store_invariant (DJSession_save auto_now s' d).2.
Proof.
  intros [Hk Ho]. keep_tracks.
  - by apply primary_keys_save_session.
  - by apply no_new_active_same_tracks.
Qed.

Lemma end_tracks_invariant now p d :
  store_invariant d →
  store_invariant (with_djtrackinstance (end_tracks now p (djtrackinstance d)) d).
Proof.
  intros [Hk Ho]. keep_tracks.
  - by apply primary_keys_end_tracks.
  - apply no_new_active_end_tracks.
Qed.

Lemma update_session_listeners_invariant self v w :
  store_invariant (DJSessionConsumer.store w) →
  store_invariant
    (DJSessionConsumer.store (DJSessionConsumer.update_session_listeners self v w).2).
Proof.
  intros Hi.
  unfold DJSessionConsumer.update_session_listeners, DJSessionConsumer.try_except,
    DJSessionConsumer.bind, DJSessionConsumer.objects_get, DJSessionConsumer.lift,
    DJSessionConsumer.get_store, DJSessionConsumer.set_store,
    DJSessionConsumer.raise, DJSessionConsumer.ret.
  destruct (djsession (DJSessionConsumer.store w) !! _) as [s |]; [| done].
  destruct (py_gt_int v _) as [e | g]; [by destruct e |].
  destruct (to_positive_integer_column v) as [e | c]; [by destruct e |].
  destruct (to_positive_integer_column (if g then v else _)) as [e | p];
    [by destruct e |].
  destruct (DJSession_save_listeners _ _) as [e | d'] eqn:Hs; [by destruct e |].
  simpl. destruct Hi as [Hk Ho]. keep_tracks.
  - eapply primary_keys_save_listeners; eauto.
  - apply no_new_active_same_tracks. eapply save_listeners_tracks; eauto.
Qed.

Lemma handle_invariant r d :
  store_invariant d → store_invariant (handle r d).
Proof.
  intros Hi. destruct r; simpl.
  - (* SessionCreate *)
    unfold DJSessionViewSet.create.
    destruct (negb _); [done |]. destruct (djsession d !! new_id); [done |].
    simpl. destruct Hi as [[Hs Ht] Ho]. keep_tracks.
    + split; [| exact Ht]. intros k u Hu. simpl in Hu.
      rewrite lookup_insert in Hu. case_decide; [by injection Hu as <- | eauto].
    + by apply no_new_active_same_tracks.
  - (* SessionUpdate *)
    unfold DJSessionViewSet.update.
    destruct (DJSessionViewSet.get_object user pk d); [| done].
    destruct (negb _); [done |]. by apply session_save_invariant.
  - (* SessionStart *)
    unfold DJSessionViewSet.start_session.
    destruct (DJSessionViewSet.get_object user pk d); [| done].
    destruct (DJSession.is_live _); [done |]. by apply session_save_invariant.
  - (* SessionEnd *)
    unfold DJSessionViewSet.end_session.
    destruct (DJSessionViewSet.get_object user pk d); [| done].
    destruct (negb _); [done |].
    apply (end_tracks_invariant _ _ (DJSession_save _ _ d).2).
    by apply session_save_invariant.
  - (* SessionDestroy *)
    unfold DJSessionViewSet.destroy.
    destruct (DJSessionViewSet.get_object user pk d); [| done]. simpl.
    destruct Hi as [[Hs Ht] Ho]. keep_tracks.
    + split; simpl.
      * intros k u Hu. apply lookup_delete_Some in Hu as [_ Hu]. eauto.
      * intros k u Hu. apply objects_filter_lookup in Hu as [Hu _]. eauto.
    + apply no_new_active_filter.
  - (* TrackCreate *)
    by apply create_track_invariant.
  - (* TrackUpdate *)
    unfold DJTrackInstanceViewSet.update.
    destruct (DJTrackInstanceViewSet.get_object user pk d) as [t |] eqn:Hg; [| done].
    destruct (negb _); [done |].
    by apply (track_save_invariant user pk d auto_now
                (DJTrackInstanceUpdateSerializer.update x)).
  - (* TrackPlay *)
    unfold DJTrackInstanceViewSet.play.
    destruct (DJTrackInstanceViewSet.get_object user pk d) as [t |] eqn:Hg; [| done].
    by apply (track_save_invariant user pk d auto_now
                (DJTrackInstance.set_is_playing true)).
  - (* TrackPause *)
    unfold DJTrackInstanceViewSet.pause.
    destruct (DJTrackInstanceViewSet.get_object user pk d) as [t |] eqn:Hg; [| done].
    by apply (track_save_invariant user pk d auto_now
                (DJTrackInstance.set_is_playing false)).
  - (* TrackSeek *)
    unfold DJTrackInstanceViewSet.seek.
    destruct (DJTrackInstanceViewSet.get_object user pk d) as [t |] eqn:Hg; [| done].
    by apply (track_save_invariant user pk d auto_now
                (DJTrackInstance.set_current_position position)).
  - (* TrackAddCue *)
    unfold DJTrackInstanceViewSet.add_cue.
    destruct (DJTrackInstanceViewSet.get_object user pk d) as [t |] eqn:Hg; [| done].
    by apply (track_save_invariant user pk d auto_now
                (λ t, DJTrackInstance.set_cue_points
                        (<[default
                             ("Cue " +:+ pretty (size (DJTrackInstance.cue_points t) + 1)%nat)
                             name
                           := default (JFloat (DJTrackInstance.current_position t))
                                position]> (DJTrackInstance.cue_points t)) t)).
  - (* TrackDestroy *)
    unfold DJTrackInstanceViewSet.destroy.
    destruct (DJTrackInstanceViewSet.get_object user pk d) as [t |]; [| done].
    simpl. destruct Hi as [[Hs Ht] Ho]. keep_tracks.
    + split; [exact Hs |]. intros k u Hu. simpl in Hu.
      apply lookup_delete_Some in Hu as [_ Hu]. eauto.
    + intros k u Hu ?. simpl in Hu.
      apply lookup_delete_Some in Hu as [_ Hu]. eauto.
  - (* AudioLevelsCreate *)
    unfold audio_levels_create.
    destruct (djsession d !! _) as [s |] eqn:Hs; [| done].
    destruct (negb _); [done |].
    unfold AudioLevelSnapshotViewSet.perform_create. rewrite Hs.
    destruct (audiolevelsnapshot d !! _); [done |].
    destruct (DJSession_save_levels _ _) as [e | d'] eqn:Hsave; [done |].
    simpl. destruct Hi as [Hk Ho]. keep_tracks.
    + eapply primary_keys_save_levels; [exact Hsave |].
      eapply primary_keys_same_tables; [| | exact Hk]; done.
    + apply no_new_active_same_tracks.
      by rewrite (save_levels_tracks _ _ _ Hsave).
  - (* StreamMetricsCreate *)
    unfold stream_metrics_create.
    destruct (djsession d !! _) as [s |] eqn:Hs; [| done].
    destruct (negb _); [done |].
    unfold LiveStreamMetricsViewSet.perform_create. rewrite Hs.
    destruct (livestreammetrics d !! _); [done |].
    destruct (DJSession_save_listeners _ _) as [e | d'] eqn:Hsave; [done |].
    simpl. destruct Hi as [Hk Ho]. keep_tracks.
    + eapply primary_keys_save_listeners; [exact Hsave |].
      eapply primary_keys_same_tables; [| | exact Hk]; done.
    + apply no_new_active_same_tracks.
      by rewrite (save_listeners_tracks _ _ _ Hsave).
  - (* ListenerUpdate *)
    by apply update_session_listeners_invariant.
  - (* CommandStop *)
    unfold Command.stop_session.
    destruct (djsession d !! session_id); [| done].
    destruct (is_active _); [| done].
    apply (end_tracks_invariant _ _ (DJSession_save _ _ d).2).
    by apply session_save_invariant.
  - (* CommandCleanup *)
    unfold Command.cleanup_old_data. destruct Hi as [Hk Ho]. keep_tracks.
    + by apply primary_keys_filter.
    + apply no_new_active_filter.
Qed.

Lemma run_invariant history d :
  store_invariant d → store_invariant (run history d).
Proof.
  revert d. induction history as [| r history IH]; intros d Hi; [done |].
  apply IH. by apply handle_invariant.
Qed.

(** ** C1: deck occupancy *)

(** C1. Deck-occupancy invariant: in every store reached by a history of
    operations from a store that satisfies it (the empty store does), every
    session and deck has at most one track instance with [ended_at] null;
    and loading a track on a (session, deck) pair that holds an active
    instance is answered 400 with the store unchanged: no row is created
    and nothing is published. *)
Theorem deck_occupancy_invariant :
  (∀ history d,
     primary_keys d → deck_occupancy d → deck_occupancy (run history d))
  ∧ (∀ history, deck_occupancy (run history empty_store))
  ∧ (∀ x new_id now auto_now d,
       occupied (DJTrackInstanceCreateSerializer.session x)
         (DJTrackInstanceCreateSerializer.deck x) d →
       ∃ detail,
         DJTrackInstanceViewSet.create x new_id now auto_now d
         = (mk_Response (ValidationErrors detail) HTTP_400_BAD_REQUEST, d, [])).
Proof.
  split; [| split].
  - intros history d Hk Ho. apply deck_occupancy_iff.
    apply run_invariant. split; [done |]. by apply deck_occupancy_iff.
  - intros history. apply deck_occupancy_iff. apply run_invariant.
    split; [split |]; intros k x H; simpl in H; by rewrite lookup_empty in H.
  - intros x new_id now auto_now d Hocc.
    unfold DJTrackInstanceViewSet.create.
    destruct (djsession d !! _); [| by eexists].
    unfold DJTrackInstanceCreateSerializer.validate.
    apply occupied_exists in Hocc. rewrite Hocc. by eexists.
Qed.

Lemma deck_occupancy_invariant_witness :
  deck_occupancy (run history_1 store_1)
  ∧ ∃ detail,
      DJTrackInstanceViewSet.create (load_deck DeckA) "b111" 120 120 store_1
      = (mk_Response (ValidationErrors detail) HTTP_400_BAD_REQUEST, store_1, []).
Proof.
  split.
  - apply (proj1 deck_occupancy_invariant).
    + apply (bool_decide_unpack _). vm_compute. exact I.
    + apply deck_occupancy_iff. apply (bool_decide_unpack _). vm_compute. exact I.
  - apply (proj2 (proj2 deck_occupancy_invariant)).
    exists "a0f3", track_1. vm_compute. done.
Defined.

(** ** C6 and C2: starting and ending a session *)

(** C6. For a session the caller owns: when it is already live,
    [start_session] answers 400 with the error body, leaves the store (hence
    every field of the session) unchanged and publishes nothing; when it is
    not live, the stored row gets [is_live = true] and [started_at = now]
    ([auto_now] stamps [updated_at]), nothing else in the store changes, and
    the answer is 200. *)
Theorem start_session_correct user pk now auto_now d session :
  primary_keys d →
  DJSessionViewSet.get_object user pk d = Some session →
  let r := DJSessionViewSet.start_session user pk now auto_now d in
  (DJSession.is_live session = true →
     r = (mk_Response (ErrorBody "Session is already live") HTTP_400_BAD_REQUEST,
          d, []))
  ∧ (DJSession.is_live session = false →
       let session' :=
         DJSession.set_updated_at auto_now
           (DJSession.set_started_at now (DJSession.set_is_live true session)) in
       r = (mk_Response (SessionBody "Session started" session') HTTP_200_OK,
            with_djsession (<[pk := session']> (djsession d)) d,
            [(room_group_name pk, session_event "session_started" pk session')])
       ∧ djsession r.1.2 !! pk = Some session'
       ∧ DJSession.is_live session' = true
       ∧ DJSession.started_at session' = now).
Proof.
  intros [Hk _] Hg r. subst r. unfold DJSessionViewSet.start_session.
  rewrite Hg. apply get_object_session_Some in Hg as [Hg _].
  specialize (Hk _ _ Hg). simpl in Hk.
  split; intros Hl; rewrite Hl; [done |]. simpl.
  unfold DJSessionViewSet._broadcast_session_event. simpl. rewrite Hk.
  repeat split. simpl. apply lookup_insert_eq.
Qed.

Lemma start_session_correct_witness :
  DJSessionViewSet.start_session 7%positive "5d1c" 200 201 store_1
  = (mk_Response (ErrorBody "Session is already live") HTTP_400_BAD_REQUEST,
     store_1, [])
  ∧ ∃ session',
      djsession (DJSessionViewSet.start_session 7%positive "77aa" 200 201 store_1).1.2
        !! "77aa" = Some session'
      ∧ DJSession.is_live session' = true
      ∧ DJSession.started_at session' = 200.
Proof.
  split.
  - apply (start_session_correct 7%positive "5d1c" 200 201 store_1 session_1).
    + apply (bool_decide_unpack _). vm_compute. exact I.
    + vm_compute. reflexivity.
    + reflexivity.
  - eexists.
    apply (start_session_correct 7%positive "77aa" 200 201 store_1 session_2).
    + apply (bool_decide_unpack _). vm_compute. exact I.
    + vm_compute. reflexivity.
    + reflexivity.
Defined.

Lemma end_tracks_selected now p table k t :
  table !! k = Some t → p t = true →
  end_tracks now p table !! k
  = Some (DJTrackInstance.set_is_playing false
            (DJTrackInstance.set_ended_at (Some now) t)).
Proof. intros Ht Hp. rewrite end_tracks_lookup, Ht. simpl. by rewrite Hp. Qed.

Lemma end_tracks_other now p table k :
  (∀ t, table !! k = Some t → p t = false) →
  end_tracks now p table !! k = table !! k.
Proof.
  intros H. rewrite end_tracks_lookup.
  destruct (table !! k) as [t |] eqn:Ht; [| done]. simpl.
  by rewrite (H t eq_refl).
Qed.

(** C2. For a session the caller owns: when it is not live, [end_session]
    answers 400, leaves the whole store unchanged and publishes nothing;
    when it is live, the stored session gets [is_live = false] and
    [ended_at = now], every track instance of the session whose [ended_at]
    was null gets [ended_at] set and [is_playing = false] (its other fields
    are kept), and every other track instance, those of other sessions and
    those already ended, is untouched, as are the other tables. *)
Theorem end_session_correct user pk now auto_now now_tracks d session :
  primary_keys d →
  DJSessionViewSet.get_object user pk d = Some session →
  let r := DJSessionViewSet.end_session user pk now auto_now now_tracks d in
  (DJSession.is_live session = false →
     r = (mk_Response (ErrorBody "Session is not currently live")
            HTTP_400_BAD_REQUEST, d, []))
  ∧ (DJSession.is_live session = true →
       let session' :=
         DJSession.set_updated_at auto_now
           (DJSession.set_ended_at (Some now)
              (DJSession.set_is_live false session)) in
       r.1.1 = mk_Response (SessionBody "Session ended" session') HTTP_200_OK
       ∧ djsession r.1.2 = <[pk := session']> (djsession d)
       ∧ DJSession.is_live session' = false
       ∧ DJSession.ended_at session' = Some now
       ∧ (∀ k t, djtrackinstance d !! k = Some t →
                 DJTrackInstance.session t = pk →
                 DJTrackInstance.ended_at t = None →
                 ∃ t', djtrackinstance r.1.2 !! k = Some t'
                       ∧ DJTrackInstance.ended_at t' = Some now_tracks
                       ∧ DJTrackInstance.is_playing t' = false
                       ∧ t' = DJTrackInstance.set_is_playing false
                                (DJTrackInstance.set_ended_at (Some now_tracks) t))
       ∧ (∀ k, (∀ t, djtrackinstance d !! k = Some t →
                     DJTrackInstance.session t ≠ pk
                     ∨ DJTrackInstance.ended_at t ≠ None) →
               djtrackinstance r.1.2 !! k = djtrackinstance d !! k)
       ∧ audiolevelsnapshot r.1.2 = audiolevelsnapshot d
       ∧ livestreammetrics r.1.2 = livestreammetrics d).
Proof.
  intros [Hk _] Hg r. subst r. unfold DJSessionViewSet.end_session.
  rewrite Hg. apply get_object_session_Some in Hg as [Hg _].
  specialize (Hk _ _ Hg). simpl in Hk.
  split; intros Hl; rewrite Hl; [done |]. simpl. rewrite Hk.
  repeat split.
  - intros k t Ht Hs He.
    exists (DJTrackInstance.set_is_playing false
              (DJTrackInstance.set_ended_at (Some now_tracks) t)).
    split; [| done].
    apply end_tracks_selected; [done |]. by apply active_in_session_true.
  - intros k Hn. apply end_tracks_other. intros t Ht.
    destruct (active_in_session pk t) eqn:Ha; [| done].
    apply active_in_session_true in Ha as [? ?].
    destruct (Hn t Ht); congruence.
Qed.

Lemma end_session_correct_witness :
  DJSessionViewSet.end_session 7%positive "77aa" 300 301 302 store_1
  = (mk_Response (ErrorBody "Session is not currently live")
       HTTP_400_BAD_REQUEST, store_1, [])
  ∧ (∃ t', djtrackinstance
             (DJSessionViewSet.end_session 7%positive "5d1c" 300 301 302 store_1).1.2
             !! "a0f3" = Some t'
           ∧ DJTrackInstance.ended_at t' = Some 302
           ∧ DJTrackInstance.is_playing t' = false
           ∧ t' = DJTrackInstance.set_is_playing false
                    (DJTrackInstance.set_ended_at (Some 302) track_1))
  ∧ djtrackinstance
      (DJSessionViewSet.end_session 7%positive "5d1c" 300 301 302 store_1).1.2
      !! "c9e4" = Some track_2.
Proof.
  split; [| split].
  - apply (end_session_correct 7%positive "77aa" 300 301 302 store_1 session_2).
    + apply (bool_decide_unpack _). vm_compute. exact I.
    + vm_compute. reflexivity.
    + reflexivity.
  - apply (end_session_correct 7%positive "5d1c" 300 301 302 store_1 session_1);
      try (vm_compute; reflexivity).
    apply (bool_decide_unpack _). vm_compute. exact I.
  - assert (primary_keys store_1) as Hk
      by (apply (bool_decide_unpack _); vm_compute; exact I).
    assert (DJSessionViewSet.get_object 7%positive "5d1c" store_1 = Some session_1)
      as Hg by (vm_compute; reflexivity).
    destruct (end_session_correct 7%positive "5d1c" 300 301 302 store_1 session_1
                Hk Hg) as [_ Hlive].
    destruct (Hlive eq_refl) as (_ & _ & _ & _ & _ & Hother & _).
    rewrite Hother; [vm_compute; reflexivity |].
    intros t Ht. left. vm_compute in Ht.
    injection Ht as <-. vm_compute. discriminate.
Defined.

(** ** Floats *)

Lemma SFcompare_antisym x y : SFcompare y x = CompOpp <$> SFcompare x y.
Proof.
  destruct x as [sx | sx | | sx mx ex], y as [sy | sy | | sy my ey]; simpl;
    try done; try (by destruct sx); try (by destruct sy);
    try (by destruct sx, sy).
  destruct sx, sy; simpl; try done.
  - rewrite (Z.compare_antisym ex ey).
    destruct (ex ?= ey)%Z; simpl; try done.
    f_equal. rewrite (Pos.compare_cont_antisym mx my Eq). simpl.
    by destruct (Pos.compare_cont Eq mx my).
  - rewrite (Z.compare_antisym ex ey).
    destruct (ex ?= ey)%Z; simpl; try done.
    f_equal. rewrite (Pos.compare_cont_antisym mx my Eq). simpl.
    by destruct (Pos.compare_cont Eq mx my).
Qed.

Lemma is_number_compare a b :
  is_number a = true → is_number b = true →
  ∃ c, SFcompare (Prim2SF a) (Prim2SF b) = Some c.
Proof.
  unfold is_number. rewrite !FloatAxioms.eqb_spec. unfold SFeqb.
  destruct (Prim2SF a) as [sx | sx | | sx mx ex],
           (Prim2SF b) as [sy | sy | | sy my ey];
    simpl; intros; try done; eauto.
Qed.

Lemma is_number_leb_refl a : is_number a = true → PrimFloat.leb a a = true.
Proof.
  unfold is_number. rewrite FloatAxioms.eqb_spec, FloatAxioms.leb_spec.
  unfold SFeqb, SFleb. by destruct (SFcompare _ _) as [[] |].
Qed.

(** On numbers, Python's [max] returns one of its arguments, and it is no
    smaller than either. *)
Lemma py_max_is_maximum a b :
  is_number a = true → is_number b = true →
  (py_max a b = a ∨ py_max a b = b)
  ∧ PrimFloat.leb a (py_max a b) = true
  ∧ PrimFloat.leb b (py_max a b) = true.
Proof.
  intros Ha Hb. unfold py_max.
  destruct (is_number_compare a b Ha Hb) as [c Hc].
  pose proof (SFcompare_antisym (Prim2SF a) (Prim2SF b)) as Hanti.
  rewrite Hc in Hanti. simpl in Hanti.
  pose proof (is_number_leb_refl a Ha) as Haa.
  pose proof (is_number_leb_refl b Hb) as Hbb.
  destruct (PrimFloat.ltb a b) eqn:Hlt.
  - split; [by right |]. split; [| done].
    rewrite FloatAxioms.ltb_spec in Hlt. rewrite FloatAxioms.leb_spec.
    unfold SFltb, SFleb in *. rewrite Hc in *. by destruct c.
  - split; [by left |]. split; [done |].
    rewrite FloatAxioms.ltb_spec in Hlt. rewrite FloatAxioms.leb_spec.
    unfold SFltb, SFleb in *. rewrite Hc in Hlt. rewrite Hanti. by destruct c.
Qed.

(** ** C4 and C9: audio level snapshots *)

(** What [save(update_fields=...)] of the four level columns does to the
    row, whatever else the instance holds. *)
Lemma save_levels_row obj d row :
  djsession d !! DJSession.id obj = Some row →
  DJSession_save_levels obj d
  = inr (with_djsession
           (<[DJSession.id obj :=
                DJSession.set_channel_b_level (DJSession.channel_b_level obj)
                  (DJSession.set_channel_a_level (DJSession.channel_a_level obj)
                     (DJSession.set_master_level_right
                        (DJSession.master_level_right obj)
                        (DJSession.set_master_level_left
                           (DJSession.master_level_left obj) row)))]>
              (djsession d)) d).
Proof. intros H. unfold DJSession_save_levels. by rewrite H. Qed.

(** C4. Submitting an audio level snapshot for an existing session: the
    snapshot is stored and published, and the session row then has
    [master_level_left] and [master_level_right] equal to the snapshot's
    master left and right, [channel_a_level] equal to Python's
    [max(channel_a_left, channel_a_right)] and [channel_b_level] to
    [max(channel_b_left, channel_b_right)].  On numbers this [max] is one of
    the two values and at least both; with [channel_a_left = 0.3] and
    [channel_a_right = 0.7], [channel_a_level] becomes [0.7]. *)
Theorem record_audio_levels_correct snapshot d session :
  primary_keys d →
  djsession d !! AudioLevelSnapshot.session snapshot = Some session →
  audiolevelsnapshot d !! AudioLevelSnapshot.id snapshot = None →
  ∃ d' session',
    AudioLevelSnapshotViewSet.perform_create snapshot d
    = inr (d', [(room_group_name (AudioLevelSnapshot.session snapshot),
                 audio_levels snapshot)])
    ∧ audiolevelsnapshot d' !! AudioLevelSnapshot.id snapshot = Some snapshot
    ∧ djsession d' !! AudioLevelSnapshot.session snapshot = Some session'
    ∧ DJSession.master_level_left session' = AudioLevelSnapshot.master_left snapshot
    ∧ DJSession.master_level_right session'
      = AudioLevelSnapshot.master_right snapshot
    ∧ DJSession.channel_a_level session'
      = py_max (AudioLevelSnapshot.channel_a_left snapshot)
          (AudioLevelSnapshot.channel_a_right snapshot)
    ∧ DJSession.channel_b_level session'
      = py_max (AudioLevelSnapshot.channel_b_left snapshot)
          (AudioLevelSnapshot.channel_b_right snapshot)
    ∧ (AudioLevelSnapshot.channel_a_left snapshot = 0.3%float →
       AudioLevelSnapshot.channel_a_right snapshot = 0.7%float →
       DJSession.channel_a_level session' = 0.7%float)
    ∧ (is_number (AudioLevelSnapshot.channel_a_left snapshot) = true →
       is_number (AudioLevelSnapshot.channel_a_right snapshot) = true →
       (DJSession.channel_a_level session' = AudioLevelSnapshot.channel_a_left snapshot
        ∨ DJSession.channel_a_level session'
          = AudioLevelSnapshot.channel_a_right snapshot)
       ∧ PrimFloat.leb (AudioLevelSnapshot.channel_a_left snapshot)
           (DJSession.channel_a_level session') = true
       ∧ PrimFloat.leb (AudioLevelSnapshot.channel_a_right snapshot)
           (DJSession.channel_a_level session') = true)
    ∧ (is_number (AudioLevelSnapshot.channel_b_left snapshot) = true →
       is_number (AudioLevelSnapshot.channel_b_right snapshot) = true →
       (DJSession.channel_b_level session' = AudioLevelSnapshot.channel_b_left snapshot
        ∨ DJSession.channel_b_level session'
          = AudioLevelSnapshot.channel_b_right snapshot)
       ∧ PrimFloat.leb (AudioLevelSnapshot.channel_b_left snapshot)
           (DJSession.channel_b_level session') = true
       ∧ PrimFloat.leb (AudioLevelSnapshot.channel_b_right snapshot)
           (DJSession.channel_b_level session') = true).
Proof.
  intros [Hk _] Hs Hnew. pose proof (Hk _ _ Hs) as Hid. simpl in Hid.
  unfold AudioLevelSnapshotViewSet.perform_create. rewrite Hs, Hnew.
  erewrite save_levels_row by (simpl; rewrite Hid; exact Hs).
  simpl. rewrite Hid. eexists _, _. split; [reflexivity |]. simpl.
  split; [apply lookup_insert_eq |].
  split; [apply lookup_insert_eq |]. simpl.
  repeat (split; [reflexivity |]).
  split; [| split].
  - by intros -> ->.
  - apply py_max_is_maximum.
  - apply py_max_is_maximum.
Qed.

Lemma record_audio_levels_correct_witness :
  ∃ d' session',
    AudioLevelSnapshotViewSet.perform_create snapshot_1 store_1
    = inr (d', [(room_group_name "5d1c", audio_levels snapshot_1)])
    ∧ djsession d' !! "5d1c" = Some session'
    ∧ DJSession.master_level_left session' = 0.5%float
    ∧ DJSession.master_level_right session' = 0.6%float
    ∧ DJSession.channel_a_level session' = 0.7%float
    ∧ DJSession.channel_b_level session' = 0.2%float.
Proof.
  destruct (record_audio_levels_correct snapshot_1 store_1 session_1)
    as (d' & session' & Hr & _ & Hs & Hl & Hrt & _ & Hb & Ha & _).
  - apply (bool_decide_unpack _). vm_compute. exact I.
  - vm_compute. reflexivity.
  - vm_compute. reflexivity.
  - exists d', session'. repeat split; try assumption. by apply Ha.
Defined.

(** C9. Frame of an audio level submission: in the session table only the
    row of the snapshot's session changes, and in that row only
    [master_level_left], [master_level_right], [channel_a_level] and
    [channel_b_level]; every other field of the session keeps its value, and
    the track instance and stream metrics tables are unchanged. *)
Theorem record_audio_levels_frame snapshot d d' published :
  primary_keys d →
  AudioLevelSnapshotViewSet.perform_create snapshot d = inr (d', published) →
  (∃ session session',
     djsession d !! AudioLevelSnapshot.session snapshot = Some session
     ∧ djsession d' !! AudioLevelSnapshot.session snapshot = Some session'
     ∧ DJSession.id session' = DJSession.id session
     ∧ DJSession.dj session' = DJSession.dj session
     ∧ DJSession.station session' = DJSession.station session
     ∧ DJSession.session_name session' = DJSession.session_name session
     ∧ DJSession.description session' = DJSession.description session
     ∧ DJSession.started_at session' = DJSession.started_at session
     ∧ DJSession.ended_at session' = DJSession.ended_at session
     ∧ DJSession.is_live session' = DJSession.is_live session
     ∧ DJSession.is_recording session' = DJSession.is_recording session
     ∧ DJSession.sample_rate session' = DJSession.sample_rate session
     ∧ DJSession.bit_depth session' = DJSession.bit_depth session
     ∧ DJSession.channels session' = DJSession.channels session
     ∧ DJSession.current_listeners session' = DJSession.current_listeners session
     ∧ DJSession.peak_listeners session' = DJSession.peak_listeners session
     ∧ DJSession.crossfader_position session'
       = DJSession.crossfader_position session
     ∧ DJSession.master_volume session' = DJSession.master_volume session
     ∧ DJSession.created_at session' = DJSession.created_at session
     ∧ DJSession.updated_at session' = DJSession.updated_at session)
  ∧ (∀ k, k ≠ AudioLevelSnapshot.session snapshot →
          djsession d' !! k = djsession d !! k)
  ∧ djtrackinstance d' = djtrackinstance d
  ∧ livestreammetrics d' = livestreammetrics d.
Proof.
  intros [Hk _]. unfold AudioLevelSnapshotViewSet.perform_create.
  destruct (djsession d !! _) as [session |] eqn:Hs; [| done].
  destruct (audiolevelsnapshot d !! _); [done |].
  pose proof (Hk _ _ Hs) as Hid. simpl in Hid.
  erewrite save_levels_row by (simpl; rewrite Hid; exact Hs).
  simpl. rewrite Hid. intros [= <- <-]. simpl.
  split; [| split; [| done]].
  - eexists _, _. split; [reflexivity |].
    split; [apply lookup_insert_eq |]. by repeat split.
  - intros k Hne. by apply lookup_insert_ne.
Qed.

Lemma record_audio_levels_frame_witness :
  ∃ d' session',
    AudioLevelSnapshotViewSet.perform_create snapshot_1 store_1
    = inr (d', [(room_group_name "5d1c", audio_levels snapshot_1)])
    ∧ djsession d' !! "5d1c" = Some session'
    ∧ DJSession.current_listeners session' = 3
    ∧ DJSession.peak_listeners session' = 9
    ∧ DJSession.is_live session' = true
    ∧ DJSession.ended_at session' = None
    ∧ djsession d' !! "77aa" = Some session_2
    ∧ djtrackinstance d' = djtrackinstance store_1.
Proof.
  destruct (AudioLevelSnapshotViewSet.perform_create snapshot_1 store_1)
    as [e | [d' published]] eqn:Hrun; [vm_compute in Hrun; discriminate |].
  assert (primary_keys store_1) as Hk
    by (apply (bool_decide_unpack _); vm_compute; exact I).
  destruct (record_audio_levels_frame snapshot_1 store_1 d' published Hk Hrun)
    as ((session & session' & Hs & Hs' & Hf) & Hother & Htr & _).
  assert (session = session_1) as ->
    by (vm_compute in Hs; by injection Hs as <-).
  destruct Hf as (_ & _ & _ & _ & _ & _ & He & Hl & _ & _ & _ & _ & Hc & Hp & _).
  exists d', session'. split.
  - vm_compute in Hrun. injection Hrun as <- <-. vm_compute. reflexivity.
  - split; [exact Hs' |]. repeat split; try assumption.
    rewrite Hother; [vm_compute; reflexivity | discriminate].
Defined.

(** ** C3: stream metrics *)

Lemma save_listeners_row obj d row :
  djsession d !! DJSession.id obj = Some row →
  DJSession_save_listeners obj d
  = inr (with_djsession
           (<[DJSession.id obj :=
                DJSession.set_peak_listeners (DJSession.peak_listeners obj)
                  (DJSession.set_current_listeners
                     (DJSession.current_listeners obj) row)]>
              (djsession d)) d).
Proof. intros H. unfold DJSession_save_listeners. by rewrite H. Qed.

(** C3. Submitting a stream metrics record for an existing session: the
    record is stored and published, and the session row then has
    [current_listeners] equal to the record's and [peak_listeners] equal to
    the greater of its previous [peak_listeners] and the record's
    [current_listeners].  [peak_listeners >= current_listeners] is not an
    invariant of the store: from a store where it holds for every session,
    a session update that writes [current_listeners] reaches one where it
    fails. *)
Theorem record_metrics_correct :
  (∀ metrics d session,
     primary_keys d →
     djsession d !! LiveStreamMetrics.session metrics = Some session →
     livestreammetrics d !! LiveStreamMetrics.id metrics = None →
     ∃ d' session',
       LiveStreamMetricsViewSet.perform_create metrics d
       = inr (d', [(room_group_name (LiveStreamMetrics.session metrics),
                    stream_metrics metrics)])
       ∧ livestreammetrics d' !! LiveStreamMetrics.id metrics = Some metrics
       ∧ djsession d' !! LiveStreamMetrics.session metrics = Some session'
       ∧ DJSession.current_listeners session'
         = LiveStreamMetrics.current_listeners metrics
       ∧ DJSession.peak_listeners session'
         = Z.max (DJSession.peak_listeners session)
             (LiveStreamMetrics.current_listeners metrics))
  ∧ (∃ d r pk session',
       primary_keys d
       ∧ map_Forall (λ _ s, DJSession.current_listeners s
                            ≤ DJSession.peak_listeners s) (djsession d)
       ∧ djsession (handle r d) !! pk = Some session'
       ∧ DJSession.peak_listeners session' < DJSession.current_listeners session').
Proof.
  split.
  - intros metrics d session [Hk _] Hs Hnew.
    pose proof (Hk _ _ Hs) as Hid. simpl in Hid.
    unfold LiveStreamMetricsViewSet.perform_create. rewrite Hs, Hnew.
    cbn [DJSession.peak_listeners DJSession.set_current_listeners].
    destruct (LiveStreamMetrics.current_listeners metrics
              >? DJSession.peak_listeners session) eqn:Hgt.
    + erewrite save_listeners_row by (simpl; rewrite Hid; exact Hs).
      simpl. rewrite Hid. eexists _, _. split; [reflexivity |]. simpl.
      split; [apply lookup_insert_eq |].
      split; [apply lookup_insert_eq |]. simpl.
      split; [reflexivity |]. apply Z.gtb_gt in Hgt. lia.
    + erewrite save_listeners_row by (simpl; rewrite Hid; exact Hs).
      simpl. rewrite Hid. eexists _, _. split; [reflexivity |]. simpl.
      split; [apply lookup_insert_eq |].
      split; [apply lookup_insert_eq |]. simpl.
      split; [reflexivity |].
      destruct (Z.gtb_spec (LiveStreamMetrics.current_listeners metrics)
                  (DJSession.peak_listeners session)); [done | lia].
  - exists store_1, (SessionUpdate 7%positive "5d1c" (patch_listeners 50) 170),
      "5d1c".
    eexists. split; [apply (bool_decide_unpack _); vm_compute; exact I |].
    split; [apply (bool_decide_unpack _); vm_compute; exact I |].
    split; [vm_compute; reflexivity |]. vm_compute. reflexivity.
Qed.

Lemma record_metrics_correct_witness :
  (∃ d' session',
     LiveStreamMetricsViewSet.perform_create metrics_1 store_1
     = inr (d', [(room_group_name "5d1c", stream_metrics metrics_1)])
     ∧ djsession d' !! "5d1c" = Some session'
     ∧ DJSession.current_listeners session' = 12
     ∧ DJSession.peak_listeners session' = 12)
  ∧ (∃ d' session',
       LiveStreamMetricsViewSet.perform_create metrics_2 store_1
       = inr (d', [(room_group_name "5d1c", stream_metrics metrics_2)])
       ∧ djsession d' !! "5d1c" = Some session'
       ∧ DJSession.current_listeners session' = 4
       ∧ DJSession.peak_listeners session' = 9).
Proof.
  assert (primary_keys store_1) as Hk
    by (apply (bool_decide_unpack _); vm_compute; exact I).
  split.
  - destruct (proj1 record_metrics_correct metrics_1 store_1 session_1 Hk)
      as (d' & session' & Hr & _ & Hs & Hc & Hp);
      [vm_compute; reflexivity | vm_compute; reflexivity |].
    by exists d', session'.
  - destruct (proj1 record_metrics_correct metrics_2 store_1 session_1 Hk)
      as (d' & session' & Hr & _ & Hs & Hc & Hp);
      [vm_compute; reflexivity | vm_compute; reflexivity |].
    by exists d', session'.
Defined.

(** ** C5: cue points *)

Example cue_name_format :
  "Cue " +:+ pretty (0 + 1)%nat = "Cue 1"
  ∧ "Cue " +:+ pretty (9 + 1)%nat = "Cue 10"
  ∧ "Cue " +:+ pretty (122 + 1)%nat = "Cue 123".
Proof. by vm_compute. Qed.



(** ** C7, C8, C10: the session consumer *)

Section consumer.
Import DJSessionConsumer.

Ltac run_consumer :=
  unfold receive, connect, handle_listener_update, handle_audio_levels,
    handle_mixer_update, handle_track_control, update_session_listeners,
    get_session_data, objects_get, group_add, accept, send, group_send,
    get_store, set_store, try_except, bind, lift, raise, ret;
  simpl.

(** The claim of C7 as the specification states it fails: the frame
    [{"type": "ping"}] does not pass validation, and [receive] returns
    without sending anything, neither to the sender nor to the group. *)
Lemma receive_unknown_type_unanswered :
  passes_validation frame_ping = false
  ∧ receive consumer_1 frame_ping world_1 = (inr (), world_1)
  ∧ ¬ answered_by_one_error consumer_1 frame_ping world_1.
Proof.
  split; [by vm_compute |]. split; [by vm_compute |].
  intros [message H]. vm_compute in H. discriminate.
Qed.

(** A frame without a [type] does not pass validation either, and there
    [receive] raises: [KeyError] is not among the exceptions it handles. *)
Lemma receive_untyped_raises :
  passes_validation frame_untyped = false
  ∧ receive consumer_1 frame_untyped world_1 = (inl (KeyError "type"), world_1).
Proof. split; by vm_compute. Qed.

(** C7, amended. A text frame that is not JSON is answered by exactly one
    error frame ("Invalid JSON format") to the sender: nothing is sent to
    the group, the store and the group registry are unchanged, and
    [receive] returns, so the connection stays open.  A JSON object whose
    [type] is none of the four inbound types is dropped: [receive] returns
    with the world unchanged, no error frame and no group message. *)
Theorem receive_invalid_frame self w :
  receive self Undecodable w
  = (inr (),
     mk_world (store w) (groups w) (accepted w)
       (sent w ++ [error "Invalid JSON format"]) (group_sent w))
  ∧ answered_by_one_error self Undecodable w
  ∧ (∀ d t,
       d !! "type" = Some t →
       (∀ s, t = JStr s → s ∉ inbound_types) →
       receive self (Decodes (JDict d)) w = (inr (), w)).
Proof.
  split; [done |]. split; [by eexists |].
  intros d t Ht Hunknown. run_consumer. rewrite Ht.
  assert (∀ literal, literal ∈ inbound_types → py_eq_str t literal = false) as Hne.
  { intros literal Hin. destruct t; try done. simpl.
    apply bool_decide_eq_false. intros ->. by eapply Hunknown. }
  rewrite !Hne by (unfold inbound_types; set_solver). by destruct w.
Qed.

Lemma receive_invalid_frame_witness :
  receive consumer_1 frame_ping world_1 = (inr (), world_1).
Proof.
  apply (proj2 (proj2 (receive_invalid_frame consumer_1 world_1))
           {["type" := JStr "ping"]} (JStr "ping")).
  - vm_compute. reflexivity.
  - intros s [= <-]. vm_compute. 
    intros H. repeat (apply elem_of_cons in H as [H | H]; [discriminate |]).
    by apply elem_of_nil in H.
Defined.


(** The listener count persisted: with the session in the store and a count
    that is an integer of the column's range, the row gets the count, and
    the greater of the count and the previous peak. *)
Lemma update_session_listeners_persisted self n w session :
  map_Forall (λ k s, DJSession.id s = k) (djsession (store w)) →
  djsession (store w) !! session_id self = Some session →
  0 ≤ n ≤ 2147483647 →
  0 ≤ DJSession.peak_listeners session ≤ 2147483647 →
  ∃ w',
    update_session_listeners self (JInt n) w = (inr (), w')
    ∧ djsession (store w') !! session_id self
      = Some (DJSession.set_peak_listeners
                (Z.max (DJSession.peak_listeners session) n)
                (DJSession.set_current_listeners n session))
    ∧ sent w' = sent w ∧ group_sent w' = group_sent w.
Proof.
  intros Hk Hs Hn Hp. pose proof (Hk _ _ Hs) as Hid. simpl in Hid.
  assert (∀ z, 0 ≤ z ≤ 2147483647 →
               to_positive_integer_column (JInt z) = inr z) as Hcol.
  { intros z Hz. unfold to_positive_integer_column. simpl.
    assert ((z <? 0) = false) as -> by lia.
    by assert ((2147483647 <? z) = false) as -> by lia. }
  unfold update_session_listeners, objects_get, get_store, set_store,
    try_except, bind, lift, raise, ret.
  rewrite Hs. unfold py_gt_int. cbn [as_number number_gt_int].
  rewrite (Hcol n Hn).
  destruct (n >? DJSession.peak_listeners session) eqn:Hgt.
  - rewrite (Hcol n Hn). unfold DJSession_save_listeners.
    cbn [DJSession.id DJSession.set_peak_listeners DJSession.set_current_listeners].
    rewrite Hid, Hs. eexists. split; [reflexivity |]. simpl.
    split; [| done]. rewrite lookup_insert_eq. do 2 f_equal. lia.
  - rewrite (Hcol _ Hp). unfold DJSession_save_listeners.
    cbn [DJSession.id DJSession.set_peak_listeners DJSession.set_current_listeners].
    rewrite Hid, Hs. eexists. split; [reflexivity |]. simpl.
    split; [| done]. rewrite lookup_insert_eq. do 2 f_equal. lia.
Qed.

Lemma py_gt_int_uncaught v n e : py_gt_int v n = inl e → uncaught e.
Proof. unfold py_gt_int. destruct (as_number v); [done |]. by intros [= <-]. Qed.

Lemma to_positive_integer_column_uncaught v e :
  to_positive_integer_column v = inl e → uncaught e.
Proof.
  unfold to_positive_integer_column, py_int.
  destruct (as_number v) as [[z | f] |]; [| | by intros [= <-]].
  - destruct (z <? 0); [by intros [= <-] |].
    destruct (2147483647 <? z); [by intros [= <-] | done].
  - destruct (Prim2SF f) as [| | | negative m e'];
      try (by intros [= <-]); try done.
    destruct (_ <? 0); [by intros [= <-] |].
    destruct (2147483647 <? _); [by intros [= <-] | done].
Qed.

Lemma save_listeners_uncaught obj d e :
  DJSession_save_listeners obj d = inl e → uncaught e.
Proof.
  unfold DJSession_save_listeners.
  destruct (djsession d !! _); [done |]. by intros [= <-].
Qed.

(** C10. A [listener_update] frame on a connection whose session id is not
    in the store: [receive] returns with the store, the group registry and
    the frames sent to the sender unchanged (no error frame), and the group
    gets one [listener_count_update] carrying the frame's [listeners] entry
    (0 when absent).  That group message is the one sent whenever [receive]
    returns on this frame, so also when the count was persisted. *)
Theorem listener_update_missing_session self d w :
  d !! "type" = Some (JStr "listener_update") →
  djsession (store w) !! session_id self = None →
  let published :=
    (room_group_name (session_id self),
     listener_count_update (default (JInt 0) (d !! "listeners"))) in
  receive self (Decodes (JDict d)) w
  = (inr (),
     mk_world (store w) (groups w) (accepted w) (sent w)
       (group_sent w ++ [published]))
  ∧ (∀ w2, (receive self (Decodes (JDict d)) w2).1 = inr () →
           group_sent (receive self (Decodes (JDict d)) w2).2
           = group_sent w2 ++ [published]).
Proof.
  intros Ht Hs published. split.
  - run_consumer. rewrite Ht. simpl. by rewrite Hs.
  - intros w2. run_consumer. rewrite Ht. simpl.
    destruct (djsession (store w2) !! session_id self) as [session |]; [| done].
    destruct (py_gt_int _ _) as [e | g] eqn:Hgt.
    { destruct (py_gt_int_uncaught _ _ _ Hgt) as [-> He]. simpl. by rewrite He. }
    simpl.
    destruct (to_positive_integer_column (default (JInt 0) (d !! "listeners")))
      as [e | c] eqn:Hc.
    { destruct (to_positive_integer_column_uncaught _ _ Hc) as [-> He].
      simpl. by rewrite He. }
    simpl.
    destruct (to_positive_integer_column (if g then _ else _)) as [e | p] eqn:Hp.
    { destruct (to_positive_integer_column_uncaught _ _ Hp) as [-> He].
      simpl. by rewrite He. }
    simpl.
    destruct (DJSession_save_listeners _ _) as [e | d'] eqn:Hsave; [| done].
    destruct (save_listeners_uncaught _ _ _ Hsave) as [-> He].
    simpl. by rewrite He.
Qed.

Lemma listener_update_missing_session_witness :
  receive consumer_2 (Decodes (JDict frame_listeners)) world_1
  = (inr (),
     mk_world store_1 (groups world_1) true []
       [(room_group_name "0000", listener_count_update (JInt 25))])
  ∧ group_sent (receive consumer_1 (Decodes (JDict frame_listeners)) world_1).2
    = [(room_group_name "5d1c", listener_count_update (JInt 25))].
Proof.
  split.
  - apply (listener_update_missing_session consumer_2 frame_listeners world_1).
    + vm_compute. reflexivity.
    + vm_compute. reflexivity.
  - apply (proj2 (listener_update_missing_session
                    consumer_1 frame_listeners
                    (mk_world empty_store ∅ false [] [])
                    ltac:(vm_compute; reflexivity)
                    ltac:(vm_compute; reflexivity)) world_1).
    vm_compute. reflexivity.
Defined.

End consumer.

(** * Further properties of the code *)

(** ** Loading tracks and the session life cycle *)






Lemma end_session_live user pk now auto_now now_tracks d session :
  DJSessionViewSet.get_object user pk d = Some session →
  DJSession.is_live session = true →
  DJSessionViewSet.end_session user pk now auto_now now_tracks d
  = (mk_Response (SessionBody "Session ended" (ended_row now auto_now session))
       HTTP_200_OK,
     ended_store now auto_now now_tracks session d,
     [(room_group_name (DJSession.id session),
       session_event "session_ended" (DJSession.id session)
         (ended_row now auto_now session))]).
Proof.
  intros Hg Hl. unfold DJSessionViewSet.end_session. by rewrite Hg, Hl.
Qed.




(** X3. A session that was ended can be started again: [start_session]
    after [end_session] is answered 200, and the stored row is then live
    ([is_live = true]) while [ended_at] still holds the time of the end, so
    [is_active] is false for a live session. *)
Theorem restart_after_end user pk now auto_now now_tracks now2 auto_now2 d session :
  primary_keys d →
  DJSessionViewSet.get_object user pk d = Some session →
  DJSession.is_live session = true →
  let d1 := (DJSessionViewSet.end_session user pk now auto_now now_tracks d).1.2 in
  let r := DJSessionViewSet.start_session user pk now2 auto_now2 d1 in
  status r.1.1 = HTTP_200_OK
  ∧ ∃ session',
      djsession r.1.2 !! pk = Some session'
      ∧ DJSession.is_live session' = true
      ∧ DJSession.ended_at session' = Some now
      ∧ is_active session' = false
      ∧ DJSession.started_at session' = now2.
Proof.
  intros [Hk _] Hg Hl d1 r. subst r d1.
  rewrite (end_session_live _ _ _ _ _ _ _ Hg Hl). simpl.
  apply get_object_session_Some in Hg as [Hg Hu].
  pose proof (Hk _ _ Hg) as Hid. simpl in Hid. subst pk.
  unfold DJSessionViewSet.start_session, DJSessionViewSet.get_object. simpl.
  rewrite lookup_insert_eq. simpl. rewrite decide_True by done. simpl.
  split; [done |]. eexists. split; [apply lookup_insert_eq |]. done.
Qed.

Lemma restart_after_end_witness :
  ∃ session',
    djsession
      (DJSessionViewSet.start_session 7%positive "5d1c" 400 401
         (DJSessionViewSet.end_session 7%positive "5d1c" 300 301 302 store_1).1.2).1.2
      !! "5d1c" = Some session'
    ∧ DJSession.is_live session' = true
    ∧ DJSession.ended_at session' = Some 300
    ∧ is_active session' = false.
Proof.
  destruct (restart_after_end 7%positive "5d1c" 300 301 302 400 401 store_1 session_1)
    as (_ & session' & Hs & Hl & He & Ha & _).
  - apply (bool_decide_unpack _). vm_compute. exact I.
  - vm_compute. reflexivity.
  - reflexivity.
  - by exists session'.
Defined.

Lemma stop_session_active session_id now auto_now now_tracks d session :
  djsession d !! session_id = Some session →
  is_active session = true →
  Command.stop_session session_id now auto_now now_tracks d
  = ended_store now auto_now now_tracks session d.
Proof.
  intros Hs Ha. unfold Command.stop_session. rewrite Hs, Ha.
  unfold ended_store, ended_row. simpl. done.
Qed.

(** X4. The [stop] command and [end_session] are two ways to end a session.
    On a session that is live and was never ended they leave the same store.
    They differ on the guard: the command acts on every session whose
    [ended_at] is null, live or not, and does nothing to a session already
    ended; the view acts on every live session, ended before or not, and
    refuses (400, store unchanged) one that is not live. *)
Theorem stop_command_and_end_session user pk now auto_now now_tracks d session :
  DJSessionViewSet.get_object user pk d = Some session →
  (DJSession.is_live session = true → is_active session = true →
     Command.stop_session pk now auto_now now_tracks d
     = (DJSessionViewSet.end_session user pk now auto_now now_tracks d).1.2)
  ∧ (DJSession.is_live session = false → is_active session = true →
       (DJSessionViewSet.end_session user pk now auto_now now_tracks d).1.2 = d
       ∧ Command.stop_session pk now auto_now now_tracks d
         = ended_store now auto_now now_tracks session d)
  ∧ (DJSession.is_live session = true → is_active session = false →
       Command.stop_session pk now auto_now now_tracks d = d
       ∧ (DJSessionViewSet.end_session user pk now auto_now now_tracks d).1.2
         = ended_store now auto_now now_tracks session d).
Proof.
  intros Hg. pose proof (get_object_session_Some _ _ _ _ Hg) as [Hs _].
  split; [| split]; intros Hl Ha.
  - rewrite (end_session_live _ _ _ _ _ _ _ Hg Hl). simpl.
    by apply stop_session_active.
  - split; [| by apply stop_session_active].
    unfold DJSessionViewSet.end_session. by rewrite Hg, Hl.
  - split; [unfold Command.stop_session; by rewrite Hs, Ha |].
    by rewrite (end_session_live _ _ _ _ _ _ _ Hg Hl).
Qed.

Lemma stop_command_and_end_session_witness :
  Command.stop_session "5d1c" 300 301 302 store_2
  = (DJSessionViewSet.end_session 7%positive "5d1c" 300 301 302 store_2).1.2
  ∧ (DJSessionViewSet.end_session 7%positive "77aa" 300 301 302 store_2).1.2 = store_2
  ∧ Command.stop_session "77aa" 300 301 302 store_2
    = ended_store 300 301 302 session_2 store_2
  ∧ Command.stop_session "9b9b" 300 301 302 store_2 = store_2.
Proof.
  destruct (stop_command_and_end_session 7%positive "5d1c" 300 301 302 store_2
              session_1 ltac:(vm_compute; reflexivity)) as (H1 & _ & _).
  destruct (stop_command_and_end_session 7%positive "77aa" 300 301 302 store_2
              session_2 ltac:(vm_compute; reflexivity)) as (_ & H2 & _).
  destruct (stop_command_and_end_session 7%positive "9b9b" 300 301 302 store_2
              session_3 ltac:(vm_compute; reflexivity)) as (_ & _ & H3).
  split; [by apply H1 |].
  split; [by apply H2 |]. split; [by apply H2 |]. by apply H3.
Defined.

(** ** Scoping to the owner *)

(** X5. The detail views of sessions and track instances only reach rows of
    the requesting user's sessions: when the primary key is absent, or the
    session belongs to another user, update, start, end and destroy of
    sessions, and update, play, pause, seek, add_cue and destroy of track
    instances are answered 404, leave the store unchanged and publish
    nothing. *)
Theorem detail_views_scoped_to_owner user pk d :
  ((∀ session, djsession d !! pk = Some session → DJSession.dj session ≠ user) →
   (∀ x auto_now, DJSessionViewSet.update user pk x auto_now d = http404 d)
   ∧ (∀ now auto_now,
        DJSessionViewSet.start_session user pk now auto_now d = http404 d)
   ∧ (∀ now auto_now now_tracks,
        DJSessionViewSet.end_session user pk now auto_now now_tracks d = http404 d)
   ∧ DJSessionViewSet.destroy user pk d = http404 d)
  ∧ ((∀ t session, djtrackinstance d !! pk = Some t →
                   djsession d !! DJTrackInstance.session t = Some session →
                   DJSession.dj session ≠ user) →
     (∀ x auto_now, DJTrackInstanceViewSet.update user pk x auto_now d = http404 d)
     ∧ (∀ auto_now, DJTrackInstanceViewSet.play user pk auto_now d = http404 d)
     ∧ (∀ auto_now, DJTrackInstanceViewSet.pause user pk auto_now d = http404 d)
     ∧ (∀ position auto_now,
          DJTrackInstanceViewSet.seek user pk position auto_now d = http404 d)
     ∧ (∀ name position auto_now,
          DJTrackInstanceViewSet.add_cue user pk name position auto_now d
          = http404 d)
     ∧ DJTrackInstanceViewSet.destroy user pk d = http404 d).
Proof.
  split.
  - intros Hother.
    assert (DJSessionViewSet.get_object user pk d = None) as Hg.
    { unfold DJSessionViewSet.get_object.
      destruct (djsession d !! pk) as [s |] eqn:Hs; [| done].
      case_decide; [| done]. by destruct (Hother s eq_refl). }
    unfold DJSessionViewSet.update, DJSessionViewSet.start_session,
      DJSessionViewSet.end_session, DJSessionViewSet.destroy.
    by rewrite Hg.
  - intros Hother.
    assert (DJTrackInstanceViewSet.get_object user pk d = None) as Hg.
    { unfold DJTrackInstanceViewSet.get_object.
      destruct (djtrackinstance d !! pk) as [t |] eqn:Ht; [| done].
      destruct (djsession d !! DJTrackInstance.session t) as [s |] eqn:Hs; [| done].
      case_decide; [| done]. by destruct (Hother t s eq_refl Hs). }
    unfold DJTrackInstanceViewSet.update, DJTrackInstanceViewSet.play,
      DJTrackInstanceViewSet.pause, DJTrackInstanceViewSet.seek,
      DJTrackInstanceViewSet.add_cue, DJTrackInstanceViewSet.destroy.
    by rewrite Hg.
Qed.

Lemma detail_views_scoped_to_owner_witness :
  DJSessionViewSet.end_session 8%positive "5d1c" 300 301 302 store_1
  = http404 store_1
  ∧ DJTrackInstanceViewSet.seek 8%positive "a0f3" 10%float 300 store_1
    = http404 store_1
  ∧ DJTrackInstanceViewSet.destroy 7%positive "ffff" store_1 = http404 store_1.
Proof.
  split; [| split].
  - apply (proj1 (detail_views_scoped_to_owner 8%positive "5d1c" store_1)).
    intros session Hs. vm_compute in Hs. injection Hs as <-. vm_compute.
    discriminate.
  - apply (proj2 (detail_views_scoped_to_owner 8%positive "a0f3" store_1)).
    intros t session Ht Hs. vm_compute in Ht. injection Ht as <-.
    vm_compute in Hs. injection Hs as <-. vm_compute. discriminate.
  - apply (proj2 (detail_views_scoped_to_owner 7%positive "ffff" store_1)).
    intros t session Ht. vm_compute in Ht. discriminate.
Defined.

(** ** References between tables *)

Lemma foreign_keys_sessions_grow d d' :
  (∀ k, is_Some (djsession d !! k) → is_Some (djsession d' !! k)) →
  djtrackinstance d' = djtrackinstance d →
  audiolevelsnapshot d' = audiolevelsnapshot d →
  livestreammetrics d' = livestreammetrics d →
  foreign_keys d → foreign_keys d'.
Proof.
  intros Hgrow Et Ea Em (Ht & Ha & Hm). unfold foreign_keys.
  rewrite Et, Ea, Em.
  split; [| split]; intros k x Hx; apply Hgrow; eauto.
Qed.

Lemma foreign_keys_save_session auto_now s d :
  foreign_keys d → foreign_keys (DJSession_save auto_now s d).2.
Proof.
  apply foreign_keys_sessions_grow; try done.
  intros k Hk. simpl. rewrite lookup_insert. case_decide; [by eexists | done].
Qed.

Lemma foreign_keys_save_listeners obj d d' :
  DJSession_save_listeners obj d = inr d' → foreign_keys d → foreign_keys d'.
Proof.
  unfold DJSession_save_listeners.
  destruct (djsession d !! DJSession.id obj) as [row |]; [| done].
  intros [= <-]. apply foreign_keys_sessions_grow; try done.
  intros k Hk. simpl. rewrite lookup_insert. case_decide; [by eexists | done].
Qed.

Lemma foreign_keys_save_levels obj d d' :
  DJSession_save_levels obj d = inr d' → foreign_keys d → foreign_keys d'.
Proof.
  unfold DJSession_save_levels.
  destruct (djsession d !! DJSession.id obj) as [row |]; [| done].
  intros [= <-]. apply foreign_keys_sessions_grow; try done.
  intros k Hk. simpl. rewrite lookup_insert. case_decide; [by eexists | done].
Qed.

Lemma foreign_keys_end_tracks now p d :
  foreign_keys d →
  foreign_keys (with_djtrackinstance (end_tracks now p (djtrackinstance d)) d).
Proof.
  intros (Ht & Ha & Hm). split; [| done]. intros k t H. simpl in H.
  rewrite end_tracks_lookup in H.
  destruct (djtrackinstance d !! k) as [u |] eqn:Hu; [| done].
  simpl in H. injection H as <-. specialize (Ht _ _ Hu). simpl in *.
  by destruct (p u).
Qed.

Lemma foreign_keys_save_track auto_now pk t t' d :
  djtrackinstance d !! pk = Some t →
  DJTrackInstance.session t' = DJTrackInstance.session t →
  foreign_keys d → foreign_keys (DJTrackInstance_save auto_now t' d).2.
Proof.
  intros Hpk Hs (Ht & Ha & Hm). split; [| done]. intros k u Hu. simpl in Hu.
  rewrite lookup_insert in Hu. case_decide.
  - injection Hu as <-. simpl. rewrite Hs. by apply (Ht pk t).
  - by apply (Ht k u).
Qed.

Lemma update_session_listeners_store self v w :
  DJSessionConsumer.store (DJSessionConsumer.update_session_listeners self v w).2
  = DJSessionConsumer.store w
  ∨ ∃ obj,
      DJSession_save_listeners obj (DJSessionConsumer.store w)
      = inr (DJSessionConsumer.store
               (DJSessionConsumer.update_session_listeners self v w).2).
Proof.
  unfold DJSessionConsumer.update_session_listeners, DJSessionConsumer.try_except,
    DJSessionConsumer.bind, DJSessionConsumer.objects_get, DJSessionConsumer.lift,
    DJSessionConsumer.get_store, DJSessionConsumer.set_store,
    DJSessionConsumer.raise, DJSessionConsumer.ret.
  destruct (djsession (DJSessionConsumer.store w) !! _) as [s |]; [| by left].
  destruct (py_gt_int v _) as [e | g]; [left; by destruct e |].
  destruct (to_positive_integer_column v) as [e | c]; [left; by destruct e |].
  destruct (to_positive_integer_column (if g then v else _)) as [e | p];
    [left; by destruct e |].
  destruct (DJSession_save_listeners _ _) as [e | d'] eqn:Hs;
    [left; by destruct e |].
  right. eexists. exact Hs.
Qed.

Lemma handle_keys_and_references r d :
  primary_keys d → foreign_keys d →
  primary_keys (handle r d) ∧ foreign_keys (handle r d).
Proof.
  intros Hk Hf. destruct r; simpl.
  - (* SessionCreate *)
    unfold DJSessionViewSet.create.
    destruct (negb _); [done |]. destruct (djsession d !! new_id); [done |].
    simpl. split.
    + destruct Hk as [Hs Ht]. split; [| exact Ht]. intros k u Hu. simpl in Hu.
      rewrite lookup_insert in Hu. case_decide; [by injection Hu as <- | eauto].
    + revert Hf. apply foreign_keys_sessions_grow; try done.
      intros k Hk'. simpl. rewrite lookup_insert. case_decide; [by eexists | done].
  - (* SessionUpdate *)
    unfold DJSessionViewSet.update.
    destruct (DJSessionViewSet.get_object user pk d); [| done].
    destruct (negb _); [done |].
    split; [by apply primary_keys_save_session | by apply foreign_keys_save_session].
  - (* SessionStart *)
    unfold DJSessionViewSet.start_session.
    destruct (DJSessionViewSet.get_object user pk d); [| done].
    destruct (DJSession.is_live _); [done |].
    split; [by apply primary_keys_save_session | by apply foreign_keys_save_session].
  - (* SessionEnd *)
    unfold DJSessionViewSet.end_session.
    destruct (DJSessionViewSet.get_object user pk d); [| done].
    destruct (negb _); [done |]. split.
    + apply (primary_keys_end_tracks _ _ (DJSession_save _ _ d).2).
      by apply primary_keys_save_session.
    + apply (foreign_keys_end_tracks _ _ (DJSession_save _ _ d).2).
      by apply foreign_keys_save_session.
  - (* SessionDestroy *)
    unfold DJSessionViewSet.destroy.
    destruct (DJSessionViewSet.get_object user pk d) as [s |]; [| done]. simpl.
    split.
    + destruct Hk as [Hs Ht]. split; simpl.
      * intros k u Hu. apply lookup_delete_Some in Hu as [_ Hu]. eauto.
      * intros k u Hu. apply objects_filter_lookup in Hu as [Hu _]. eauto.
    + destruct Hf as (Ht & Ha & Hm).
      split; [| split]; intros k x Hx; simpl in *;
        apply objects_filter_lookup in Hx as [Hx Hp];
        apply negb_true_iff, bool_decide_eq_false in Hp;
        rewrite lookup_delete_ne by done; eauto.
  - (* TrackCreate *)
    unfold DJTrackInstanceViewSet.create.
    destruct (djsession d !! _) as [s |] eqn:Hs; [| done].
    unfold DJTrackInstanceCreateSerializer.validate.
    destruct (queryset_exists _); [done |].
    destruct (djtrackinstance d !! new_id); [done |]. simpl. split.
    + destruct Hk as [Hks Hkt]. split; [exact Hks |]. intros k u Hu. simpl in Hu.
      rewrite lookup_insert in Hu. case_decide; [by injection Hu as <- | eauto].
    + destruct Hf as (Ht & Ha & Hm). split; [| done]. intros k u Hu. simpl in Hu.
      rewrite lookup_insert in Hu. case_decide.
      * injection Hu as <-. simpl. by rewrite Hs.
      * by apply (Ht k u).
  - (* TrackUpdate *)
    unfold DJTrackInstanceViewSet.update.
    destruct (DJTrackInstanceViewSet.get_object user pk d) as [t |] eqn:Hg; [| done].
    destruct (negb _); [done |]. apply get_object_track_Some in Hg.
    split; [by apply primary_keys_save_track |].
    by eapply foreign_keys_save_track.
  - (* TrackPlay *)
    unfold DJTrackInstanceViewSet.play.
    destruct (DJTrackInstanceViewSet.get_object user pk d) as [t |] eqn:Hg; [| done].
    apply get_object_track_Some in Hg.
    split; [by apply primary_keys_save_track |].
    by eapply foreign_keys_save_track.
  - (* TrackPause *)
    unfold DJTrackInstanceViewSet.pause.
    destruct (DJTrackInstanceViewSet.get_object user pk d) as [t |] eqn:Hg; [| done].
    apply get_object_track_Some in Hg.
    split; [by apply primary_keys_save_track |].
    by eapply foreign_keys_save_track.
  - (* TrackSeek *)
    unfold DJTrackInstanceViewSet.seek.
    destruct (DJTrackInstanceViewSet.get_object user pk d) as [t |] eqn:Hg; [| done].
    apply get_object_track_Some in Hg.
    split; [by apply primary_keys_save_track |].
    by eapply foreign_keys_save_track.
  - (* TrackAddCue *)
    unfold DJTrackInstanceViewSet.add_cue.
    destruct (DJTrackInstanceViewSet.get_object user pk d) as [t |] eqn:Hg; [| done].
    apply get_object_track_Some in Hg.
    split; [by apply primary_keys_save_track |].
    by eapply foreign_keys_save_track.
  - (* TrackDestroy *)
    unfold DJTrackInstanceViewSet.destroy.
    destruct (DJTrackInstanceViewSet.get_object user pk d) as [t |]; [| done].
    simpl. split.
    + destruct Hk as [Hs Ht]. split; [exact Hs |]. intros k u Hu. simpl in Hu.
      apply lookup_delete_Some in Hu as [_ Hu]. eauto.
    + destruct Hf as (Ht & Ha & Hm). split; [| done]. intros k u Hu. simpl in Hu.
      apply lookup_delete_Some in Hu as [_ Hu]. by apply (Ht k u).
  - (* AudioLevelsCreate *)
    unfold audio_levels_create.
    destruct (djsession d !! _) as [s |] eqn:Hs; [| done].
    destruct (negb _); [done |].
    unfold AudioLevelSnapshotViewSet.perform_create. rewrite Hs.
    destruct (audiolevelsnapshot d !! _); [done |].
    destruct (DJSession_save_levels _ _) as [e | d'] eqn:Hsave; [done |].
    simpl. split.
    + eapply primary_keys_save_levels; [exact Hsave |].
      eapply primary_keys_same_tables; [| | exact Hk]; done.
    + eapply foreign_keys_save_levels; [exact Hsave |].
      destruct Hf as (Ht & Ha & Hm). split; [done |]. split; [| done].
      intros k a Hka. simpl in Hka. rewrite lookup_insert in Hka. case_decide.
      * injection Hka as <-. simpl. by rewrite Hs.
      * by apply (Ha k a).
  - (* StreamMetricsCreate *)
    unfold stream_metrics_create.
    destruct (djsession d !! _) as [s |] eqn:Hs; [| done].
    destruct (negb _); [done |].
    unfold LiveStreamMetricsViewSet.perform_create. rewrite Hs.
    destruct (livestreammetrics d !! _); [done |].
    destruct (DJSession_save_listeners _ _) as [e | d'] eqn:Hsave; [done |].
    simpl. split.
    + eapply primary_keys_save_listeners; [exact Hsave |].
      eapply primary_keys_same_tables; [| | exact Hk]; done.
    + eapply foreign_keys_save_listeners; [exact Hsave |].
      destruct Hf as (Ht & Ha & Hm). split; [done |]. split; [done |].
      intros k m Hkm. simpl in Hkm. rewrite lookup_insert in Hkm. case_decide.
      * injection Hkm as <-. simpl. by rewrite Hs.
      * by apply (Hm k m).
  - (* ListenerUpdate *)
    destruct (update_session_listeners_store self listener_count
                (DJSessionConsumer.mk_world d ∅ true [] [])) as [-> | [obj Hsave]];
      [done |]. simpl in Hsave.
    split; [by eapply primary_keys_save_listeners |
            by eapply foreign_keys_save_listeners].
  - (* CommandStop *)
    unfold Command.stop_session.
    destruct (djsession d !! session_id); [| done].
    destruct (is_active _); [| done]. split.
    + apply (primary_keys_end_tracks _ _ (DJSession_save _ _ d).2).
      by apply primary_keys_save_session.
    + apply (foreign_keys_end_tracks _ _ (DJSession_save _ _ d).2).
      by apply foreign_keys_save_session.
  - (* CommandCleanup *)
    unfold Command.cleanup_old_data.
    split; [by apply primary_keys_filter |].
    destruct Hk as [Hks _]. destruct Hf as (Ht & Ha & Hm).
    split; [| split]; intros k x Hx; simpl in *;
      apply objects_filter_lookup in Hx as [Hx Hp].
    + destruct (Ht _ _ Hx) as [s Hs]. simpl in Hs. exists s.
      apply objects_filter_lookup. split; [done |].
      by rewrite (Hks _ _ Hs).
    + apply andb_true_iff in Hp as [_ Hp].
      destruct (Ha _ _ Hx) as [s Hs]. simpl in Hs. exists s.
      apply objects_filter_lookup. split; [done |].
      by rewrite (Hks _ _ Hs).
    + destruct (Hm _ _ Hx) as [s Hs]. simpl in Hs. exists s.
      apply objects_filter_lookup. split; [done |].
      by rewrite (Hks _ _ Hs).
Qed.

(** X6. No operation leaves a dangling reference: from a store where every
    row sits under its primary key and every track instance, audio snapshot
    and metrics row references a stored session, every history of
    operations (loads, updates, session deletion with its cascade, the
    retention clean-up) reaches a store with the same two properties. *)
Theorem references_never_dangle history d :
  primary_keys d → foreign_keys d →
  primary_keys (run history d) ∧ foreign_keys (run history d).
Proof.
  revert d. induction history as [| r history IH]; intros d Hk Hf; [done |].
  simpl. destruct (handle_keys_and_references r d Hk Hf). by apply IH.
Qed.

Lemma references_never_dangle_witness :
  primary_keys (run history_2 store_1) ∧ foreign_keys (run history_2 store_1).
Proof.
  apply (references_never_dangle history_2 store_1).
  - apply (bool_decide_unpack _). vm_compute. exact I.
  - apply (bool_decide_unpack _). vm_compute. exact I.
Defined.

(** ** Retention clean-up *)

Lemma objects_filter_all {A} (p : A → bool) (m : gmap uuid A) :
  (∀ k x, m !! k = Some x → p x = true) → objects_filter p m = m.
Proof.
  intros H. unfold objects_filter. apply map_filter_id.
  intros k x Hx. simpl. eauto.
Qed.

(** X7. The retention clean-up, on a store whose rows sit under their
    primary keys: a session is deleted exactly when its [ended_at] is set
    and earlier than the cut-off, so a session that was never ended is
    never deleted; a track instance is deleted exactly when its session is;
    an audio snapshot older than the cut-off is deleted even when its
    session stays.  Running the clean-up a second time with the same
    cut-off changes nothing. *)
Theorem cleanup_old_data_correct cutoff_date d :
  primary_keys d →
  let d' := Command.cleanup_old_data cutoff_date d in
  (∀ k s, djsession d !! k = Some s →
          djsession d' !! k = if ended_before cutoff_date s then None else Some s)
  ∧ (∀ k s, djsession d !! k = Some s → is_active s = true →
            djsession d' !! k = Some s)
  ∧ (∀ k t s, djtrackinstance d !! k = Some t →
              djsession d !! DJTrackInstance.session t = Some s →
              djtrackinstance d' !! k
              = if ended_before cutoff_date s then None else Some t)
  ∧ (∀ k a, audiolevelsnapshot d !! k = Some a →
            AudioLevelSnapshot.timestamp a < cutoff_date →
            audiolevelsnapshot d' !! k = None)
  ∧ Command.cleanup_old_data cutoff_date d' = d'.
Proof.
  intros [Hks Hkt] d'. subst d'.
  assert (∀ k s, djsession d !! k = Some s →
                 djsession (Command.cleanup_old_data cutoff_date d) !! k
                 = if ended_before cutoff_date s then None else Some s) as Hsess.
  { intros k s Hs. simpl. pose proof (Hks _ _ Hs) as Hid. simpl in Hid.
    destruct (ended_before cutoff_date s) eqn:Hold.
    - apply objects_filter_lookup_None. intros s' Hs'.
      assert (s' = s) as -> by congruence.
      rewrite Hid, Hs. unfold ended_before in Hold. by rewrite Hold.
    - apply objects_filter_lookup. split; [done |].
      rewrite Hid, Hs. unfold ended_before in Hold. by rewrite Hold. }
  split; [exact Hsess |]. split.
  { intros k s Hs Ha. rewrite (Hsess _ _ Hs). unfold ended_before.
    unfold is_active in Ha. by destruct (DJSession.ended_at s). }
  split.
  { intros k t s Ht Hs. simpl.
    destruct (ended_before cutoff_date s) eqn:Hold.
    - apply objects_filter_lookup_None. intros t' Ht'.
      assert (t' = t) as -> by congruence.
      rewrite Hs. unfold ended_before in Hold. by rewrite Hold.
    - apply objects_filter_lookup. split; [done |].
      rewrite Hs. unfold ended_before in Hold. by rewrite Hold. }
  split.
  { intros k a Ha Hlt. simpl. apply objects_filter_lookup_None.
    intros a' Ha'. assert (a' = a) as -> by congruence.
    assert ((AudioLevelSnapshot.timestamp a <? cutoff_date) = true) as -> by lia.
    done. }
  (* a second run finds nothing to delete *)
  assert (∀ k,
            match djsession (Command.cleanup_old_data cutoff_date d) !! k with
            | Some session =>
                match DJSession.ended_at session with
                | Some e => e <? cutoff_date
                | None => false
                end
            | None => false
            end = false) as Hnone.
  { intros k.
    destruct (djsession (Command.cleanup_old_data cutoff_date d) !! k)
      as [s |] eqn:Hs; [| done].
    simpl in Hs. apply objects_filter_lookup in Hs as [Hs Hp].
    pose proof (Hks _ _ Hs) as Hid. simpl in Hid.
    rewrite Hid, Hs in Hp. by apply negb_true_iff in Hp. }
  unfold Command.cleanup_old_data at 1.
  set (d1 := Command.cleanup_old_data cutoff_date d) in *.
  rewrite (objects_filter_all _ (djsession d1)) by (intros; by rewrite Hnone).
  rewrite (objects_filter_all _ (djtrackinstance d1)) by (intros; by rewrite Hnone).
  rewrite (objects_filter_all _ (livestreammetrics d1)) by (intros; by rewrite Hnone).
  rewrite (objects_filter_all _ (audiolevelsnapshot d1)).
  - by destruct d1.
  - intros k a Ha. rewrite Hnone. simpl. rewrite andb_true_r.
    subst d1. simpl in Ha. apply objects_filter_lookup in Ha as [_ Hp].
    by apply andb_true_iff in Hp as [Hp _].
Qed.

Lemma cleanup_old_data_correct_witness :
  djsession (Command.cleanup_old_data 100 store_2) !! "5d1c" = Some session_1
  ∧ djsession (Command.cleanup_old_data 100 store_2) !! "9b9b" = None
  ∧ djtrackinstance (Command.cleanup_old_data 100 store_2) !! "a0f3" = Some track_1
  ∧ djtrackinstance (Command.cleanup_old_data 100 store_2) !! "d7d7" = None
  ∧ audiolevelsnapshot (Command.cleanup_old_data 100 store_2) !! "e003" = None
  ∧ Command.cleanup_old_data 100 (Command.cleanup_old_data 100 store_2)
    = Command.cleanup_old_data 100 store_2.
Proof.
  assert (primary_keys store_2) as Hk
    by (apply (bool_decide_unpack _); vm_compute; exact I).
  destruct (cleanup_old_data_correct 100 store_2 Hk)
    as (Hs & Ha & Ht & Hsnap & Hidem).
  split; [apply Ha; vm_compute; reflexivity |].
  split; [apply (Hs "9b9b" session_3); vm_compute; reflexivity |].
  split; [apply (Ht "a0f3" track_1 session_1); vm_compute; reflexivity |].
  split; [apply (Ht "d7d7" track_3 session_3); vm_compute; reflexivity |].
  split; [apply (Hsnap "e003" snapshot_3); vm_compute; reflexivity |].
  exact Hidem.
Defined.

(** ** Listener peaks *)

Lemma number_gt_int_py_int x n z :
  number_gt_int x n = true → py_int x = inr z → n ≤ z.
Proof.
  destruct x as [i | f]; simpl.
  - intros Hgt [= <-]. lia.
  - destruct (Prim2SF f) as [sz | si | | negative m e]; try done.
    + intros Hgt [= <-]. lia.
    + destruct (0 <=? e) eqn:He.
      * intros Hgt [= <-]. lia.
      * intros Hgt [= <-].
        apply Z.quot_le_lower_bound; [apply Z.pow_pos_nonneg; lia |].
        lia.
Qed.

Lemma peaks_not_lowered_refl d : peaks_not_lowered d d.
Proof. intros pk s s' Hs Hs'. assert (s = s') as -> by congruence. lia. Qed.

Lemma peaks_not_lowered_same d d' :
  djsession d' = djsession d → peaks_not_lowered d d'.
Proof. intros E pk s s' Hs Hs'. rewrite E in Hs'. by apply (peaks_not_lowered_refl d pk). Qed.

Lemma peaks_not_lowered_insert k s1 d d' :
  djsession d' = <[k := s1]> (djsession d) →
  (∀ s0, djsession d !! k = Some s0 →
         DJSession.peak_listeners s0 ≤ DJSession.peak_listeners s1) →
  peaks_not_lowered d d'.
Proof.
  intros E Hle pk s s' Hs Hs'. rewrite E, lookup_insert in Hs'. case_decide.
  - injection Hs' as <-. subst k. by apply Hle.
  - assert (s = s') as -> by congruence. lia.
Qed.

Lemma peaks_not_lowered_filter p d d' :
  djsession d' = objects_filter p (djsession d) → peaks_not_lowered d d'.
Proof.
  intros E pk s s' Hs Hs'. rewrite E in Hs'.
  apply objects_filter_lookup in Hs' as [Hs' _].
  assert (s = s') as -> by congruence. lia.
Qed.

Lemma peaks_not_lowered_save auto_now user pk session session' d :
  primary_keys d →
  DJSessionViewSet.get_object user pk d = Some session →
  DJSession.id session' = DJSession.id session →
  DJSession.peak_listeners session' = DJSession.peak_listeners session →
  peaks_not_lowered d (DJSession_save auto_now session' d).2.
Proof.
  intros [Hk _] Hg Hid Hp. apply get_object_session_Some in Hg as [Hg _].
  pose proof (Hk _ _ Hg) as Hpk. simpl in Hpk.
  eapply peaks_not_lowered_insert; [reflexivity |].
  intros s0 Hs0. simpl in *. rewrite Hid, Hpk in Hs0.
  assert (s0 = session) as -> by congruence. lia.
Qed.

Lemma peaks_not_lowered_listener_update self v w :
  map_Forall (λ k s, DJSession.id s = k) (djsession (DJSessionConsumer.store w)) →
  peaks_not_lowered (DJSessionConsumer.store w)
    (DJSessionConsumer.store (DJSessionConsumer.update_session_listeners self v w).2).
Proof.
  intros Hk.
  unfold DJSessionConsumer.update_session_listeners, DJSessionConsumer.try_except,
    DJSessionConsumer.bind, DJSessionConsumer.objects_get, DJSessionConsumer.lift,
    DJSessionConsumer.get_store, DJSessionConsumer.set_store,
    DJSessionConsumer.raise, DJSessionConsumer.ret.
  destruct (djsession (DJSessionConsumer.store w) !! _) as [s |] eqn:Hs;
    [| apply peaks_not_lowered_refl].
  pose proof (Hk _ _ Hs) as Hid. simpl in Hid.
  destruct (py_gt_int v _) as [e | g] eqn:Hgt;
    [destruct e; apply peaks_not_lowered_refl |].
  destruct (to_positive_integer_column v) as [e | c];
    [destruct e; apply peaks_not_lowered_refl |].
  destruct (to_positive_integer_column (if g then v else _)) as [e | p] eqn:Hp;
    [destruct e; apply peaks_not_lowered_refl |].
  unfold DJSession_save_listeners. simpl. rewrite Hid, Hs. simpl.
  eapply peaks_not_lowered_insert; [reflexivity |].
  intros s0 Hs0. assert (s0 = s) as -> by congruence. simpl.
  unfold py_gt_int in Hgt. unfold to_positive_integer_column in Hp.
  destruct g.
  - destruct (as_number v) as [x |]; [| done]. injection Hgt as Hgt.
    destruct (py_int x) as [e | z] eqn:Hz; [done |].
    pose proof (number_gt_int_py_int _ _ _ Hgt Hz).
    destruct (z <? 0); [done |]. destruct (2147483647 <? z); [done |].
    injection Hp as <-. lia.
  - simpl in Hp. destruct (_ <? 0); [done |].
    destruct (2147483647 <? _); [done |]. injection Hp as <-. lia.
Qed.

(** X8. No operation lowers the peak of a session: for every operation,
    on a store whose rows sit under their primary keys, a session row that
    is in the store before and after has a [peak_listeners] afterwards that
    is at least the one before.  This covers metrics records, listener
    updates of any JSON value (also fractional counts, stored truncated)
    and session updates, which can write [current_listeners] but not the
    peak. *)
Theorem peak_listeners_never_lowered r d :
  primary_keys d → peaks_not_lowered d (handle r d).
Proof.
  intros Hk. destruct r; simpl.
  - unfold DJSessionViewSet.create.
    destruct (negb _); [apply peaks_not_lowered_refl |].
    destruct (djsession d !! new_id) eqn:Hnew; [apply peaks_not_lowered_refl |].
    eapply peaks_not_lowered_insert; [reflexivity |]. intros s0 Hs0. congruence.
  - unfold DJSessionViewSet.update.
    destruct (DJSessionViewSet.get_object user pk d) eqn:Hg;
      [| apply peaks_not_lowered_refl].
    destruct (negb _); [apply peaks_not_lowered_refl |].
    by eapply peaks_not_lowered_save.
  - unfold DJSessionViewSet.start_session.
    destruct (DJSessionViewSet.get_object user pk d) eqn:Hg;
      [| apply peaks_not_lowered_refl].
    destruct (DJSession.is_live _); [apply peaks_not_lowered_refl |].
    by eapply peaks_not_lowered_save.
  - unfold DJSessionViewSet.end_session.
    destruct (DJSessionViewSet.get_object user pk d) eqn:Hg;
      [| apply peaks_not_lowered_refl].
    destruct (negb _); [apply peaks_not_lowered_refl |].
    intros k s s' Hs Hs'. simpl in Hs'.
    by eapply (peaks_not_lowered_save auto_now user pk t
                 (DJSession.set_ended_at (Some now) (DJSession.set_is_live false t))).
  - unfold DJSessionViewSet.destroy.
    destruct (DJSessionViewSet.get_object user pk d); [| apply peaks_not_lowered_refl].
    intros k s s' Hs Hs'. simpl in Hs'.
    apply lookup_delete_Some in Hs' as [_ Hs'].
    assert (s = s') as -> by congruence. lia.
  - unfold DJTrackInstanceViewSet.create.
    destruct (djsession d !! _); [| apply peaks_not_lowered_refl].
    destruct (DJTrackInstanceCreateSerializer.validate x d) as [[] |];
      try apply peaks_not_lowered_refl.
    destruct (djtrackinstance d !! new_id); [apply peaks_not_lowered_refl |].
    by apply peaks_not_lowered_same.
  - unfold DJTrackInstanceViewSet.update.
    destruct (DJTrackInstanceViewSet.get_object user pk d);
      [| apply peaks_not_lowered_refl].
    destruct (negb _); [apply peaks_not_lowered_refl |].
    by apply peaks_not_lowered_same.
  - unfold DJTrackInstanceViewSet.play.
    destruct (DJTrackInstanceViewSet.get_object user pk d);
      [| apply peaks_not_lowered_refl].
    by apply peaks_not_lowered_same.
  - unfold DJTrackInstanceViewSet.pause.
    destruct (DJTrackInstanceViewSet.get_object user pk d);
      [| apply peaks_not_lowered_refl].
    by apply peaks_not_lowered_same.
  - unfold DJTrackInstanceViewSet.seek.
    destruct (DJTrackInstanceViewSet.get_object user pk d);
      [| apply peaks_not_lowered_refl].
    by apply peaks_not_lowered_same.
  - unfold DJTrackInstanceViewSet.add_cue.
    destruct (DJTrackInstanceViewSet.get_object user pk d);
      [| apply peaks_not_lowered_refl].
    by apply peaks_not_lowered_same.
  - unfold DJTrackInstanceViewSet.destroy.
    destruct (DJTrackInstanceViewSet.get_object user pk d);
      [| apply peaks_not_lowered_refl].
    by apply peaks_not_lowered_same.
  - unfold audio_levels_create.
    destruct (djsession d !! _) as [s |] eqn:Hs; [| apply peaks_not_lowered_refl].
    destruct (negb _); [apply peaks_not_lowered_refl |].
    unfold AudioLevelSnapshotViewSet.perform_create. rewrite Hs.
    destruct (audiolevelsnapshot d !! _); [apply peaks_not_lowered_refl |].
    destruct Hk as [Hk _]. pose proof (Hk _ _ Hs) as Hid. simpl in Hid.
    erewrite save_levels_row by (simpl; rewrite Hid; exact Hs). simpl.
    eapply peaks_not_lowered_insert; [reflexivity |].
    intros s0 Hs0. rewrite Hid in Hs0. assert (s0 = s) as -> by congruence.
    simpl. lia.
  - unfold stream_metrics_create.
    destruct (djsession d !! _) as [s |] eqn:Hs; [| apply peaks_not_lowered_refl].
    destruct (negb _); [apply peaks_not_lowered_refl |].
    unfold LiveStreamMetricsViewSet.perform_create. rewrite Hs.
    destruct (livestreammetrics d !! _); [apply peaks_not_lowered_refl |].
    destruct Hk as [Hk _]. pose proof (Hk _ _ Hs) as Hid. simpl in Hid.
    cbn [DJSession.peak_listeners DJSession.set_current_listeners].
    destruct (LiveStreamMetrics.current_listeners metrics
              >? DJSession.peak_listeners s) eqn:Hgt;
      (erewrite save_listeners_row by (simpl; rewrite Hid; exact Hs)); simpl;
      (eapply peaks_not_lowered_insert; [reflexivity |]);
      intros s0 Hs0; rewrite Hid in Hs0; assert (s0 = s) as -> by congruence;
      simpl; lia.
  - apply (peaks_not_lowered_listener_update self listener_count
             (DJSessionConsumer.mk_world d ∅ true [] [])). by destruct Hk.
  - unfold Command.stop_session.
    destruct (djsession d !! session_id) as [s |] eqn:Hs;
      [| apply peaks_not_lowered_refl].
    destruct (is_active s); [| apply peaks_not_lowered_refl].
    destruct Hk as [Hk _]. pose proof (Hk _ _ Hs) as Hid. simpl in Hid.
    intros k s0 s' Hs0 Hs'. simpl in Hs'. rewrite Hid in Hs'.
    rewrite lookup_insert in Hs'. case_decide.
    + injection Hs' as <-. subst k. assert (s0 = s) as -> by congruence.
      simpl. lia.
    + assert (s0 = s') as -> by congruence. lia.
  - by eapply peaks_not_lowered_filter.
Qed.

Lemma peak_listeners_never_lowered_witness :
  peaks_not_lowered store_1 (handle (StreamMetricsCreate metrics_2) store_1)
  ∧ peaks_not_lowered store_1
      (handle (ListenerUpdate consumer_1 (JFloat 2.5%float)) store_1)
  ∧ peaks_not_lowered store_1
      (handle (SessionUpdate 7%positive "5d1c" (patch_listeners 1) 170) store_1).
Proof.
  assert (primary_keys store_1) as Hk
    by (apply (bool_decide_unpack _); vm_compute; exact I).
  split; [| split]; by apply peak_listeners_never_lowered.
Defined.

(** ** The session consumer: groups and relayed frames *)

Section consumer_extra.
Import DJSessionConsumer.

Ltac unfold_consumer :=
  unfold receive, connect, disconnect, handle_listener_update,
    handle_audio_levels, handle_mixer_update, handle_track_control,
    get_session_data, objects_get, group_add, group_discard, accept, send,
    group_send, try_except, bind, lift, raise, ret.

Lemma discard_members (members : gset string) (channel c : string) :
  c ∈ members ∖ {[channel]} ↔ (c ≠ channel ∧ c ∈ members).
Proof. rewrite elem_of_difference, elem_of_singleton. tauto. Qed.

Lemma add_discard_members (members : gset string) (channel c : string) :
  c ∈ ({[channel]} ∪ members) ∖ {[channel]} ↔ (c ≠ channel ∧ c ∈ members).
Proof.
  rewrite elem_of_difference, elem_of_union, elem_of_singleton. tauto.
Qed.

Lemma not_in_discard (members : gset string) (channel : string) :
  channel ∉ members ∖ {[channel]}.
Proof. rewrite elem_of_difference, elem_of_singleton. tauto. Qed.

(** X9. Closing a connection releases its group membership: after
    [disconnect], in any world, the channel is not a member of the group of
    its session, every other channel is a member exactly when it was, and
    the other groups, the store and the messages sent to groups are
    unchanged.  The same holds of [connect] followed by [disconnect],
    whether or not the session exists. *)
Theorem disconnect_leaves_group self w :
  (disconnect self w).1 = inr ()
  ∧ group_released self w (disconnect self w).2
  ∧ group_released self w (disconnect self (connect self w).2).2.
Proof.
  split; [done |]. split.
  - unfold_consumer. simpl. split; [| split; [| done]].
    + eexists. split; [apply lookup_insert_eq |].
      split; [apply not_in_discard |]. intros c. apply discard_members.
    + intros g Hg. simpl. by apply lookup_insert_ne.
  - assert (∀ frames,
              group_released self w
                (mk_world (store w)
                   (<[room_group_name (session_id self) :=
                        default ∅
                          (<[room_group_name (session_id self) :=
                               {[channel_name self]}
                               ∪ default ∅
                                   (groups w !! room_group_name (session_id self))]>
                             (groups w) !! room_group_name (session_id self))
                        ∖ {[channel_name self]}]>
                      (<[room_group_name (session_id self) :=
                           {[channel_name self]}
                           ∪ default ∅
                               (groups w !! room_group_name (session_id self))]>
                         (groups w)))
                   true frames (group_sent w))) as Hrel.
    { intros frames. split; [| split; [| done]].
      - eexists. split; [apply lookup_insert_eq |].
        rewrite lookup_insert_eq. simpl.
        split; [apply not_in_discard |]. intros c.
        apply add_discard_members.
      - intros g Hg. simpl. by rewrite !lookup_insert_ne. }
    unfold_consumer. simpl.
    destruct (djsession (store w) !! session_id self); simpl; apply Hrel.
Qed.

(** X10. The three relayed frame types.  A JSON object of type
    [audio_levels], [mixer_update] or [track_control] makes [receive] send
    exactly one message to the group of the connection's session, carrying
    the frame's [levels], [mixer] or [track] entry as it is, or an empty
    object when the entry is absent; nothing is sent to the sender and the
    store is not touched, whether or not the session exists. *)
Theorem receive_relays_payload self d w :
  let relayed event :=
    (inr (),
     mk_world (store w) (groups w) (accepted w) (sent w)
       (group_sent w ++ [(room_group_name (session_id self), event)])) in
  (d !! "type" = Some (JStr "audio_levels") →
     receive self (Decodes (JDict d)) w
     = relayed (audio_levels_update (default (JDict ∅) (d !! "levels"))))
  ∧ (d !! "type" = Some (JStr "mixer_update") →
       receive self (Decodes (JDict d)) w
       = relayed (mixer_state_update (default (JDict ∅) (d !! "mixer"))))
  ∧ (d !! "type" = Some (JStr "track_control") →
       receive self (Decodes (JDict d)) w
       = relayed (track_control_update (default (JDict ∅) (d !! "track")))).
Proof.
  intros relayed. subst relayed.
  split; [| split]; intros Ht; unfold_consumer; simpl; by rewrite Ht.
Qed.

Lemma receive_relays_payload_witness :
  receive consumer_1 (Decodes (JDict frame_levels)) world_1
  = (inr (),
     mk_world store_1 (groups world_1) true []
       [(room_group_name "5d1c",
         audio_levels_update (JDict {["master" := JFloat 0.5%float]}))])
  ∧ receive consumer_2 (Decodes (JDict frame_mixer)) world_1
    = (inr (),
       mk_world store_1 (groups world_1) true []
         [(room_group_name "0000", mixer_state_update (JDict ∅))]).
Proof.
  split.
  - apply (proj1 (receive_relays_payload consumer_1 frame_levels world_1)).
    vm_compute. reflexivity.
  - apply (proj1 (proj2 (receive_relays_payload consumer_2 frame_mixer world_1))).
    vm_compute. reflexivity.
Defined.

Lemma py_eq_str_true v literal : py_eq_str v literal = true → v = JStr literal.
Proof.
  destruct v; try done. simpl. intros H. by apply bool_decide_eq_true in H as ->.
Qed.

(** What [update_session_listeners] can do to the world: only the store can
    change; it returns, or raises an exception no handler of the consumer
    catches, and then the store is unchanged too. *)
Lemma update_session_listeners_effect self v w :
  let r := update_session_listeners self v w in
  groups r.2 = groups w ∧ accepted r.2 = accepted w
  ∧ sent r.2 = sent w ∧ group_sent r.2 = group_sent w
  ∧ (r.1 = inr () ∨ ∃ e, r.1 = inl e ∧ uncaught e ∧ r.2 = w).
Proof.
  unfold update_session_listeners, try_except, bind, objects_get, lift,
    get_store, set_store, raise, ret. simpl.
  destruct (djsession (store w) !! session_id self) as [s |]; simpl;
    [| by repeat split; try left].
  destruct (py_gt_int v _) as [e | g] eqn:Hgt.
  { destruct (py_gt_int_uncaught _ _ _ Hgt) as [He1 He2]. simpl. rewrite He1.
    repeat split; try done. right. by exists e. }
  simpl. destruct (to_positive_integer_column v) as [e | c] eqn:Hc.
  { destruct (to_positive_integer_column_uncaught _ _ Hc) as [He1 He2].
    simpl. rewrite He1. repeat split; try done. right. by exists e. }
  simpl.
  destruct (to_positive_integer_column (if g then v else _)) as [e | p] eqn:Hp.
  { destruct (to_positive_integer_column_uncaught _ _ Hp) as [He1 He2].
    simpl. rewrite He1. repeat split; try done. right. by exists e. }
  simpl. destruct (DJSession_save_listeners _ _) as [e | d'] eqn:Hsave.
  { destruct (save_listeners_uncaught _ _ _ Hsave) as [He1 He2].
    simpl. rewrite He1. repeat split; try done. right. by exists e. }
  simpl. repeat split; try done. by left.
Qed.

(** X11. What one inbound frame can do.  Whatever the frame, [receive]
    leaves the group registry and the accepted flag alone, writes to the
    store only when the frame is a JSON object of type [listener_update],
    and sends at most one thing: either nothing at all, or the one error
    frame of a text that is not JSON, or one message to the group of the
    connection's own session, never to another group and never both a
    message and an error frame. *)
Theorem receive_effects self text_data w :
  let r := receive self text_data w in
  groups r.2 = groups w
  ∧ accepted r.2 = accepted w
  ∧ (store r.2 = store w
     ∨ ∃ d, text_data = Decodes (JDict d)
            ∧ d !! "type" = Some (JStr "listener_update"))
  ∧ ((sent r.2 = sent w ∧ group_sent r.2 = group_sent w)
     ∨ (text_data = Undecodable
        ∧ sent r.2 = sent w ++ [error "Invalid JSON format"]
        ∧ group_sent r.2 = group_sent w)
     ∨ (∃ event,
          sent r.2 = sent w
          ∧ group_sent r.2
            = group_sent w ++ [(room_group_name (session_id self), event)])).
Proof.
  destruct text_data as [| document].
  { simpl. repeat split; try by left. right. left. by repeat split. }
  destruct document as [| b | z | f | s | l | d];
    try (simpl; repeat split; by left).
  unfold receive, try_except, bind, lift, json_loads, py_getitem, raise, ret.
  destruct (d !! "type") as [t |] eqn:Ht;
    [| simpl; repeat split; by left].
  destruct (py_eq_str t "audio_levels") eqn:E1.
  { unfold handle_audio_levels, bind, lift, py_get, group_send, ret. simpl.
    repeat split; try by left. right. right. by eexists. }
  destruct (py_eq_str t "mixer_update") eqn:E2.
  { unfold handle_mixer_update, bind, lift, py_get, group_send, ret. simpl.
    repeat split; try by left. right. right. by eexists. }
  destruct (py_eq_str t "track_control") eqn:E3.
  { unfold handle_track_control, bind, lift, py_get, group_send, ret. simpl.
    repeat split; try by left. right. right. by eexists. }
  destruct (py_eq_str t "listener_update") eqn:E4;
    [| simpl; repeat split; by left].
  apply py_eq_str_true in E4 as ->.
  unfold handle_listener_update, bind, lift, py_get, group_send, ret.
  pose proof (update_session_listeners_effect self
                (default (JInt 0) (d !! "listeners")) w) as Heff.
  simpl in Heff.
  destruct (update_session_listeners self (default (JInt 0) (d !! "listeners")) w)
    as [[e | []] w'] eqn:Hu; simpl in *;
    destruct Heff as (Hg & Ha & Hs & Hgs & Hres).
  - destruct Hres as [? | (e' & [= <-] & [_ He] & ->)]; [done |].
    rewrite He. simpl. repeat split; try by left.
  - rewrite Hg, Ha, Hs, Hgs. repeat split.
    + right. by exists d.
    + right. right. by eexists.
Qed.

(** X12. A [listener_update] whose count is not a number (a string, null,
    a list or an object), on a connection whose session is in the store:
    the comparison with the peak raises [TypeError], which [receive] does
    not handle; nothing is persisted and nothing is sent, to the group or
    to the sender.  (With no such session the same frame is relayed to the
    group, since the count is then never compared.) *)
Theorem listener_update_not_a_number self d w session v :
  d !! "type" = Some (JStr "listener_update") →
  d !! "listeners" = Some v →
  as_number v = None →
  djsession (store w) !! session_id self = Some session →
  receive self (Decodes (JDict d)) w = (inl TypeError, w).
Proof.
  intros Ht Hv Hn Hs.
  unfold receive, handle_listener_update, update_session_listeners, try_except,
    bind, lift, json_loads, py_getitem, py_get, objects_get, raise, ret.
  rewrite Ht. simpl. rewrite Hv. simpl. rewrite Hs.
  unfold py_gt_int. rewrite Hn. done.
Qed.

Lemma listener_update_not_a_number_witness :
  receive consumer_1 (Decodes (JDict frame_listeners_text)) world_1
  = (inl TypeError, world_1)
  ∧ (receive consumer_2 (Decodes (JDict frame_listeners_text)) world_1).1 = inr ().
Proof.
  split; [| vm_compute; reflexivity].
  apply (listener_update_not_a_number consumer_1 frame_listeners_text world_1
           session_1 (JStr "many")); vm_compute; reflexivity.
Defined.

End consumer_extra.

(** ** From group messages to subscribers *)

Section delivery.
Import DJSessionConsumer.

(** X13. What subscribers get from a relayed frame.  For an inbound JSON
    object of type [audio_levels], [mixer_update] or [track_control],
    [receive] publishes one message whose handler sends each subscriber a
    frame of the same type carrying the same entry ([levels], [mixer],
    [track]), an empty object when the entry was absent, and no other key;
    when the inbound object has exactly these two keys, the frame equals
    it.  For [listener_update], whenever [receive] returns, the subscribers
    get the count under the other type name [listener_count]. *)
Theorem relayed_frame_delivery self d w :
  let group := room_group_name (session_id self) in
  let delivers (frame : gmap string frame_value) :=
    ∃ message,
      group_sent (receive self (Decodes (JDict d)) w).2
      = group_sent w ++ [(group, message)]
      ∧ dispatch message = Some frame in
  (d !! "type" = Some (JStr "audio_levels") →
     delivers {["type" := FJson (JStr "audio_levels");
                "levels" := FJson (default (JDict ∅) (d !! "levels"))]}
     ∧ ∀ levels,
         d = {["type" := JStr "audio_levels"; "levels" := levels]} →
         delivers (FJson <$> d))
  ∧ (d !! "type" = Some (JStr "mixer_update") →
       delivers {["type" := FJson (JStr "mixer_update");
                  "mixer" := FJson (default (JDict ∅) (d !! "mixer"))]})
  ∧ (d !! "type" = Some (JStr "track_control") →
       delivers {["type" := FJson (JStr "track_control");
                  "track" := FJson (default (JDict ∅) (d !! "track"))]})
  ∧ (d !! "type" = Some (JStr "listener_update") →
     (receive self (Decodes (JDict d)) w).1 = inr () →
       delivers {["type" := FJson (JStr "listener_count");
                  "listeners" := FJson (default (JInt 0) (d !! "listeners"))]}).
Proof.
  intros group delivers. subst group delivers.
  assert (d !! "type" = Some (JStr "audio_levels") →
          ∃ message,
            group_sent (receive self (Decodes (JDict d)) w).2
            = group_sent w ++ [(room_group_name (session_id self), message)]
            ∧ dispatch message
              = Some {["type" := FJson (JStr "audio_levels");
                       "levels" := FJson (default (JDict ∅) (d !! "levels"))]})
    as Hlevels.
  { intros Ht.
    unfold receive, handle_audio_levels, try_except, bind, lift, json_loads,
      py_getitem, py_get, group_send, raise, ret.
    rewrite Ht. simpl. by eexists. }
  split; [| split; [| split]].
  - intros Ht. split; [by apply Hlevels |].
    intros levels Hd. destruct (Hlevels Ht) as (message & Hm & Hdisp).
    exists message. split; [done |]. rewrite Hdisp. f_equal.
    rewrite Hd. rewrite fmap_insert, map_fmap_singleton.
    rewrite lookup_insert_ne by done. by rewrite lookup_singleton_eq.
  - intros Ht.
    unfold receive, handle_mixer_update, try_except, bind, lift, json_loads,
      py_getitem, py_get, group_send, raise, ret.
    rewrite Ht. simpl. by eexists.
  - intros Ht.
    unfold receive, handle_track_control, try_except, bind, lift, json_loads,
      py_getitem, py_get, group_send, raise, ret.
    rewrite Ht. simpl. by eexists.
  - intros Ht.
    unfold receive, handle_listener_update, try_except, bind, lift, json_loads,
      py_getitem, py_get, group_send, raise, ret.
    rewrite Ht. simpl.
    pose proof (update_session_listeners_effect self
                  (default (JInt 0) (d !! "listeners")) w) as Heff.
    simpl in Heff.
    destruct (update_session_listeners self (default (JInt 0) (d !! "listeners")) w)
      as [[e | []] w'] eqn:Hu; simpl in *;
      destruct Heff as (_ & _ & _ & Hgs & Hres).
    + destruct Hres as [? | (e' & [= <-] & [_ He] & ->)]; [done |].
      rewrite He. done.
    + intros _. rewrite Hgs. by eexists.
Qed.

Lemma relayed_frame_delivery_witness :
  ∃ message,
    group_sent (receive consumer_1 (Decodes (JDict frame_levels)) world_1).2
    = group_sent world_1 ++ [(room_group_name "5d1c", message)]
    ∧ dispatch message = Some (FJson <$> frame_levels).
Proof.
  destruct (relayed_frame_delivery consumer_1 frame_levels world_1)
    as (Hlevels & _).
  destruct (Hlevels ltac:(vm_compute; reflexivity)) as [_ Hecho].
  exact (Hecho (JDict {["master" := JFloat 0.5%float]}) eq_refl).
Defined.

End delivery.




(** ** The global consumer's count of active sessions *)






(** ** Effective BPM *)





(** ** Playback controls *)

Lemma get_object_after_save user pk auto_now d t t' :
  primary_keys d →
  DJTrackInstanceViewSet.get_object user pk d = Some t →
  DJTrackInstance.id t' = DJTrackInstance.id t →
  DJTrackInstance.session t' = DJTrackInstance.session t →
  DJTrackInstanceViewSet.get_object user pk (DJTrackInstance_save auto_now t' d).2
  = Some (DJTrackInstance.set_updated_at auto_now t')
  ∧ DJTrackInstance.id t = pk.
Proof.
  intros [_ Hk] Hg Hid Hs.
  pose proof (get_object_track_Some _ _ _ _ Hg) as Ht.
  pose proof (Hk _ _ Ht) as Hpk. simpl in Hpk.
  split; [| done].
  unfold DJTrackInstanceViewSet.get_object in *.
  cbn [DJTrackInstance_save snd djtrackinstance djsession with_djtrackinstance].
  assert (DJTrackInstance.id (DJTrackInstance.set_updated_at auto_now t') = pk)
    as -> by (simpl; congruence).
  rewrite lookup_insert_eq. rewrite Ht in Hg.
  assert (DJTrackInstance.session (DJTrackInstance.set_updated_at auto_now t')
          = DJTrackInstance.session t) as -> by done.
  destruct (djsession d !! DJTrackInstance.session t); [| done].
  by case_decide.
Qed.

Lemma play_store user pk auto_now d t :
  DJTrackInstanceViewSet.get_object user pk d = Some t →
  (DJTrackInstanceViewSet.play user pk auto_now d).1.2
  = (DJTrackInstance_save auto_now (DJTrackInstance.set_is_playing true t) d).2.
Proof. intros Hg. unfold DJTrackInstanceViewSet.play. by rewrite Hg. Qed.

Lemma pause_store user pk auto_now d t :
  DJTrackInstanceViewSet.get_object user pk d = Some t →
  (DJTrackInstanceViewSet.pause user pk auto_now d).1.2
  = (DJTrackInstance_save auto_now (DJTrackInstance.set_is_playing false t) d).2.
Proof. intros Hg. unfold DJTrackInstanceViewSet.pause. by rewrite Hg. Qed.

Lemma seek_store user pk position auto_now d t :
  DJTrackInstanceViewSet.get_object user pk d = Some t →
  (DJTrackInstanceViewSet.seek user pk position auto_now d).1.2
  = (DJTrackInstance_save auto_now
       (DJTrackInstance.set_current_position position t) d).2.
Proof. intros Hg. unfold DJTrackInstanceViewSet.seek. by rewrite Hg. Qed.

Lemma save_after_save a1 a2 t1 t2 d :
  DJTrackInstance.id t2 = DJTrackInstance.id t1 →
  (DJTrackInstance_save a2 t2 (DJTrackInstance_save a1 t1 d).2).2
  = with_djtrackinstance
      (<[DJTrackInstance.id t1 := DJTrackInstance.set_updated_at a2 t2]>
         (djtrackinstance d)) d.
Proof.
  intros Hid. unfold DJTrackInstance_save, with_djtrackinstance.
  cbn [snd djsession djtrackinstance audiolevelsnapshot livestreammetrics].
  f_equal.
  assert (DJTrackInstance.id (DJTrackInstance.set_updated_at a2 t2)
          = DJTrackInstance.id (DJTrackInstance.set_updated_at a1 t1)) as ->
    by (simpl; exact Hid).
  assert (DJTrackInstance.id (DJTrackInstance.set_updated_at a1 t1)
          = DJTrackInstance.id t1) as -> by done.
  apply insert_insert_eq.
Qed.

(** X17. Playback controls are last-write-wins on the stored row: on a
    store whose rows sit under their primary keys, pausing after playing
    leaves the store that pausing alone leaves, playing after pausing the
    one that playing alone leaves, and a seek after a seek the one of the
    second seek alone, for rows the caller can reach and for those it
    cannot. *)
Theorem playback_last_write_wins user pk d :
  primary_keys d →
  (∀ a1 a2,
     (DJTrackInstanceViewSet.pause user pk a2
        (DJTrackInstanceViewSet.play user pk a1 d).1.2).1.2
     = (DJTrackInstanceViewSet.pause user pk a2 d).1.2)
  ∧ (∀ a1 a2,
       (DJTrackInstanceViewSet.play user pk a2
          (DJTrackInstanceViewSet.pause user pk a1 d).1.2).1.2
       = (DJTrackInstanceViewSet.play user pk a2 d).1.2)
  ∧ (∀ p1 p2 a1 a2,
       (DJTrackInstanceViewSet.seek user pk p2 a2
          (DJTrackInstanceViewSet.seek user pk p1 a1 d).1.2).1.2
       = (DJTrackInstanceViewSet.seek user pk p2 a2 d).1.2).
Proof.
  intros Hk.
  destruct (DJTrackInstanceViewSet.get_object user pk d) as [t |] eqn:Hg.
  - split; [| split]; intros.
    + destruct (get_object_after_save user pk a1 d t
                  (DJTrackInstance.set_is_playing true t) Hk Hg eq_refl eq_refl)
        as [Hg' Hid].
      rewrite (play_store _ _ _ _ _ Hg), (pause_store _ _ _ _ _ Hg'),
        (pause_store _ _ _ _ _ Hg).
      by rewrite save_after_save.
    + destruct (get_object_after_save user pk a1 d t
                  (DJTrackInstance.set_is_playing false t) Hk Hg eq_refl eq_refl)
        as [Hg' Hid].
      rewrite (pause_store _ _ _ _ _ Hg), (play_store _ _ _ _ _ Hg'),
        (play_store _ _ _ _ _ Hg).
      by rewrite save_after_save.
    + destruct (get_object_after_save user pk a1 d t
                  (DJTrackInstance.set_current_position p1 t) Hk Hg eq_refl eq_refl)
        as [Hg' Hid].
      rewrite (seek_store _ _ _ _ _ _ Hg), (seek_store _ _ _ _ _ _ Hg'),
        (seek_store _ _ _ _ _ _ Hg).
      by rewrite save_after_save.
  - unfold DJTrackInstanceViewSet.pause, DJTrackInstanceViewSet.play,
      DJTrackInstanceViewSet.seek. rewrite Hg. cbn [fst snd http404].
    by rewrite Hg.
Qed.

Lemma playback_last_write_wins_witness :
  (DJTrackInstanceViewSet.pause 7%positive "a0f3" 501
     (DJTrackInstanceViewSet.play 7%positive "a0f3" 500 store_1).1.2).1.2
  = (DJTrackInstanceViewSet.pause 7%positive "a0f3" 501 store_1).1.2
  ∧ (DJTrackInstanceViewSet.seek 7%positive "a0f3" 9%float 501
       (DJTrackInstanceViewSet.seek 7%positive "a0f3" 4%float 500 store_1).1.2).1.2
    = (DJTrackInstanceViewSet.seek 7%positive "a0f3" 9%float 501 store_1).1.2.
Proof.
  assert (primary_keys store_1) as Hk
    by (apply (bool_decide_unpack _); vm_compute; exact I).
  destruct (playback_last_write_wins 7%positive "a0f3" store_1 Hk)
    as (Hpause & _ & Hseek).
  split; [apply Hpause | apply Hseek].
Defined.

(** ** Listener updates that are persisted *)

Section listener_updates.
Import DJSessionConsumer.

(** X18. A [listener_update] frame on a connection whose session is in the
    store, with an integer count in the range of the column (the count is 0
    when the frame has no [listeners] entry): [receive] returns, the
    session row gets [current_listeners] equal to the count and
    [peak_listeners] equal to the greater of its previous peak and the
    count, one [listener_count_update] with the count goes to the session's
    group, and nothing is sent back to the sender. *)
Theorem listener_update_persisted self d w session n :
  map_Forall (λ k s, DJSession.id s = k) (djsession (store w)) →
  d !! "type" = Some (JStr "listener_update") →
  default (JInt 0) (d !! "listeners") = JInt n →
  djsession (store w) !! session_id self = Some session →
  0 ≤ n ≤ 2147483647 →
  0 ≤ DJSession.peak_listeners session ≤ 2147483647 →
  ∃ w',
    receive self (Decodes (JDict d)) w = (inr (), w')
    ∧ djsession (store w') !! session_id self
      = Some (DJSession.set_peak_listeners
                (Z.max (DJSession.peak_listeners session) n)
                (DJSession.set_current_listeners n session))
    ∧ sent w' = sent w
    ∧ group_sent w'
      = group_sent w
        ++ [(room_group_name (session_id self), listener_count_update (JInt n))].
Proof.
  intros Hk Ht Hn Hs Hrange Hpeak.
  destruct (update_session_listeners_persisted self n w session Hk Hs Hrange Hpeak)
    as (w1 & Hrun & Hrow & Hsent & Hgs).
  unfold receive, handle_listener_update, try_except, bind, lift, json_loads,
    py_getitem, py_get, group_send, raise, ret.
  rewrite Ht. simpl. rewrite Hn, Hrun. simpl.
  eexists. split; [reflexivity |]. simpl. by rewrite Hsent, Hgs.
Qed.

Lemma listener_update_persisted_witness :
  ∃ w',
    receive consumer_1 (Decodes (JDict frame_listeners)) world_1 = (inr (), w')
    ∧ djsession (store w') !! "5d1c"
      = Some (DJSession.set_peak_listeners 25
                (DJSession.set_current_listeners 25 session_1))
    ∧ group_sent w'
      = [(room_group_name "5d1c", listener_count_update (JInt 25))].
Proof.
  destruct (listener_update_persisted consumer_1 frame_listeners world_1
              session_1 25) as (w' & Hr & Hrow & _ & Hgs).
  - apply (bool_decide_unpack _). vm_compute. exact I.
  - vm_compute. reflexivity.
  - vm_compute. reflexivity.
  - vm_compute. reflexivity.
  - lia.
  - vm_compute. split; discriminate.
  - exists w'. split; [exact Hr |]. split; [exact Hrow |]. exact Hgs.
Defined.

End listener_updates.

(** ** Real-time statistics *)

Section newest.
Context {A : Type} (key : A → datetime).

Lemma newest_spec (q : gmap uuid A) :
  match newest key q with
  | None => q = ∅
  | Some r =>
      (∃ k, q !! k = Some r) ∧ ∀ k r', q !! k = Some r' → key r' ≤ key r
  end.
Proof.
  unfold newest.
  assert (∀ l : list (uuid * A),
            match foldr (λ kv best,
                           match best with
                           | Some b => if key b <? key kv.2 then Some kv.2 else Some b
                           | None => Some kv.2
                           end) None l with
            | None => l = []
            | Some r => (∃ k, (k, r) ∈ l)
                        ∧ ∀ k r', (k, r') ∈ l → key r' ≤ key r
            end) as Hlist.
  { induction l as [| [k x] l IH]; [done |]. simpl.
    destruct (foldr _ None l) as [b |].
    - destruct IH as [[kb Hb] Hmax].
      destruct (key b <? key x) eqn:Hlt.
      + split; [exists k; apply list_elem_of_here |].
        intros k' r' Hin. apply elem_of_cons in Hin as [[= -> ->] | Hin]; [lia |].
        specialize (Hmax _ _ Hin). lia.
      + split; [exists kb; by apply list_elem_of_further |].
        intros k' r' Hin. apply elem_of_cons in Hin as [[= -> ->] | Hin]; [lia |].
        by apply (Hmax k').
    - subst l. split; [exists k; apply list_elem_of_here |].
      intros k' r' Hin. apply elem_of_cons in Hin as [[= -> ->] | Hin]; [lia |].
      by apply elem_of_nil in Hin. }
  specialize (Hlist (map_to_list q)).
  destruct (foldr _ None (map_to_list q)) as [r |].
  - destruct Hlist as [[k Hk] Hmax]. split.
    + exists k. by apply elem_of_map_to_list.
    + intros k' r' Hr'. apply (Hmax k'). by apply elem_of_map_to_list.
  - by apply map_to_list_empty_iff.
Qed.

End newest.






Lemma filter_rows_at_most_one {A} (P : A → Prop) `{!∀ x, Decision (P x)}
  (l : list (uuid * A)) :
  NoDup l.*1 →
  (∀ k1 x1 k2 x2, (k1, x1) ∈ l → (k2, x2) ∈ l → P x1 → P x2 → k1 = k2) →
  (length (filter P l.*2) ≤ 1)%nat.
Proof.
  induction l as [| [k x] l IH]; intros Hnd Hone; [simpl; lia |].
  apply NoDup_cons in Hnd as [Hk Hnd]. rewrite !fmap_cons. simpl.
  destruct (decide (P x)) as [Hp | Hp].
  - rewrite filter_cons_True by done.
    assert (filter P l.*2 = []) as ->; [| simpl; lia].
    destruct (filter P l.*2) as [| y ys] eqn:Hf; [done |]. exfalso.
    assert (y ∈ filter P l.*2) as Hy by (rewrite Hf; apply list_elem_of_here).
    apply list_elem_of_filter in Hy as [Hpy Hy].
    apply list_elem_of_fmap in Hy as ([k' y'] & -> & Hin). simpl in *.
    assert (k = k') as <-.
    { apply (Hone k x k' y'); try done.
      - apply list_elem_of_here.
      - by apply list_elem_of_further. }
    apply Hk. apply list_elem_of_fmap. by exists (k, y').
  - rewrite filter_cons_False by done. apply IH; [done |].
    intros k1 x1 k2 x2 H1 H2. apply Hone; by apply list_elem_of_further.
Qed.

Lemma order_by_deck_elem (q : gmap uuid DJTrackInstance.t) t :
  t ∈ order_by_deck q ↔ ∃ k, q !! k = Some t.
Proof.
  unfold order_by_deck. rewrite elem_of_app, !list_elem_of_filter.
  assert (t ∈ (map_to_list q).*2 ↔ ∃ k, q !! k = Some t) as ->.
  { rewrite list_elem_of_fmap. split.
    - intros ([k t'] & -> & Hin). exists k. by apply elem_of_map_to_list.
    - intros [k Hk]. exists (k, t). split; [done |]. by apply elem_of_map_to_list. }
  destruct (DJTrackInstance.deck t); split;
    [intros [[? ?] | [? ?]]; done | intros ?; first [left; by split | right; by split]
    | intros [[? ?] | [? ?]]; done | intros ?; first [left; by split | right; by split]].
Qed.

(** X20. The active tracks of the statistics, on a store that satisfies
    deck occupancy: [realtime_stats] lists exactly the track instances of
    the session whose [ended_at] is null, ordered by deck, and at most one
    for deck A followed by at most one for deck B. *)
Theorem realtime_stats_active_tracks user pk djmixerstate d stats :
  primary_keys d →
  deck_occupancy d →
  realtime_stats user pk djmixerstate d = Some stats →
  (∃ on_a on_b,
     active_tracks stats = on_a ++ on_b
     ∧ (length on_a ≤ 1)%nat ∧ (length on_b ≤ 1)%nat
     ∧ Forall (λ t, DJTrackInstance.deck t = DeckA) on_a
     ∧ Forall (λ t, DJTrackInstance.deck t = DeckB) on_b)
  ∧ (∀ t, t ∈ active_tracks stats
          ↔ ∃ k, djtrackinstance d !! k = Some t
                 ∧ DJTrackInstance.session t = pk
                 ∧ DJTrackInstance.ended_at t = None).
Proof.
  intros [Hk _] Hocc. apply deck_occupancy_iff in Hocc.
  unfold realtime_stats.
  destruct (DJSessionViewSet.get_object user pk d) as [session |] eqn:Hg; [| done].
  intros [= <-]. cbn [active_tracks].
  apply get_object_session_Some in Hg as [Hg _].
  pose proof (Hk _ _ Hg) as Hid. simpl in Hid. rewrite Hid. clear Hid.
  set (q := objects_filter (active_in_session pk) (djtrackinstance d)).
  assert (∀ k1 t1 k2 t2 (deck : deck_choice),
            (k1, t1) ∈ map_to_list q → (k2, t2) ∈ map_to_list q →
            DJTrackInstance.deck t1 = deck → DJTrackInstance.deck t2 = deck →
            k1 = k2) as Hone.
  { intros k1 t1 k2 t2 deck H1 H2 D1 D2.
    apply elem_of_map_to_list, objects_filter_lookup in H1 as [H1 A1].
    apply elem_of_map_to_list, objects_filter_lookup in H2 as [H2 A2].
    apply active_in_session_true in A1 as [? ?].
    apply active_in_session_true in A2 as [? ?].
    apply (Hocc k1 t1 H1 k2 t2 H2); congruence. }
  split.
  - exists (filter (λ t, DJTrackInstance.deck t = DeckA) (map_to_list q).*2),
      (filter (λ t, DJTrackInstance.deck t = DeckB) (map_to_list q).*2).
    split; [done |].
    split; [apply filter_rows_at_most_one;
            [apply NoDup_fst_map_to_list | by eauto using Hone] |].
    split; [apply filter_rows_at_most_one;
            [apply NoDup_fst_map_to_list | by eauto using Hone] |].
    split; apply Forall_forall; intros t Ht;
      by apply list_elem_of_filter in Ht as [? _].
  - intros t. rewrite order_by_deck_elem. subst q. split.
    + intros [k Hkt]. apply objects_filter_lookup in Hkt as [Hkt Ha].
      apply active_in_session_true in Ha as [? ?]. by exists k.
    + intros (k & Hkt & Hs & He). exists k. apply objects_filter_lookup.
      split; [done |]. by apply active_in_session_true.
Qed.

Lemma realtime_stats_active_tracks_witness :
  ∃ stats,
    realtime_stats 7%positive "5d1c" ∅ store_4 = Some stats
    ∧ active_tracks stats = [track_1; track_5]
    ∧ (∀ t, t ∈ active_tracks stats
            ↔ ∃ k, djtrackinstance store_4 !! k = Some t
                   ∧ DJTrackInstance.session t = "5d1c"
                   ∧ DJTrackInstance.ended_at t = None).
Proof.
  destruct (realtime_stats 7%positive "5d1c" ∅ store_4) as [stats |] eqn:Hrun;
    [| vm_compute in Hrun; discriminate].
  exists stats. split; [done |].
  destruct (realtime_stats_active_tracks 7%positive "5d1c" ∅ store_4 stats)
    as [_ Hmem].
  - apply (bool_decide_unpack _). vm_compute. exact I.
  - apply deck_occupancy_iff. apply (bool_decide_unpack _). vm_compute. exact I.
  - exact Hrun.
  - split; [| exact Hmem].
    vm_compute in Hrun. injection Hrun as <-. vm_compute. reflexivity.
Defined.

(** X21. The latest telemetry of the statistics.  [realtime_stats] reports
    no audio levels exactly when the session has no snapshot; otherwise the
    snapshot it reports belongs to the session and no snapshot of the
    session has a later timestamp.  The same holds of the stream metrics by
    timestamp and of the mixer state by [updated_at]. *)
Theorem realtime_stats_latest user pk djmixerstate d stats :
  primary_keys d →
  realtime_stats user pk djmixerstate d = Some stats →
  match latest_audio_levels stats with
  | None => ∀ k a, audiolevelsnapshot d !! k = Some a →
                   AudioLevelSnapshot.session a ≠ pk
  | Some a =>
      (∃ k, audiolevelsnapshot d !! k = Some a)
      ∧ AudioLevelSnapshot.session a = pk
      ∧ ∀ k a', audiolevelsnapshot d !! k = Some a' →
                AudioLevelSnapshot.session a' = pk →
                AudioLevelSnapshot.timestamp a' ≤ AudioLevelSnapshot.timestamp a
  end
  ∧ match latest_stream_metrics stats with
    | None => ∀ k m, livestreammetrics d !! k = Some m →
                     LiveStreamMetrics.session m ≠ pk
    | Some m =>
        (∃ k, livestreammetrics d !! k = Some m)
        ∧ LiveStreamMetrics.session m = pk
        ∧ ∀ k m', livestreammetrics d !! k = Some m' →
                  LiveStreamMetrics.session m' = pk →
                  LiveStreamMetrics.timestamp m' ≤ LiveStreamMetrics.timestamp m
    end
  ∧ match current_mixer_state stats with
    | None => ∀ k m, djmixerstate !! k = Some m → DJMixerState.session m ≠ pk
    | Some m =>
        (∃ k, djmixerstate !! k = Some m)
        ∧ DJMixerState.session m = pk
        ∧ ∀ k m', djmixerstate !! k = Some m' →
                  DJMixerState.session m' = pk →
                  DJMixerState.updated_at m' ≤ DJMixerState.updated_at m
    end.
Proof.
  intros [Hk _]. unfold realtime_stats.
  destruct (DJSessionViewSet.get_object user pk d) as [session |] eqn:Hg; [| done].
  intros [= <-].
  cbn [latest_audio_levels latest_stream_metrics current_mixer_state].
  apply get_object_session_Some in Hg as [Hg _].
  pose proof (Hk _ _ Hg) as Hid. simpl in Hid. rewrite Hid. clear Hid.
  split; [| split].
  - pose proof (newest_spec AudioLevelSnapshot.timestamp
                  (objects_filter
                     (λ a, bool_decide (AudioLevelSnapshot.session a = pk))
                     (audiolevelsnapshot d))) as Hn.
    destruct (newest _ _) as [a |].
    + destruct Hn as [[k Hka] Hmax].
      apply objects_filter_lookup in Hka as [Hka Hs].
      apply bool_decide_eq_true in Hs.
      split; [by exists k |]. split; [done |].
      intros k' a' Hk' Hs'. apply (Hmax k'). apply objects_filter_lookup.
      split; [done |]. by apply bool_decide_eq_true.
    + intros k a Hka Hs.
      assert (objects_filter
                (λ a, bool_decide (AudioLevelSnapshot.session a = pk))
                (audiolevelsnapshot d) !! k = Some a) as Hin.
      { apply objects_filter_lookup. split; [done |]. by apply bool_decide_eq_true. }
      by rewrite Hn, lookup_empty in Hin.
  - pose proof (newest_spec LiveStreamMetrics.timestamp
                  (objects_filter
                     (λ m, bool_decide (LiveStreamMetrics.session m = pk))
                     (livestreammetrics d))) as Hn.
    destruct (newest _ _) as [m |].
    + destruct Hn as [[k Hkm] Hmax].
      apply objects_filter_lookup in Hkm as [Hkm Hs].
      apply bool_decide_eq_true in Hs.
      split; [by exists k |]. split; [done |].
      intros k' m' Hk' Hs'. apply (Hmax k'). apply objects_filter_lookup.
      split; [done |]. by apply bool_decide_eq_true.
    + intros k m Hkm Hs.
      assert (objects_filter
                (λ m, bool_decide (LiveStreamMetrics.session m = pk))
                (livestreammetrics d) !! k = Some m) as Hin.
      { apply objects_filter_lookup. split; [done |]. by apply bool_decide_eq_true. }
      by rewrite Hn, lookup_empty in Hin.
  - pose proof (newest_spec DJMixerState.updated_at
                  (objects_filter
                     (λ m, bool_decide (DJMixerState.session m = pk))
                     djmixerstate)) as Hn.
    destruct (newest _ _) as [m |].
    + destruct Hn as [[k Hkm] Hmax].
      apply objects_filter_lookup in Hkm as [Hkm Hs].
      apply bool_decide_eq_true in Hs.
      split; [by exists k |]. split; [done |].
      intros k' m' Hk' Hs'. apply (Hmax k'). apply objects_filter_lookup.
      split; [done |]. by apply bool_decide_eq_true.
    + intros k m Hkm Hs.
      assert (objects_filter
                (λ m, bool_decide (DJMixerState.session m = pk))
                djmixerstate !! k = Some m) as Hin.
      { apply objects_filter_lookup. split; [done |]. by apply bool_decide_eq_true. }
      by rewrite Hn, lookup_empty in Hin.
Qed.

Lemma realtime_stats_latest_witness :
  ∃ stats,
    realtime_stats 7%positive "5d1c" ∅ store_4 = Some stats
    ∧ latest_audio_levels stats = Some snapshot_4
    ∧ latest_stream_metrics stats = None
    ∧ ∀ k a', audiolevelsnapshot store_4 !! k = Some a' →
              AudioLevelSnapshot.session a' = "5d1c" →
              AudioLevelSnapshot.timestamp a' ≤ 180.
Proof.
  destruct (realtime_stats 7%positive "5d1c" ∅ store_4) as [stats |] eqn:Hrun;
    [| vm_compute in Hrun; discriminate].
  exists stats. split; [done |].
  destruct (realtime_stats_latest 7%positive "5d1c" ∅ store_4 stats)
    as (Hlevels & _ & _).
  - apply (bool_decide_unpack _). vm_compute. exact I.
  - exact Hrun.
  - assert (latest_audio_levels stats = Some snapshot_4
            ∧ latest_stream_metrics stats = None) as [Ea Em].
    { vm_compute in Hrun. injection Hrun as <-. split; vm_compute; reflexivity. }
    rewrite Ea in Hlevels. destruct Hlevels as (_ & _ & Hmax).
    split; [exact Ea |]. split; [exact Em |]. exact Hmax.
Defined.
